(** * libworkspace: a shallow embedding of the preload library

    The development follows [src/internal/vm/embed/libworkspace.c].  The
    program is a set of replacements for the libc entry points [openat],
    [fstatat], [faccessat] and [fopen] that redirect every path below
    [/workspace] to a host file server and keep a local copy below
    [/tmp/.wscache/].

    The C functions are translated one by one into a state monad over a
    [World], the state of the guest process together with the part of its
    environment the library talks to: the local file system, the descriptor
    table, the stream to the host and the host itself.  The first part of
    the file is that environment, the second the library, the third the
    properties. *)

From Stdlib Require Import ZArith Lia Ascii.
From stdpp Require Import base gmap strings list.
From coqutil Require Import Byte.

Local Open Scope Z_scope.

(** ** Constants *)

(** Constants of the source file. *)
Definition OP_STAT : Z := 1.
Definition OP_READ : Z := 2.
Definition OP_READDIR : Z := 3.
Definition STATUS_OK : Z := 0.
Definition STATUS_NOENT : Z := 1.

Definition WORKSPACE_PREFIX : string := "/workspace/".
Definition WORKSPACE_PREFIX_LEN : nat := 11.
Definition WORKSPACE_DIR : string := "/workspace".
Definition CACHE_DIR : string := "/tmp/.wscache/".
Definition CACHE_DIR_LEN : nat := 14.
Definition READ_CHUNK_SIZE : Z := 1024 * 1024.

(** Constants of the Linux headers the source includes ([limits.h],
    [fcntl.h], [unistd.h], [sys/stat.h], [errno.h]), with their x86-64
    values. *)
Definition PATH_MAX : Z := 4096.
Definition AT_FDCWD : Z := -100.
Definition AT_SYMLINK_NOFOLLOW : Z := 256.

Definition O_RDONLY : Z := 0.
Definition O_WRONLY : Z := 1.
Definition O_RDWR : Z := 2.
Definition O_CREAT : Z := 64.
Definition O_EXCL : Z := 128.
Definition O_TRUNC : Z := 512.
Definition O_APPEND : Z := 1024.
Definition O_DIRECTORY : Z := 65536.
Definition __O_TMPFILE : Z := 4194304.

Definition F_OK : Z := 0.
Definition X_OK : Z := 1.
Definition W_OK : Z := 2.
Definition R_OK : Z := 4.

Definition S_IFMT : Z := 61440.
Definition S_IFDIR : Z := 16384.
Definition S_IFREG : Z := 32768.

Definition ENOENT : Z := 2.
Definition EIO : Z := 5.
Definition EBADF : Z := 9.
Definition ENOMEM : Z := 12.
Definition EFAULT : Z := 14.
Definition EEXIST : Z := 17.
Definition ENOTDIR : Z := 20.
Definition EISDIR : Z := 21.
Definition EINVAL : Z := 22.
Definition EROFS : Z := 30.
Definition ERANGE : Z := 34.

(** [S_ISDIR(m)] of [sys/stat.h]. *)
Definition S_ISDIR (m : Z) : bool := Z.land m S_IFMT =? S_IFDIR.

(** [flags & mask] read as a C truth value. *)
Definition has_flag (flags mask : Z) : bool := negb (Z.land flags mask =? 0).

(** ** Fixed-width integers and bytes *)

Definition u8 (b : byte) : Z := byte.unsigned b.
Definition to_u8 (z : Z) : byte := byte.of_Z z.
Definition wrap16 (z : Z) : Z := z mod 2 ^ 16.
Definition wrap32 (z : Z) : Z := z mod 2 ^ 32.
Definition wrap64 (z : Z) : Z := z mod 2 ^ 64.

(** The value of a 64-bit pattern read as [off_t] or [time_t]. *)
Definition signed64 (z : Z) : Z :=
  let u := wrap64 z in if u <? 2 ^ 63 then u else u - 2 ^ 64.

(** [buf[i]] of a [uint8_t] buffer, promoted to an integer.  The library reads
    a buffer only below a length it has checked. *)
Definition at_ (buf : list byte) (i : nat) : Z := u8 (nth i buf Byte.x00).

(** The big-endian packing the source writes out with shifts and masks. *)
Definition be16 (x : Z) : list byte :=
  [to_u8 (Z.land (Z.shiftr x 8) 255); to_u8 (Z.land x 255)].

Definition be32 (x : Z) : list byte :=
  [to_u8 (Z.land (Z.shiftr x 24) 255); to_u8 (Z.land (Z.shiftr x 16) 255);
   to_u8 (Z.land (Z.shiftr x 8) 255); to_u8 (Z.land x 255)].

Definition be64 (x : Z) : list byte :=
  [to_u8 (Z.land (Z.shiftr x 56) 255); to_u8 (Z.land (Z.shiftr x 48) 255);
   to_u8 (Z.land (Z.shiftr x 40) 255); to_u8 (Z.land (Z.shiftr x 32) 255);
   to_u8 (Z.land (Z.shiftr x 24) 255); to_u8 (Z.land (Z.shiftr x 16) 255);
   to_u8 (Z.land (Z.shiftr x 8) 255); to_u8 (Z.land x 255)].

(** The unpacking, from position [i] of a buffer. *)
Definition rd32 (buf : list byte) (i : nat) : Z :=
  Z.lor (Z.lor (Z.lor (Z.shiftl (at_ buf i) 24) (Z.shiftl (at_ buf (i + 1)) 16))
               (Z.shiftl (at_ buf (i + 2)) 8))
        (at_ buf (i + 3)).

Definition rd64 (buf : list byte) (i : nat) : Z :=
  Z.lor (Z.lor (Z.lor (Z.lor (Z.lor (Z.lor (Z.lor
    (Z.shiftl (at_ buf i) 56) (Z.shiftl (at_ buf (i + 1)) 48))
    (Z.shiftl (at_ buf (i + 2)) 40)) (Z.shiftl (at_ buf (i + 3)) 32))
    (Z.shiftl (at_ buf (i + 4)) 24)) (Z.shiftl (at_ buf (i + 5)) 16))
    (Z.shiftl (at_ buf (i + 6)) 8)) (at_ buf (i + 7)).

Definition len {A} (l : list A) : Z := Z.of_nat (length l).

(** ** C strings *)

(** A path is a [string]; [strlen] is its length and the terminating NUL is
    not represented. *)
Definition strlen (s : string) : Z := Z.of_nat (String.length s).

Fixpoint str_take (n : nat) (s : string) : string :=
  match n, s with
  | S n', String c s' => String c (str_take n' s')
  | _, _ => EmptyString
  end.

Fixpoint str_drop (n : nat) (s : string) : string :=
  match n, s with
  | S n', String _ s' => str_drop n' s'
  | _, _ => s
  end.

(** What [snprintf(buf, size, ...)] and [strncpy(buf, s, size - 1)] followed by
    [buf[size - 1] = 0] leave in [buf] when the text is [s]: at most
    [size - 1] characters of it. *)
Definition truncated (size : Z) (s : string) : string :=
  str_take (Z.to_nat (size - 1)) s.

(** [strchr(s, c) != NULL]. *)
Fixpoint strchr (s : string) (c : ascii) : bool :=
  match s with
  | EmptyString => false
  | String d s' => if Ascii.eqb d c then true else strchr s' c
  end.

Definition path_bytes (s : string) : list byte := String.list_byte_of_string s.

(** ** The environment *)

(** *** Local file system

    The file system maps a path, as it is spelled, to a directory or to a
    regular file with its content.  Two spellings of one path (a doubled or
    trailing separator, a dot component, a symbolic link) are two keys:
    the model does not resolve them. *)
Inductive node :=
| NDir
| NFile (data : list byte).

Inductive fdesc :=
| FdFile (path : string)
| FdSock.

(** [struct stat]. *)
Record struct_stat := {
  st_dev : Z; st_ino : Z; st_nlink : Z; st_mode : Z; st_uid : Z; st_gid : Z;
  st_rdev : Z; st_size : Z; st_blksize : Z; st_blocks : Z;
  st_atime : Z; st_mtime : Z; st_ctime : Z
}.

(** [memset(st, 0, sizeof( *st))]. *)
Definition stat_zero : struct_stat :=
  {| st_dev := 0; st_ino := 0; st_nlink := 0; st_mode := 0; st_uid := 0;
     st_gid := 0; st_rdev := 0; st_size := 0; st_blksize := 0; st_blocks := 0;
     st_atime := 0; st_mtime := 0; st_ctime := 0 |}.

(** *** Faults

    A system call can fail or transfer fewer bytes than asked for reasons the
    model does not follow (permissions, a full disk, a broken link).  The
    world carries a script of such decisions; every fallible call consumes
    one entry, and an exhausted script means no fault. *)
Inductive fault :=
| FOk
| FFail
| FShort (k : Z).

(** *** Log

    Ghost state: what an observer outside the library would record.  No
    decision of the library or of the environment reads the log, except the
    host, which may answer according to the requests it has received. *)
Inductive event :=
| EvConnect (fd : Z)
| EvRequest (frame : list byte)
| EvRealOpenat (dirfd : Z) (pathname : option string) (flags mode : Z)
| EvRealFstatat (dirfd : Z) (pathname : option string) (flags : Z)
| EvRealFaccessat (dirfd : Z) (pathname : option string) (mode flags : Z)
| EvRealFopen (pathname : option string) (mode : string)
| EvRealFdopen (fd : Z) (mode : string).

Definition requests_of (t : list event) : list (list byte) :=
  omap (λ e, match e with EvRequest f => Some f | _ => None end) t.

(** *** World *)
Record World := {
  w_fs : gmap string node;        (* local file system *)
  w_fds : gmap Z fdesc;            (* open descriptors *)
  w_next_fd : nat;                 (* next descriptor the kernel hands out *)
  w_cwd : option string;           (* working directory, if it can be named *)
  w_tmpctr : Z;                    (* source of the names mkstemp picks *)
  w_errno : Z;
  w_in_hook : bool;                (* static __thread int in_hook *)
  w_vsock_fd : Z;                  (* static int vsock_fd *)
  w_tx : list byte;                (* sent on the stream, not yet read by the host *)
  w_rx : list byte;                (* sent by the host, not yet received *)
  w_host : list (list byte) → list byte → list byte;
                                   (* the host: requests seen so far, bytes
                                      arriving now, bytes it sends back *)
  w_script : list fault;
  w_trace : list event
}.

Definition set_fs (v : gmap string node) (w : World) : World :=
  {| w_fs := v; w_fds := w_fds w; w_next_fd := w_next_fd w; w_cwd := w_cwd w;
     w_tmpctr := w_tmpctr w; w_errno := w_errno w; w_in_hook := w_in_hook w;
     w_vsock_fd := w_vsock_fd w; w_tx := w_tx w; w_rx := w_rx w;
     w_host := w_host w; w_script := w_script w; w_trace := w_trace w |}.

Definition set_fds (v : gmap Z fdesc) (w : World) : World :=
  {| w_fs := w_fs w; w_fds := v; w_next_fd := w_next_fd w; w_cwd := w_cwd w;
     w_tmpctr := w_tmpctr w; w_errno := w_errno w; w_in_hook := w_in_hook w;
     w_vsock_fd := w_vsock_fd w; w_tx := w_tx w; w_rx := w_rx w;
     w_host := w_host w; w_script := w_script w; w_trace := w_trace w |}.

Definition set_next_fd (v : nat) (w : World) : World :=
  {| w_fs := w_fs w; w_fds := w_fds w; w_next_fd := v; w_cwd := w_cwd w;
     w_tmpctr := w_tmpctr w; w_errno := w_errno w; w_in_hook := w_in_hook w;
     w_vsock_fd := w_vsock_fd w; w_tx := w_tx w; w_rx := w_rx w;
     w_host := w_host w; w_script := w_script w; w_trace := w_trace w |}.

Definition set_tmpctr (v : Z) (w : World) : World :=
  {| w_fs := w_fs w; w_fds := w_fds w; w_next_fd := w_next_fd w; w_cwd := w_cwd w;
     w_tmpctr := v; w_errno := w_errno w; w_in_hook := w_in_hook w;
     w_vsock_fd := w_vsock_fd w; w_tx := w_tx w; w_rx := w_rx w;
     w_host := w_host w; w_script := w_script w; w_trace := w_trace w |}.

Definition set_errno (v : Z) (w : World) : World :=
  {| w_fs := w_fs w; w_fds := w_fds w; w_next_fd := w_next_fd w; w_cwd := w_cwd w;
     w_tmpctr := w_tmpctr w; w_errno := v; w_in_hook := w_in_hook w;
     w_vsock_fd := w_vsock_fd w; w_tx := w_tx w; w_rx := w_rx w;
     w_host := w_host w; w_script := w_script w; w_trace := w_trace w |}.

Definition set_in_hook (v : bool) (w : World) : World :=
  {| w_fs := w_fs w; w_fds := w_fds w; w_next_fd := w_next_fd w; w_cwd := w_cwd w;
     w_tmpctr := w_tmpctr w; w_errno := w_errno w; w_in_hook := v;
     w_vsock_fd := w_vsock_fd w; w_tx := w_tx w; w_rx := w_rx w;
     w_host := w_host w; w_script := w_script w; w_trace := w_trace w |}.

Definition set_vsock_fd (v : Z) (w : World) : World :=
  {| w_fs := w_fs w; w_fds := w_fds w; w_next_fd := w_next_fd w; w_cwd := w_cwd w;
     w_tmpctr := w_tmpctr w; w_errno := w_errno w; w_in_hook := w_in_hook w;
     w_vsock_fd := v; w_tx := w_tx w; w_rx := w_rx w;
     w_host := w_host w; w_script := w_script w; w_trace := w_trace w |}.

Definition set_tx (v : list byte) (w : World) : World :=
  {| w_fs := w_fs w; w_fds := w_fds w; w_next_fd := w_next_fd w; w_cwd := w_cwd w;
     w_tmpctr := w_tmpctr w; w_errno := w_errno w; w_in_hook := w_in_hook w;
     w_vsock_fd := w_vsock_fd w; w_tx := v; w_rx := w_rx w;
     w_host := w_host w; w_script := w_script w; w_trace := w_trace w |}.

Definition set_rx (v : list byte) (w : World) : World :=
  {| w_fs := w_fs w; w_fds := w_fds w; w_next_fd := w_next_fd w; w_cwd := w_cwd w;
     w_tmpctr := w_tmpctr w; w_errno := w_errno w; w_in_hook := w_in_hook w;
     w_vsock_fd := w_vsock_fd w; w_tx := w_tx w; w_rx := v;
     w_host := w_host w; w_script := w_script w; w_trace := w_trace w |}.

Definition set_script (v : list fault) (w : World) : World :=
  {| w_fs := w_fs w; w_fds := w_fds w; w_next_fd := w_next_fd w; w_cwd := w_cwd w;
     w_tmpctr := w_tmpctr w; w_errno := w_errno w; w_in_hook := w_in_hook w;
     w_vsock_fd := w_vsock_fd w; w_tx := w_tx w; w_rx := w_rx w;
     w_host := w_host w; w_script := v; w_trace := w_trace w |}.

Definition set_trace (v : list event) (w : World) : World :=
  {| w_fs := w_fs w; w_fds := w_fds w; w_next_fd := w_next_fd w; w_cwd := w_cwd w;
     w_tmpctr := w_tmpctr w; w_errno := w_errno w; w_in_hook := w_in_hook w;
     w_vsock_fd := w_vsock_fd w; w_tx := w_tx w; w_rx := w_rx w;
     w_host := w_host w; w_script := w_script w; w_trace := v |}.

(** *** The state monad *)
Definition M (A : Type) : Type := World → A * World.

#[global] Instance M_ret : MRet M := λ A a w, (a, w).
#[global] Instance M_bind : MBind M :=
  λ A B f m w, let '(a, w') := m w in f a w'.

Definition get {A} (f : World → A) : M A := λ w, (f w, w).
Definition modify (f : World → World) : M unit := λ w, (tt, f w).
Definition log (e : event) : M unit :=
  λ w, (tt, set_trace (w_trace w ++ [e]) w).

(** A failing system call: [errno] is set and -1 returned. *)
Definition fail (e : Z) : M Z := modify (set_errno e) ;; mret (-1).

Definition next_fault : M fault :=
  λ w, match w_script w with
       | [] => (FOk, w)
       | f :: s => (f, set_script s w)
       end.

(** *** Descriptors *)
Definition alloc_fd (d : fdesc) : M Z :=
  λ w, let fd := Z.of_nat (w_next_fd w) in
       (fd, set_next_fd (S (w_next_fd w)) (set_fds (<[fd := d]> (w_fds w)) w)).

(** [close(fd)]; the library never looks at its result. *)
Definition sys_close (fd : Z) : M unit :=
  λ w, match w_fds w !! fd with
       | Some _ => (tt, set_fds (delete fd (w_fds w)) w)
       | None => (tt, set_errno EBADF w)
       end.

(** What [/proc/self/fd/<fd>] links to. *)
Definition fd_link (d : fdesc) : string :=
  match d with
  | FdFile p => p
  | FdSock => "socket:[vsock]"
  end.

(** [getcwd(buf, size)]: the text stored in [buf], or [None] for NULL. *)
Definition sys_getcwd (size : Z) : M (option string) :=
  cwd ← get w_cwd;
  match cwd with
  | None => fail ENOENT ;; mret None
  | Some d =>
      if strlen d >=? size then fail ERANGE ;; mret None else mret (Some d)
  end.

(** [readlink("/proc/self/fd/<fd>", buf, bufsiz)]: the bytes stored in [buf]
    (readlink truncates silently), or [None] for a negative result. *)
Definition sys_readlink_fd (fd : Z) (bufsiz : Z) : M (option string) :=
  fds ← get w_fds;
  match fds !! fd with
  | None => fail ENOENT ;; mret None
  | Some d => mret (Some (str_take (Z.to_nat bufsiz) (fd_link d)))
  end.

(** *** File-system calls *)

(** [mkdir(path, mode)]. *)
Definition sys_mkdir (path : string) (mode : Z) : M Z :=
  f ← next_fault;
  fs ← get w_fs;
  match f with
  | FFail => fail EIO
  | _ => match fs !! path with
         | Some _ => fail EEXIST
         | None => modify (set_fs (<[path := NDir]> fs)) ;; mret 0
         end
  end.

Definition digit (d : Z) : ascii := ascii_of_N (Z.to_N (48 + d mod 10)).

(** The six characters [mkstemp] puts in place of [XXXXXX]. *)
Definition suffix6 (n : Z) : string :=
  String (digit (n / 100000)) (String (digit (n / 10000))
  (String (digit (n / 1000)) (String (digit (n / 100))
  (String (digit (n / 10)) (String (digit n) EmptyString))))).

(** [mkstemp(template)]: the descriptor and the content of the template
    buffer on return.  The template must end in [XXXXXX]; the file is created
    empty under a name that does not exist yet. *)
Definition sys_mkstemp (template : string) : M (Z * string) :=
  f ← next_fault;
  let n := String.length template in
  match f with
  | FFail => r ← fail EIO; mret (r, template)
  | _ =>
      if negb (String.eqb (str_drop (n - 6)%nat template) "XXXXXX")
      then r ← fail EINVAL; mret (r, template)
      else
        ctr ← get w_tmpctr;
        let name := str_take (n - 6)%nat template +:+ suffix6 ctr in
        modify (set_tmpctr (ctr + 1)) ;;
        fs ← get w_fs;
        match fs !! name with
        | Some _ => r ← fail EEXIST; mret (r, template)
        | None =>
            modify (set_fs (<[name := NFile []]> fs)) ;;
            fd ← alloc_fd (FdFile name);
            mret (fd, name)
        end
  end.

(** Bytes transferred by a call asked for [n > 0] bytes. *)
Definition xfer (f : fault) (n : Z) : Z :=
  match f with
  | FShort k => if (0 <? k) && (k <? n) then k else n
  | _ => n
  end.

(** [write(fd, data, |data|)] on a descriptor positioned at the end of its
    file. *)
Definition sys_write (fd : Z) (data : list byte) : M Z :=
  f ← next_fault;
  fds ← get w_fds;
  fs ← get w_fs;
  match f with
  | FFail => fail EIO
  | _ =>
      match fds !! fd with
      | Some (FdFile p) =>
          match fs !! p with
          | Some (NFile old) =>
              let k := xfer f (len data) in
              modify (set_fs (<[p := NFile (old ++ take (Z.to_nat k) data)]> fs)) ;;
              mret k
          | _ => fail EBADF
          end
      | _ => fail EBADF
      end
  end.

(** [rename(old, new)]. *)
Definition sys_rename (old new : string) : M Z :=
  f ← next_fault;
  fs ← get w_fs;
  match f with
  | FFail => fail EIO
  | _ => match fs !! old with
         | None => fail ENOENT
         | Some nd => modify (set_fs (<[new := nd]> (delete old fs))) ;; mret 0
         end
  end.

(** [unlink(path)]; it does not fail on a file that is there. *)
Definition sys_unlink (path : string) : M Z :=
  fs ← get w_fs;
  match fs !! path with
  | Some (NFile _) => modify (set_fs (delete path fs)) ;; mret 0
  | Some NDir => fail EISDIR
  | None => fail ENOENT
  end.

(** [malloc(n) != NULL]. *)
Definition sys_malloc (n : Z) : M bool :=
  f ← next_fault;
  match f with
  | FFail => modify (set_errno ENOMEM) ;; mret false
  | _ => mret true
  end.

(** *** The stream to the host *)

(** [socket(AF_VSOCK, SOCK_STREAM, 0)]. *)
Definition sys_socket : M Z :=
  f ← next_fault;
  match f with
  | FFail => fail EIO
  | _ => alloc_fd FdSock
  end.

(** [connect(fd, host:FILE_SERVER_PORT)]: a fresh, empty stream. *)
Definition sys_connect (fd : Z) : M Z :=
  f ← next_fault;
  match f with
  | FFail => fail EIO
  | _ => modify (set_tx []) ;; modify (set_rx []) ;; log (EvConnect fd) ;; mret 0
  end.

(** [send(fd, data, |data|, MSG_NOSIGNAL)]. *)
Definition sys_send (fd : Z) (data : list byte) : M Z :=
  f ← next_fault;
  match f with
  | FFail => fail EIO
  | _ =>
      let k := xfer f (len data) in
      tx ← get w_tx;
      modify (set_tx (tx ++ take (Z.to_nat k) data)) ;;
      mret k
  end.

(** The host reads what has been sent to it, records it and answers. *)
Definition host_turn : M unit :=
  λ w, match w_tx w with
       | [] => (tt, w)
       | req =>
           let reply := w_host w (requests_of (w_trace w)) req in
           (tt, set_trace (w_trace w ++ [EvRequest req])
                  (set_rx (w_rx w ++ reply) (set_tx [] w)))
       end.

(** [recv(fd, buf, n, 0)]: the result and the bytes stored.  With nothing
    left to receive the peer has closed or the timeout expires: the result is
    0. *)
Definition sys_recv (fd : Z) (n : Z) : M (Z * list byte) :=
  host_turn ;;
  f ← next_fault;
  match f with
  | FFail => r ← fail EIO; mret (r, [])
  | _ =>
      rx ← get w_rx;
      let k := xfer f (Z.min n (len rx)) in
      modify (set_rx (drop (Z.to_nat k) rx)) ;;
      mret (k, take (Z.to_nat k) rx)
  end.

(** *** The real libc functions

    [real_openat], [real_fstatat], [real_faccessat], [real_fopen] and
    [real_fdopen] are what [dlsym(RTLD_NEXT, ...)] returns: the functions of
    the C library the hooks stand in front of. *)

(** The path the kernel looks up for [pathname] relative to [dirfd]. *)
Definition kernel_path (w : World) (dirfd : Z) (pathname : string) : option string :=
  match pathname with
  | EmptyString => None
  | String "/"%char _ => Some pathname
  | _ =>
      d ← (if dirfd =? AT_FDCWD then w_cwd w
           else match w_fds w !! dirfd with
                | Some (FdFile d) => Some d
                | _ => None
                end);
      Some (d +:+ "/" +:+ pathname)
  end.

Definition kernel_open (dirfd : Z) (pathname : option string) (flags mode : Z) : M Z :=
  match pathname with
  | None => fail EFAULT
  | Some p =>
      kp ← get (λ w, kernel_path w dirfd p);
      match kp with
      | None => fail ENOENT
      | Some path =>
          fs ← get w_fs;
          match fs !! path with
          | Some NDir =>
              if has_flag flags (Z.lor O_CREAT O_EXCL) && has_flag flags O_CREAT
              then fail EEXIST
              else if has_flag flags (Z.lor O_WRONLY O_RDWR) then fail EISDIR
              else alloc_fd (FdFile path)
          | Some (NFile d) =>
              if has_flag flags O_EXCL && has_flag flags O_CREAT then fail EEXIST
              else if has_flag flags O_DIRECTORY then fail ENOTDIR
              else
                (if has_flag flags O_TRUNC
                 then modify (set_fs (<[path := NFile []]> fs)) else mret tt) ;;
                alloc_fd (FdFile path)
          | None =>
              if has_flag flags O_CREAT
              then modify (set_fs (<[path := NFile []]> fs)) ;; alloc_fd (FdFile path)
              else fail ENOENT
          end
      end
  end.

Definition stat_of_node (nd : node) : struct_stat :=
  match nd with
  | NDir =>
      {| st_dev := 0; st_ino := 0; st_nlink := 2; st_mode := Z.lor S_IFDIR 493;
         st_uid := 0; st_gid := 0; st_rdev := 0; st_size := 4096;
         st_blksize := 4096; st_blocks := 8;
         st_atime := 0; st_mtime := 0; st_ctime := 0 |}
  | NFile d =>
      {| st_dev := 0; st_ino := 0; st_nlink := 1; st_mode := Z.lor S_IFREG 384;
         st_uid := 0; st_gid := 0; st_rdev := 0; st_size := len d;
         st_blksize := 4096; st_blocks := (len d + 511) / 512;
         st_atime := 0; st_mtime := 0; st_ctime := 0 |}
  end.

Definition real_openat (dirfd : Z) (pathname : option string) (flags mode : Z) : M Z :=
  log (EvRealOpenat dirfd pathname flags mode) ;;
  kernel_open dirfd pathname flags mode.

(** The result and the content of [statbuf] on return. *)
Definition real_fstatat (dirfd : Z) (pathname : option string)
    (statbuf : struct_stat) (flags : Z) : M (Z * struct_stat) :=
  log (EvRealFstatat dirfd pathname flags) ;;
  match pathname with
  | None => r ← fail EFAULT; mret (r, statbuf)
  | Some p =>
      kp ← get (λ w, kernel_path w dirfd p);
      fs ← get w_fs;
      match kp ≫= (λ path, fs !! path) with
      | Some nd => mret (0, stat_of_node nd)
      | None => r ← fail ENOENT; mret (r, statbuf)
      end
  end.

Definition real_faccessat (dirfd : Z) (pathname : option string) (mode flags : Z) : M Z :=
  log (EvRealFaccessat dirfd pathname mode flags) ;;
  match pathname with
  | None => fail EFAULT
  | Some p =>
      kp ← get (λ w, kernel_path w dirfd p);
      fs ← get w_fs;
      match kp ≫= (λ path, fs !! path) with
      | Some _ => mret 0
      | None => fail ENOENT
      end
  end.

(** The open flags of an [fopen] mode string. *)
Definition fopen_flags (mode : string) : option Z :=
  let plus := strchr mode "+"%char in
  match mode with
  | String "r"%char _ => Some (if plus then O_RDWR else O_RDONLY)
  | String "w"%char _ =>
      Some (Z.lor (if plus then O_RDWR else O_WRONLY) (Z.lor O_CREAT O_TRUNC))
  | String "a"%char _ =>
      Some (Z.lor (if plus then O_RDWR else O_WRONLY) (Z.lor O_CREAT O_APPEND))
  | _ => None
  end.

(** A [FILE *] is [None] for NULL or the descriptor the stream reads. *)
Definition real_fopen (pathname : option string) (mode : string) : M (option Z) :=
  log (EvRealFopen pathname mode) ;;
  match fopen_flags mode with
  | None => fail EINVAL ;; mret None
  | Some fl =>
      fd ← kernel_open AT_FDCWD pathname fl 438;
      if fd <? 0 then mret None else mret (Some fd)
  end.

Definition real_fdopen (fd : Z) (mode : string) : M (option Z) :=
  log (EvRealFdopen fd mode) ;;
  fds ← get w_fds;
  match fds !! fd with
  | Some _ => mret (Some fd)
  | None => fail EBADF ;; mret None
  end.

(** ** The library *)

(** *** Path helpers *)

(** [resolve_path]: [Some resolved] for the result 0, [None] for -1. *)
Definition resolve_path (dirfd : Z) (pathname : option string)
    (resolved_size : Z) : M (option string) :=
  match pathname with
  | None => mret None
  | Some pathname =>
      match pathname with
      | String "/"%char _ =>
          (* Absolute path *)
          if strlen pathname >=? resolved_size then mret None
          else mret (Some (truncated resolved_size pathname))
      | _ =>
          (* Relative path: need CWD or dirfd *)
          dp ← (if dirfd =? AT_FDCWD then sys_getcwd PATH_MAX
                else sys_readlink_fd dirfd (PATH_MAX - 1));
          match dp with
          | None => mret None
          | Some dirpath =>
              let text := dirpath +:+ "/" +:+ pathname in
              if strlen text >=? resolved_size then mret None
              else mret (Some text)
          end
      end
  end.

(** [is_workspace_path]: [Some rel] for the result 1, [None] for 0. *)
Definition is_workspace_path (resolved : string) : option string :=
  if String.eqb (str_take WORKSPACE_PREFIX_LEN resolved) WORKSPACE_PREFIX
  then Some (str_drop WORKSPACE_PREFIX_LEN resolved)
  else if String.eqb resolved WORKSPACE_DIR then Some EmptyString
  else None.

(** [cache_path_for]: [Some buf] for the result 0, [None] for -1. *)
Definition cache_path_for (rel : string) (bufsize : Z) : option string :=
  let text := CACHE_DIR +:+ rel in
  if strlen text >=? bufsize then None else Some text.

(** *** Vsock communication

    The mutex [vsock_mu] is not modelled: the world has one thread. *)

Definition vsock_connect : M Z :=
  vfd ← get w_vsock_fd;
  if vfd >=? 0 then mret 0 else
  fd ← sys_socket;
  if fd <? 0 then mret (-1) else
  (* the two setsockopt calls set the timeouts of the socket *)
  c ← sys_connect fd;
  if c <? 0 then sys_close fd ;; mret (-1) else
  modify (set_vsock_fd fd) ;;
  mret 0.

Definition vsock_disconnect : M unit :=
  vfd ← get w_vsock_fd;
  if vfd >=? 0 then sys_close vfd ;; modify (set_vsock_fd (-1))
  else mret tt.

(** [send_all(fd, buf, |buf|)]. *)
Fixpoint send_all_loop (fuel : nat) (fd : Z) (buf : list byte) : M Z :=
  if negb (len buf >? 0) then mret 0 else
  match fuel with
  | O => mret (-1)
  | S fuel' =>
      sent ← sys_send fd buf;
      if sent <=? 0 then mret (-1)
      else send_all_loop fuel' fd (drop (Z.to_nat sent) buf)
  end.

Definition send_all (fd : Z) (buf : list byte) : M Z :=
  send_all_loop (length buf) fd buf.

(** [recv_all(fd, buf, n)]: the result and the bytes stored in [buf]. *)
Fixpoint recv_all_loop (fuel : nat) (fd : Z) (n : Z) (buf : list byte)
    : M (Z * list byte) :=
  if negb (n >? 0) then mret (0, buf) else
  match fuel with
  | O => mret (-1, buf)
  | S fuel' =>
      '(got, bytes) ← sys_recv fd n;
      if got <=? 0 then mret (-1, buf)
      else recv_all_loop fuel' fd (n - got) (buf ++ bytes)
  end.

Definition recv_all (fd : Z) (n : Z) : M (Z * list byte) :=
  recv_all_loop (Z.to_nat n) fd n [].

(** [send_request]: [Some (resp, resp_len)] for a response buffer, [None] for
    NULL. *)
Definition send_request (msg : list byte) (msg_len : Z)
    : M (option (list byte * Z)) :=
  let len_buf := be32 msg_len in
  vfd ← get w_vsock_fd;
  r ← send_all vfd len_buf;
  if r <? 0 then mret None else
  r ← send_all vfd msg;
  if r <? 0 then mret None else
  '(r, len_buf) ← recv_all vfd 4;
  if r <? 0 then mret None else
  let resp_len := rd32 len_buf 0 in
  if (resp_len =? 0) || (resp_len >? 16 * 1024 * 1024) then mret None else
  ok ← sys_malloc resp_len;
  if negb ok then mret None else
  '(r, resp) ← recv_all vfd resp_len;
  if r <? 0 then mret None else
  mret (Some (resp, resp_len)).

(** *** Remote file operations *)

(** The request of [remote_stat]: [op=1][2-byte path_len][path]. *)
Definition stat_msg (rel : string) : list byte :=
  let path_len := wrap16 (strlen rel) in
  [to_u8 OP_STAT; to_u8 (Z.land (Z.shiftr path_len 8) 255);
   to_u8 (Z.land path_len 255)]
  ++ take (Z.to_nat path_len) (path_bytes rel).

(** [remote_stat]: the result and the content of [st] on return. *)
Definition remote_stat (rel : string) (st : struct_stat) : M (Z * struct_stat) :=
  let path_len := wrap16 (strlen rel) in
  let msg_len := 1 + 2 + path_len in
  let msg := stat_msg rel in
  c ← vsock_connect;
  if c <? 0 then mret (-1, st) else
  r ← send_request msg msg_len;
  match r with
  | None => vsock_disconnect ;; mret (-1, st)
  | Some (resp, resp_len) =>
      (* Parse: [status][4-byte mode][8-byte size][8-byte mtime][1-byte is_dir] *)
      if (resp_len <? 1) || negb (at_ resp 0 =? STATUS_OK) then mret (-1, st) else
      if resp_len <? 22 then mret (-1, st) else
      let mode := rd32 resp 1 in
      let size := rd64 resp 5 in
      let mtime := rd64 resp 13 in
      let is_dir := negb (at_ resp 21 =? 0) in
      mret (0, {| st_dev := 0; st_ino := 0;
                  st_nlink := if is_dir then 2 else 1;
                  st_mode := Z.lor mode (if is_dir then S_IFDIR else S_IFREG);
                  st_uid := 0; st_gid := 0; st_rdev := 0;
                  st_size := signed64 size;
                  st_blksize := 4096;
                  st_blocks := wrap64 (size + 511) / 512;
                  st_atime := 0; st_mtime := signed64 mtime; st_ctime := 0 |})
  end.

(** The request of [remote_read_chunk]:
    [op=2][2-byte path_len][path][8-byte offset][4-byte len]. *)
Definition read_msg (rel : string) (offset len_ : Z) : list byte :=
  let path_len := wrap16 (strlen rel) in
  [to_u8 OP_READ; to_u8 (Z.land (Z.shiftr path_len 8) 255);
   to_u8 (Z.land path_len 255)]
  ++ take (Z.to_nat path_len) (path_bytes rel)
  ++ be64 offset ++ be32 len_.

(** [remote_read_chunk]: the result and the bytes copied to [buf]. *)
Definition remote_read_chunk (rel : string) (offset : Z) (len_ : Z)
    : M (Z * list byte) :=
  let path_len := wrap16 (strlen rel) in
  let msg_len := 1 + 2 + path_len + 8 + 4 in
  let msg := read_msg rel offset len_ in
  c ← vsock_connect;
  if c <? 0 then mret (-1, []) else
  r ← send_request msg msg_len;
  match r with
  | None => vsock_disconnect ;; mret (-1, [])
  | Some (resp, resp_len) =>
      (* Parse: [status=0][4-byte bytes_read][raw bytes] *)
      if (resp_len <? 1) || negb (at_ resp 0 =? STATUS_OK) then mret (-1, []) else
      if resp_len <? 5 then mret (0, []) else
      let bytes_read := rd32 resp 1 in
      let bytes_read :=
        if bytes_read >? resp_len - 5 then resp_len - 5 else bytes_read in
      let bytes_read := if bytes_read >? len_ then len_ else bytes_read in
      mret (bytes_read, take (Z.to_nat bytes_read) (drop 5 resp))
  end.

(** *** Cache management *)

(** The loop of [mkdirs]: [done] is the text before [p], [rest] the text from
    [p] on. *)
Fixpoint mkdirs_loop (done rest : string) : M unit :=
  match rest with
  | EmptyString => mret tt
  | String c rest' =>
      (if Ascii.eqb c "/" then sys_mkdir done 493 ;; mret tt else mret tt) ;;
      mkdirs_loop (done +:+ String c EmptyString) rest'
  end.

Definition mkdirs (path : string) : M unit :=
  let tmp := truncated PATH_MAX path in
  (* Ensure cache root exists first *)
  sys_mkdir "/tmp/.wscache" 493 ;;
  mkdirs_loop (str_take CACHE_DIR_LEN tmp) (str_drop CACHE_DIR_LEN tmp).

(** The places where [ensure_cached_file] returns.  The label is ghost: the
    function returns [exit_code] of it. *)
Inductive ensure_exit :=
| ExitPathTooLong      (* cache_path_for failed *)
| ExitCached           (* already cached *)
| ExitStatFailed       (* remote_stat failed *)
| ExitDirectory        (* remote directory: cache directory made *)
| ExitMkstempFailed
| ExitMallocFailed
| ExitReadFailed       (* remote_read_chunk failed *)
| ExitWriteFailed      (* write failed *)
| ExitRenameFailed
| ExitPopulated        (* file downloaded and renamed into place *)
| ExitFuel.            (* not reached: the loop ran out of fuel *)

Definition exit_code (e : ensure_exit) : Z :=
  match e with
  | ExitCached | ExitDirectory | ExitPopulated => 0
  | _ => -1
  end.

(** The inner loop [while (written < got)]. *)
Fixpoint write_loop (fuel : nat) (tmp_fd : Z) (chunk_buf : list byte)
    (written got : Z) : M bool :=
  if negb (written <? got) then mret true else
  match fuel with
  | O => mret false
  | S fuel' =>
      w ← sys_write tmp_fd
            (take (Z.to_nat (got - written)) (drop (Z.to_nat written) chunk_buf));
      if w <=? 0 then mret false
      else write_loop fuel' tmp_fd chunk_buf (written + w) got
  end.

(** The loop [while (offset < file_size)] with the exits inside it;
    [ExitPopulated] stands for leaving the loop at its end or at [break]. *)
Fixpoint download_loop (fuel : nat) (rel : string) (tmp_fd : Z)
    (tmp_path : string) (offset file_size : Z) : M ensure_exit :=
  if negb (offset <? file_size) then mret ExitPopulated else
  match fuel with
  | O => mret ExitFuel
  | S fuel' =>
      let want :=
        if file_size - offset <? READ_CHUNK_SIZE
        then wrap32 (file_size - offset) else READ_CHUNK_SIZE in
      '(got, chunk_buf) ← remote_read_chunk rel offset want;
      if got <? 0 then
        sys_close tmp_fd ;; sys_unlink tmp_path ;; mret ExitReadFailed
      else if got =? 0 then mret ExitPopulated
      else
        ok ← write_loop (Z.to_nat got) tmp_fd chunk_buf 0 got;
        if negb ok then
          sys_close tmp_fd ;; sys_unlink tmp_path ;; mret ExitWriteFailed
        else download_loop fuel' rel tmp_fd tmp_path (offset + got) file_size
  end.

Definition ensure_cached_file_exit (rel : string) : M ensure_exit :=
  match cache_path_for rel PATH_MAX with
  | None => mret ExitPathTooLong
  | Some cache_path =>
      (* Check if already cached *)
      '(rc, _) ← real_fstatat AT_FDCWD (Some cache_path) stat_zero 0;
      if rc =? 0 then mret ExitCached else
      (* Stat remote file first *)
      '(rc, remote_st) ← remote_stat rel stat_zero;
      if rc <? 0 then mret ExitStatFailed else
      if S_ISDIR (st_mode remote_st) then
        (* For directories, just create the cache dir *)
        mkdirs cache_path ;;
        sys_mkdir cache_path 493 ;;
        mret ExitDirectory
      else
        (* Create parent directories *)
        mkdirs cache_path ;;
        (* Atomic write: mkstemp, write, rename *)
        '(tmp_fd, tmp_path) ←
          sys_mkstemp (truncated PATH_MAX (cache_path +:+ ".XXXXXX"));
        if tmp_fd <? 0 then mret ExitMkstempFailed else
        (* Download file in chunks *)
        let file_size := wrap64 (st_size remote_st) in
        ok ← sys_malloc READ_CHUNK_SIZE;
        if negb ok then
          sys_close tmp_fd ;; sys_unlink tmp_path ;; mret ExitMallocFailed
        else
          e ← download_loop (Z.to_nat file_size) rel tmp_fd tmp_path 0 file_size;
          match e with
          | ExitPopulated =>
              sys_close tmp_fd ;;
              (* Atomic rename into place *)
              r ← sys_rename tmp_path cache_path;
              if r <? 0 then sys_unlink tmp_path ;; mret ExitRenameFailed
              else mret ExitPopulated
          | _ => mret e
          end
  end.

Definition ensure_cached_file (rel : string) : M Z :=
  e ← ensure_cached_file_exit rel;
  mret (exit_code e).

(** [ensure_cached_stat]: the result and the content of [st] on return. *)
Definition ensure_cached_stat (rel : string) (st : struct_stat)
    : M (Z * struct_stat) :=
  match cache_path_for rel PATH_MAX with
  | None => mret (-1, st)
  | Some cache_path =>
      (* If cached, stat the cache file *)
      '(rc, st') ← real_fstatat AT_FDCWD (Some cache_path) st 0;
      if rc =? 0 then mret (0, st')
      else
        (* Not cached: do remote stat *)
        remote_stat rel st'
  end.

(** *** Intercepted functions

    [init_real_funcs] binds the real functions on first use; they are fixed
    here.  A variadic entry point takes the content of its optional argument
    as [va_mode]. *)

Definition openat (dirfd : Z) (pathname : option string) (flags va_mode : Z) : M Z :=
  let mode := if has_flag flags (Z.lor O_CREAT __O_TMPFILE) then va_mode else 0 in
  in_hook ← get w_in_hook;
  if in_hook || bool_decide (pathname = None)
  then real_openat dirfd pathname flags mode else
  resolved ← resolve_path dirfd pathname PATH_MAX;
  match resolved with
  | None => real_openat dirfd pathname flags mode
  | Some resolved =>
  match is_workspace_path resolved with
  | None => real_openat dirfd pathname flags mode
  | Some rel =>
      (* Read-only workspace *)
      if has_flag flags (Z.lor O_WRONLY O_RDWR)
      then modify (set_errno EROFS) ;; mret (-1) else
      modify (set_in_hook true) ;;
      (* Handle /workspace directory itself *)
      if bool_decide (rel = EmptyString) then
        modify (set_in_hook false) ;;
        sys_mkdir CACHE_DIR 493 ;;
        real_openat AT_FDCWD (Some CACHE_DIR) (Z.lor O_RDONLY O_DIRECTORY) 0
      else
        rc ← ensure_cached_file rel;
        modify (set_in_hook false) ;;
        if rc <? 0 then modify (set_errno ENOENT) ;; mret (-1) else
        match cache_path_for rel PATH_MAX with
        | None => modify (set_errno ENOENT) ;; mret (-1)
        | Some cache_path =>
            modify (set_in_hook true) ;;
            fd ← real_openat AT_FDCWD (Some cache_path)
                   (Z.land flags (Z.lnot (Z.lor O_CREAT O_EXCL))) 0;
            modify (set_in_hook false) ;;
            mret fd
        end
  end
  end.

Definition open (pathname : option string) (flags va_mode : Z) : M Z :=
  let mode := if has_flag flags (Z.lor O_CREAT __O_TMPFILE) then va_mode else 0 in
  openat AT_FDCWD pathname flags mode.

Definition open64 (pathname : option string) (flags va_mode : Z) : M Z :=
  let mode := if has_flag flags (Z.lor O_CREAT __O_TMPFILE) then va_mode else 0 in
  openat AT_FDCWD pathname flags mode.

Definition openat64 (dirfd : Z) (pathname : option string) (flags va_mode : Z) : M Z :=
  let mode := if has_flag flags (Z.lor O_CREAT __O_TMPFILE) then va_mode else 0 in
  openat dirfd pathname flags mode.

(** [fstatat]: the result and the content of [statbuf] on return. *)
Definition fstatat (dirfd : Z) (pathname : option string)
    (statbuf : struct_stat) (flags : Z) : M (Z * struct_stat) :=
  in_hook ← get w_in_hook;
  if in_hook || bool_decide (pathname = None)
  then real_fstatat dirfd pathname statbuf flags else
  resolved ← resolve_path dirfd pathname PATH_MAX;
  match resolved with
  | None => real_fstatat dirfd pathname statbuf flags
  | Some resolved =>
  match is_workspace_path resolved with
  | None => real_fstatat dirfd pathname statbuf flags
  | Some rel =>
      modify (set_in_hook true) ;;
      '(rc, statbuf) ←
        (if bool_decide (rel = EmptyString) then
           (* /workspace itself: synthesize a directory stat *)
           mret (0, {| st_dev := 0; st_ino := 0; st_nlink := 2;
                       st_mode := Z.lor S_IFDIR 493;
                       st_uid := 0; st_gid := 0; st_rdev := 0; st_size := 0;
                       st_blksize := 0; st_blocks := 0;
                       st_atime := 0; st_mtime := 0; st_ctime := 0 |})
         else ensure_cached_stat rel statbuf);
      modify (set_in_hook false) ;;
      if rc <? 0 then modify (set_errno ENOENT) ;; mret (-1, statbuf)
      else mret (0, statbuf)
  end
  end.

Definition __xstat (ver : Z) (pathname : option string) (statbuf : struct_stat)
    : M (Z * struct_stat) :=
  fstatat AT_FDCWD pathname statbuf 0.

Definition __lxstat (ver : Z) (pathname : option string) (statbuf : struct_stat)
    : M (Z * struct_stat) :=
  fstatat AT_FDCWD pathname statbuf AT_SYMLINK_NOFOLLOW.

Definition stat (pathname : option string) (statbuf : struct_stat)
    : M (Z * struct_stat) :=
  fstatat AT_FDCWD pathname statbuf 0.

Definition lstat (pathname : option string) (statbuf : struct_stat)
    : M (Z * struct_stat) :=
  fstatat AT_FDCWD pathname statbuf AT_SYMLINK_NOFOLLOW.

Definition faccessat (dirfd : Z) (pathname : option string) (mode flags : Z) : M Z :=
  in_hook ← get w_in_hook;
  if in_hook || bool_decide (pathname = None)
  then real_faccessat dirfd pathname mode flags else
  resolved ← resolve_path dirfd pathname PATH_MAX;
  match resolved with
  | None => real_faccessat dirfd pathname mode flags
  | Some resolved =>
  match is_workspace_path resolved with
  | None => real_faccessat dirfd pathname mode flags
  | Some rel =>
      (* Write access to workspace is denied *)
      if has_flag mode W_OK then modify (set_errno EROFS) ;; mret (-1) else
      modify (set_in_hook true) ;;
      '(rc, _) ←
        (if bool_decide (rel = EmptyString) then
           (* /workspace itself always exists *)
           mret (0, stat_zero)
         else
           (* Check if file exists via remote stat *)
           ensure_cached_stat rel stat_zero);
      modify (set_in_hook false) ;;
      if rc <? 0 then modify (set_errno ENOENT) ;; mret (-1) else mret 0
  end
  end.

Definition access (pathname : option string) (mode : Z) : M Z :=
  faccessat AT_FDCWD pathname mode 0.

(** [fopen]: a [FILE *] as for [real_fopen]. *)
Definition fopen (pathname : option string) (mode : string) : M (option Z) :=
  in_hook ← get w_in_hook;
  if in_hook || bool_decide (pathname = None) then real_fopen pathname mode else
  resolved ← resolve_path AT_FDCWD pathname PATH_MAX;
  match resolved with
  | None => real_fopen pathname mode
  | Some resolved =>
  match is_workspace_path resolved with
  | None => real_fopen pathname mode
  | Some rel =>
      (* Reject write modes *)
      if strchr mode "w" || strchr mode "a" || strchr mode "+"
      then modify (set_errno EROFS) ;; mret None else
      (* Use our openat to get a cached fd, then fdopen *)
      fd ← openat AT_FDCWD pathname O_RDONLY 0;
      if fd <? 0 then mret None else real_fdopen fd "r"
  end
  end.

Definition fopen64 (pathname : option string) (mode : string) : M (option Z) :=
  fopen pathname mode.

(** ** Vocabulary of the properties *)

(** The relative path of a path the library takes for one of the namespace:
    [resolve_path] followed by [is_workspace_path], as every hook does. *)
Definition classify (dirfd : Z) (pathname : option string) (w : World)
    : option string :=
  match resolve_path dirfd pathname PATH_MAX w with
  | (Some resolved, _) => is_workspace_path resolved
  | (None, _) => None
  end.

(** Connections made and requests received by the host, in order. *)
Definition net_events (t : list event) : list event :=
  omap (λ e, match e with
             | EvConnect _ | EvRequest _ => Some e
             | _ => None
             end) t.

(** Nothing went to the host between [w] and [w']. *)
Definition no_host_contact (w w' : World) : Prop :=
  w_vsock_fd w' = w_vsock_fd w ∧ w_tx w' = w_tx w ∧ w_rx w' = w_rx w ∧
  net_events (w_trace w') = net_events (w_trace w).

(** A frame on the wire: 4-byte big-endian length, then the payload. *)
Definition frame (payload : list byte) : list byte :=
  be32 (len payload) ++ payload.

(** The two ways of [resolve_path]: the path starts with a slash or not. *)
Definition is_absolute (pathname : string) : bool :=
  match pathname with
  | String "/"%char _ => true
  | _ => false
  end.

(** The C library's own wrappers, as the hooks' wrappers stand for them:
    [open] is [openat] on [AT_FDCWD], [stat] and [lstat] are [fstatat],
    [access] is [faccessat]. *)
Definition real_open (pathname : option string) (flags mode : Z) : M Z :=
  real_openat AT_FDCWD pathname flags mode.

Definition real_stat (pathname : option string) (statbuf : struct_stat)
    : M (Z * struct_stat) :=
  real_fstatat AT_FDCWD pathname statbuf 0.

Definition real_lstat (pathname : option string) (statbuf : struct_stat)
    : M (Z * struct_stat) :=
  real_fstatat AT_FDCWD pathname statbuf AT_SYMLINK_NOFOLLOW.

Definition real_access (pathname : option string) (mode : Z) : M Z :=
  real_faccessat AT_FDCWD pathname mode 0.

(** The optional third argument of an open as the C library reads it. *)
Definition open_mode (flags va_mode : Z) : Z :=
  if has_flag flags (Z.lor O_CREAT __O_TMPFILE) then va_mode else 0.

(** The hook does not take the call for itself: the guard is set, or the path
    is absent, cannot be resolved or is outside the namespace. *)
Definition passes_through (dirfd : Z) (pathname : option string) (w : World) : Prop :=
  w_in_hook w = true ∨ classify dirfd pathname w = None.

(** Two outcomes of a call agree: same result, and same world; after a call
    that succeeded the worlds may differ in [errno], which has no meaning
    then. *)
Definition same_call {A} (failed : A → bool) (x y : A * World) : Prop :=
  x.1 = y.1 ∧
  if failed y.1 then x.2 = y.2 else ∃ e, x.2 = set_errno e y.2.

(** Talking to the host changes the stream, the descriptor table, [errno],
    the fault script and the log.  It does not change the file system, and a
    descriptor that was open is afterwards the same or closed. *)
Definition net_step (w w' : World) : Prop :=
  w_fs w' = w_fs w ∧ w_cwd w' = w_cwd w ∧ w_in_hook w' = w_in_hook w ∧
  w_tmpctr w' = w_tmpctr w ∧ w_host w' = w_host w ∧
  (w_next_fd w ≤ w_next_fd w')%nat ∧
  ∀ fd, fd < Z.of_nat (w_next_fd w) →
        w_fds w' !! fd = w_fds w !! fd ∨ w_fds w' !! fd = None.

(** The host has nothing to read. *)
Definition idle (w : World) : Prop := w_vsock_fd w < 0 ∨ w_tx w = [].

(** [logged w w' l]: between [w] and [w'] the log grew by [l]. *)
Definition logged (w w' : World) (l : list event) : Prop :=
  w_trace w' = w_trace w ++ l.

(** Between [w] and [w'] no system call was made to fail: the part of the
    fault script used up has no [FFail]. *)
Definition clean_run (w w' : World) : Prop :=
  ∃ used, w_script w = used ++ w_script w' ∧ FFail ∉ used.

(** What the next [recv] finds on the stream: the bytes already there, then
    the host's answer to what was sent. *)
Definition pending (w : World) : list byte :=
  w_rx w ++ match w_tx w with
            | [] => []
            | req => w_host w (requests_of (w_trace w)) req
            end.

(** What the host records when it reads the stream. *)
Definition req_log (w : World) : list event :=
  match w_tx w with
  | [] => []
  | req => [EvRequest req]
  end.

(** A stream that starts with a frame the library accepts: four bytes of
    length, a length between 1 and 16 MiB, and that many bytes. *)
Definition well_framed (stream : list byte) : Prop :=
  4 ≤ len stream ∧ 0 < rd32 stream 0 ≤ 16 * 1024 * 1024 ∧
  4 + rd32 stream 0 ≤ len stream.

(** The second half of [remote_stat]: what it makes of a response. *)
Definition parse_stat (resp : list byte) (resp_len : Z) (st : struct_stat)
    : Z * struct_stat :=
  if (resp_len <? 1) || negb (at_ resp 0 =? STATUS_OK) then (-1, st) else
  if resp_len <? 22 then (-1, st) else
  let is_dir := negb (at_ resp 21 =? 0) in
  (0, {| st_dev := 0; st_ino := 0;
         st_nlink := if is_dir then 2 else 1;
         st_mode := Z.lor (rd32 resp 1) (if is_dir then S_IFDIR else S_IFREG);
         st_uid := 0; st_gid := 0; st_rdev := 0;
         st_size := signed64 (rd64 resp 5);
         st_blksize := 4096;
         st_blocks := wrap64 (rd64 resp 5 + 511) / 512;
         st_atime := 0; st_mtime := signed64 (rd64 resp 13); st_ctime := 0 |}).

(** The second half of [remote_read_chunk]. *)
Definition parse_read (resp : list byte) (resp_len : Z) (len_ : Z)
    : Z * list byte :=
  if (resp_len <? 1) || negb (at_ resp 0 =? STATUS_OK) then (-1, []) else
  if resp_len <? 5 then (0, []) else
  let bytes_read := rd32 resp 1 in
  let bytes_read :=
    if bytes_read >? resp_len - 5 then resp_len - 5 else bytes_read in
  let bytes_read := if bytes_read >? len_ then len_ else bytes_read in
  (bytes_read, take (Z.to_nat bytes_read) (drop 5 resp)).

(** What is left on a connection from earlier exchanges. *)
Definition inbound (w : World) : list byte :=
  if w_vsock_fd w <? 0 then [] else w_rx w.

(** The first half of both: connect if need be, one request, one response,
    and the connection dropped when the exchange fails. *)
Definition exchange {A} (msg : list byte) (msg_len : Z) (failure : A)
    (parse : list byte → Z → A) : M A :=
  c ← vsock_connect;
  if c <? 0 then mret failure else
  r ← send_request msg msg_len;
  match r with
  | None => vsock_disconnect ;; mret failure
  | Some (resp, resp_len) => mret (parse resp resp_len)
  end.

(** The world once the host has read what was sent and has answered. *)
Definition answered (w : World) : World := (host_turn w).2.

(** The world after [socket] and [connect]. *)
Definition connected (w : World) : World :=
  let fd := Z.of_nat (w_next_fd w) in
  set_vsock_fd fd
    (set_trace (w_trace w ++ [EvConnect fd])
       (set_rx [] (set_tx []
          (set_next_fd (S (w_next_fd w))
             (set_fds (<[fd := FdSock]> (w_fds w)) w))))).

(** The connection is usable as the next exchange finds it: no fault is
    scheduled and, if there is a connection, nothing is in flight on it. *)
Definition quiet (w : World) : Prop :=
  w_script w = [] ∧ (0 ≤ w_vsock_fd w → w_tx w = [] ∧ w_rx w = []).

(** The world with a connection: the one there is, or a new one. *)
Definition linked (w : World) : World :=
  if w_vsock_fd w <? 0 then connected w else w.

(** The world after one successful exchange of [msg]. *)
Definition exchanged (msg : list byte) (w : World) : World :=
  set_trace (w_trace (linked w) ++ [EvRequest (frame msg)]) (linked w).

(** A STAT response for a regular file. *)
Definition stat_file_response (mode size mtime : Z) : list byte :=
  [to_u8 STATUS_OK] ++ be32 mode ++ be64 size ++ be64 mtime ++ [to_u8 0].

(** A READ response carrying [data]. *)
Definition read_response (data : list byte) : list byte :=
  [to_u8 STATUS_OK] ++ be32 (len data) ++ data.

(** One attempt: at most one connection made, at most one request sent. *)
Definition one_attempt (w w' : World) (request : list byte) : Prop :=
  ∃ c q, logged w w' (c ++ q) ∧
         (c = [] ∨ c = [EvConnect (Z.of_nat (w_next_fd w))]) ∧
         (q = [] ∨ q = [EvRequest request]).

(** A call that starts without a connection: it sends nothing before it has
    made a new one, on a descriptor never used before. *)
Definition reconnects (w w' : World) (request : list byte) : Prop :=
  logged w w' [] ∨
  ∃ q, logged w w' (EvConnect (Z.of_nat (w_next_fd w)) :: q) ∧
       (q = [] ∨ q = [EvRequest request]).

(** A system call made between [w] and [w'] was made to fail. *)
Definition call_failed (w w' : World) : Prop :=
  ∃ used, w_script w = used ++ w_script w' ∧ FFail ∈ used.

(** [dirs_added w w' bound]: the file system of [w'] is that of [w] with
    directories added under names shorter than [bound]. *)
Definition dirs_added (w w' : World) (bound : Z) : Prop :=
  ∀ p, w_fs w' !! p = w_fs w !! p ∨
       (w_fs w !! p = None ∧ w_fs w' !! p = Some NDir ∧ strlen p < bound).

(** What the local calls before [mkstemp] leave alone. *)
Definition local_step (w w' : World) : Prop :=
  w_fds w' = w_fds w ∧ w_next_fd w' = w_next_fd w ∧ w_cwd w' = w_cwd w ∧
  w_in_hook w' = w_in_hook w ∧ w_vsock_fd w' = w_vsock_fd w ∧
  w_tx w' = w_tx w ∧ w_rx w' = w_rx w ∧ w_host w' = w_host w ∧
  w_trace w' = w_trace w ∧ w_tmpctr w' = w_tmpctr w.

(** [downloading fs0 name fd w]: the temporary file [name] holds what has been
    written so far and [fd], if it is still open, is its descriptor; without
    the temporary file the file system is [fs0]. *)
Definition downloading (fs0 : gmap string node) (name : string) (fd : Z)
    (w : World) : Prop :=
  fs0 !! name = None ∧
  (∃ data, w_fs w = <[name := NFile data]> fs0) ∧
  (w_fds w !! fd = Some (FdFile name) ∨ w_fds w !! fd = None) ∧
  fd < Z.of_nat (w_next_fd w).

(** The exits of [ensure_cached_file] that report a failure after the remote
    object has been asked for. *)
Definition failure_exit (e : ensure_exit) : bool :=
  match e with
  | ExitStatFailed | ExitMkstempFailed | ExitMallocFailed | ExitReadFailed
  | ExitWriteFailed | ExitRenameFailed => true
  | _ => false
  end.

(** A host that never answers. *)
Definition silent_host : list (list byte) → list byte → list byte := λ _ _, [].

(** A process with no file cached, no connection and no fault to come. *)
Definition fresh_world : World :=
  {| w_fs := ∅; w_fds := ∅; w_next_fd := 3; w_cwd := Some "/home/user";
     w_tmpctr := 0; w_errno := 0; w_in_hook := false; w_vsock_fd := -1;
     w_tx := []; w_rx := []; w_host := silent_host; w_script := [];
     w_trace := [] |}.

(** The same process with [notes.txt] already in the cache. *)
Definition cached_world : World :=
  set_fs (<["/tmp/.wscache/notes.txt" := NFile [Byte.x68; Byte.x69]]> ∅) fresh_world.

(** The name [mkstemp] picks for the template [cp.XXXXXX]. *)
Definition temp_name (cp : string) (w : World) : string :=
  (cp +:+ ".") +:+ suffix6 (w_tmpctr w).

(** The world after [mkstemp] has made [name]. *)
Definition with_temp (name : string) (w : World) : World :=
  set_next_fd (S (w_next_fd w))
    (set_fds (<[Z.of_nat (w_next_fd w) := FdFile name]> (w_fds w))
       (set_fs (<[name := NFile []]> (w_fs w))
          (set_tmpctr (w_tmpctr w + 1) w))).

(** What the loop of [ensure_cached_file] asks for at [offset]. *)
Definition want_at (offset file_size : Z) : Z :=
  if file_size - offset <? READ_CHUNK_SIZE then file_size - offset
  else READ_CHUNK_SIZE.

(** The first [k] reads of a download from [offset] on: offset and length. *)
Fixpoint read_plan (k : nat) (offset file_size : Z) : list (Z * Z) :=
  match k with
  | O => []
  | S k' =>
      (offset, want_at offset file_size)
      :: read_plan k' (offset + READ_CHUNK_SIZE) file_size
  end.

Definition read_frames (rel : string) (plan : list (Z * Z)) : list (list byte) :=
  map (λ p, frame (read_msg rel p.1 p.2)) plan.

(** The host answers [request] with [response], whatever it has seen before. *)
Definition serves (h : list (list byte) → list byte → list byte)
    (request response : list byte) : Prop :=
  ∀ hist, h hist (frame request) = frame response.

(** The host answers each read of [plan] in full, with the chunk of the same
    position in [chunks]. *)
Definition served (rel : string) (h : list (list byte) → list byte → list byte)
    (plan : list (Z * Z)) (chunks : list (list byte)) : Prop :=
  Forall2 (λ p data, len data = p.2 ∧
                     serves h (read_msg rel p.1 p.2) (read_response data))
    plan chunks.

(** The number of reads a file of [file_size] bytes takes. *)
Definition chunks_of (file_size : Z) : nat :=
  Z.to_nat ((file_size + READ_CHUNK_SIZE - 1) / READ_CHUNK_SIZE).

(** How [ensure_cached_file] ends a download that went well: the temporary
    file is closed and renamed into place. *)
Definition install_download (cache_path : string) (tmp_fd : Z)
    (tmp_path : string) : M ensure_exit :=
  sys_close tmp_fd ;;
  r ← sys_rename tmp_path cache_path;
  if r <? 0 then sys_unlink tmp_path ;; mret ExitRenameFailed
  else mret ExitPopulated.

(** What [ensure_cached_file] does once the temporary file is there: the
    download, and the rename when it ends well. *)
Definition finish_download (rel cache_path : string) (tmp_fd : Z)
    (tmp_path : string) (file_size : Z) : M ensure_exit :=
  e ← download_loop (Z.to_nat file_size) rel tmp_fd tmp_path 0 file_size;
  match e with
  | ExitPopulated => install_download cache_path tmp_fd tmp_path
  | _ => mret e
  end.

(** The state a download starts in: the connection is open with nothing in
    flight, the STAT request has been answered, the temporary file is empty
    and open on [fd], and the file system is otherwise [fs0], which is the
    one the call found plus directories. *)
Definition download_ready (rel cp : string) (w : World) (fd : Z)
    (fs0 : gmap string node) (w4 : World) : Prop :=
  w_script w4 = [] ∧ 0 ≤ w_vsock_fd w4 ∧ w_tx w4 = [] ∧ w_rx w4 = [] ∧
  w_host w4 = w_host w ∧
  w_fds w4 !! fd = Some (FdFile (temp_name cp w)) ∧
  w_fs w4 = <[temp_name cp w := NFile []]> fs0 ∧
  fs0 !! temp_name cp w = None ∧ fs0 !! cp = None ∧
  (∀ p nd, w_fs w !! p = Some nd → fs0 !! p = Some nd) ∧
  (∀ p data, fs0 !! p = Some (NFile data) → w_fs w !! p = Some (NFile data)) ∧
  requests_of (w_trace w4) = requests_of (w_trace w) ++ [frame (stat_msg rel)].

(** A host that answers every request with a frame of one byte, the status
    OK. *)
Definition terse_host : list (list byte) → list byte → list byte :=
  λ _ _, frame [to_u8 STATUS_OK].

Definition terse_world : World :=
  {| w_fs := ∅; w_fds := ∅; w_next_fd := 3; w_cwd := Some "/home/user";
     w_tmpctr := 0; w_errno := 0; w_in_hook := false; w_vsock_fd := -1;
     w_tx := []; w_rx := []; w_host := terse_host; w_script := [];
     w_trace := [] |}.

#[global] Instance byte_eq_decision : EqDecision byte := Byte.byte_eq_dec.

(** A host that knows the size of [notes.txt] and nothing else. *)
Definition stat_only_host : list (list byte) → list byte → list byte :=
  λ _ req, if decide (req = frame (stat_msg "notes.txt"))
           then frame (stat_file_response 420 5 1000) else [].

Definition stat_only_world : World :=
  {| w_fs := ∅; w_fds := ∅; w_next_fd := 3; w_cwd := Some "/home/user";
     w_tmpctr := 0; w_errno := 0; w_in_hook := false; w_vsock_fd := -1;
     w_tx := []; w_rx := []; w_host := stat_only_host; w_script := [];
     w_trace := [] |}.

(** A host that serves [foo.txt], 3,000,000 bytes, in three chunks. *)
Definition chunk_a : list byte := replicate (Z.to_nat 1048576) Byte.x61.
Definition chunk_b : list byte := replicate (Z.to_nat 1048576) Byte.x62.
Definition chunk_c : list byte := replicate (Z.to_nat 902848) Byte.x63.

Definition foo_host : list (list byte) → list byte → list byte :=
  λ _ req,
    if decide (req = frame (stat_msg "foo.txt"))
    then frame (stat_file_response 420 3000000 1000)
    else if decide (req = frame (read_msg "foo.txt" 0 1048576))
    then frame (read_response chunk_a)
    else if decide (req = frame (read_msg "foo.txt" 1048576 1048576))
    then frame (read_response chunk_b)
    else if decide (req = frame (read_msg "foo.txt" 2097152 902848))
    then frame (read_response chunk_c)
    else [].

Definition foo_world : World :=
  {| w_fs := ∅; w_fds := ∅; w_next_fd := 3; w_cwd := Some "/home/user";
     w_tmpctr := 0; w_errno := 0; w_in_hook := false; w_vsock_fd := -1;
     w_tx := []; w_rx := []; w_host := foo_host; w_script := [];
     w_trace := [] |}.

(** A STAT response as the file server builds it. *)
Definition stat_response (mode size mtime : Z) (is_dir : bool) : list byte :=
  [to_u8 STATUS_OK] ++ be32 mode ++ be64 size ++ be64 mtime ++
  [to_u8 (if is_dir then 1 else 0)].

(** The status [remote_stat] fills in from it. *)
Definition decoded_stat (mode size mtime : Z) (is_dir : bool) : struct_stat :=
  {| st_dev := 0; st_ino := 0; st_nlink := if is_dir then 2 else 1;
     st_mode := Z.lor mode (if is_dir then S_IFDIR else S_IFREG);
     st_uid := 0; st_gid := 0; st_rdev := 0; st_size := size;
     st_blksize := 4096; st_blocks := (size + 511) / 512;
     st_atime := 0; st_mtime := mtime; st_ctime := 0 |}.

(** A process whose next three calls transfer one, two and one byte. *)
Definition choppy_world : World :=
  {| w_fs := ∅; w_fds := ∅; w_next_fd := 3; w_cwd := Some "/home/user";
     w_tmpctr := 0; w_errno := 0; w_in_hook := false; w_vsock_fd := -1;
     w_tx := []; w_rx := [Byte.x01; Byte.x02; Byte.x03; Byte.x04; Byte.x05];
     w_host := silent_host; w_script := [FShort 1; FShort 2; FShort 1];
     w_trace := [] |}.

(** A host that reports [docs] as a directory. *)
Definition dir_host : list (list byte) → list byte → list byte :=
  λ _ req, if decide (req = frame (stat_msg "docs"))
           then frame (stat_response 493 4096 1000 true) else [].

Definition dir_world : World :=
  {| w_fs := ∅; w_fds := ∅; w_next_fd := 3; w_cwd := Some "/home/user";
     w_tmpctr := 0; w_errno := 0; w_in_hook := false; w_vsock_fd := -1;
     w_tx := []; w_rx := []; w_host := dir_host; w_script := [];
     w_trace := [] |}.

(** A host that reports five bytes for [notes.txt] and then has none. *)
Definition empty_host : list (list byte) → list byte → list byte :=
  λ _ req, if decide (req = frame (stat_msg "notes.txt"))
           then frame (stat_file_response 420 5 1000)
           else frame (read_response []).

Definition empty_world : World :=
  {| w_fs := ∅; w_fds := ∅; w_next_fd := 3; w_cwd := Some "/home/user";
     w_tmpctr := 0; w_errno := 0; w_in_hook := false; w_vsock_fd := -1;
     w_tx := []; w_rx := []; w_host := empty_host; w_script := [];
     w_trace := [] |}.

(** A host that announces a thousand bytes and carries six. *)
Definition boastful_host : list (list byte) → list byte → list byte :=
  λ _ _, frame ([to_u8 STATUS_OK] ++ be32 1000 ++
                [Byte.x61; Byte.x62; Byte.x63; Byte.x64; Byte.x65; Byte.x66]).

Definition boastful_world : World :=
  {| w_fs := ∅; w_fds := ∅; w_next_fd := 3; w_cwd := Some "/home/user";
     w_tmpctr := 0; w_errno := 0; w_in_hook := false; w_vsock_fd := -1;
     w_tx := []; w_rx := []; w_host := boastful_host; w_script := [];
     w_trace := [] |}.

(** [socket] fails, or [socket] succeeds and [connect] fails. *)
Definition connect_fails (w : World) : Prop :=
  ∃ s, w_script w = FFail :: s ∨
       ∃ f, f ≠ FFail ∧ w_script w = f :: FFail :: s.

(** A process whose [connect] fails. *)
Definition offline_world : World :=
  {| w_fs := ∅; w_fds := ∅; w_next_fd := 3; w_cwd := Some "/home/user";
     w_tmpctr := 0; w_errno := 0; w_in_hook := false; w_vsock_fd := -1;
     w_tx := []; w_rx := []; w_host := silent_host; w_script := [FOk; FFail];
     w_trace := [] |}.

(** A name of [n] letters. *)
Fixpoint letters (n : nat) : string :=
  match n with
  | O => EmptyString
  | S n' => String "a" (letters n')
  end.

(** The host answers the reads of a download from [offset] on with
    [chunks], each with at least one byte and no more than asked for, and
    the chunks make up the file. *)
Fixpoint served_from (rel : string) (h : list (list byte) → list byte → list byte)
    (offset file_size : Z) (chunks : list (list byte)) : Prop :=
  match chunks with
  | [] => offset = file_size
  | c :: cs =>
      0 < len c ≤ want_at offset file_size ∧
      serves h (read_msg rel offset (want_at offset file_size)) (read_response c) ∧
      served_from rel h (offset + len c) file_size cs
  end.

(** The READ requests of such a download. *)
Fixpoint reads_from (rel : string) (offset file_size : Z)
    (chunks : list (list byte)) : list (list byte) :=
  match chunks with
  | [] => []
  | c :: cs =>
      frame (read_msg rel offset (want_at offset file_size))
      :: reads_from rel (offset + len c) file_size cs
  end.

(** A host that has the five bytes of [notes.txt] and gives them out two,
    two and one at a time. *)
Definition slow_host : list (list byte) → list byte → list byte :=
  λ _ req,
    if decide (req = frame (stat_msg "notes.txt"))
    then frame (stat_file_response 420 5 1000)
    else if decide (req = frame (read_msg "notes.txt" 0 5))
    then frame (read_response [Byte.x68; Byte.x65])
    else if decide (req = frame (read_msg "notes.txt" 2 3))
    then frame (read_response [Byte.x6c; Byte.x6c])
    else if decide (req = frame (read_msg "notes.txt" 4 1))
    then frame (read_response [Byte.x6f])
    else [].

Definition slow_world : World :=
  {| w_fs := ∅; w_fds := ∅; w_next_fd := 3; w_cwd := Some "/home/user";
     w_tmpctr := 0; w_errno := 0; w_in_hook := false; w_vsock_fd := -1;
     w_tx := []; w_rx := []; w_host := slow_host; w_script := [];
     w_trace := [] |}.

(** A host that has no file at all. *)
Definition bare_host : list (list byte) → list byte → list byte :=
  λ _ _, frame [to_u8 STATUS_NOENT].

Definition bare_world : World :=
  {| w_fs := ∅; w_fds := ∅; w_next_fd := 3; w_cwd := Some "/home/user";
     w_tmpctr := 0; w_errno := 0; w_in_hook := false; w_vsock_fd := -1;
     w_tx := []; w_rx := []; w_host := bare_host; w_script := [];
     w_trace := [] |}.

(** * Properties *)

(** ** Proof tools *)

Ltac mred :=
  cbv beta iota zeta delta
    [mbind M_bind mret M_ret get modify log fail orb andb negb] in *.

Ltac wsimpl :=
  cbn [w_fs w_fds w_next_fd w_cwd w_tmpctr w_errno w_in_hook w_vsock_fd w_tx
       w_rx w_host w_script w_trace set_fs set_fds set_next_fd set_tmpctr
       set_errno set_in_hook set_vsock_fd set_tx set_rx set_script set_trace
       fst snd] in *.

(** Boolean comparisons of the code as propositions. *)
Ltac zbool :=
  repeat match goal with
  | H : context [(_ >? _)] |- _ => rewrite Z.gtb_ltb in H
  | H : context [(_ >=? _)] |- _ => rewrite Z.geb_leb in H
  | H : (_ <? _) = true |- _ => apply Z.ltb_lt in H
  | H : (_ <? _) = false |- _ => apply Z.ltb_ge in H
  | H : (_ <=? _) = true |- _ => apply Z.leb_le in H
  | H : (_ <=? _) = false |- _ => apply Z.leb_gt in H
  | H : (_ =? _) = true |- _ => apply Z.eqb_eq in H
  | H : (_ =? _) = false |- _ => apply Z.eqb_neq in H
  end.

(** Comparisons of the constants the code returns. *)
Ltac zconst :=
  change (-1 <? 0) with true in *; change (0 <? 0) with false in *;
  change (-1 =? 0) with false in *; change (0 =? 0) with true in *;
  change (-1 <=? 0) with true in *; cbv beta iota in *.

Ltac crush := repeat case_match; simplify_eq/=; zbool; try done; try lia.

(** ** The environment: basic facts *)

Lemma world_eta (w : World) :
  {| w_fs := w_fs w; w_fds := w_fds w; w_next_fd := w_next_fd w;
     w_cwd := w_cwd w; w_tmpctr := w_tmpctr w; w_errno := w_errno w;
     w_in_hook := w_in_hook w; w_vsock_fd := w_vsock_fd w; w_tx := w_tx w;
     w_rx := w_rx w; w_host := w_host w; w_script := w_script w;
     w_trace := w_trace w |} = w.
Proof. by destruct w. Qed.

Lemma set_in_hook_id (w : World) b : w_in_hook w = b → set_in_hook b w = w.
Proof. intros <-. by destruct w. Qed.

Lemma set_errno_id (w : World) : set_errno (w_errno w) w = w.
Proof. by destruct w. Qed.

Lemma kernel_path_ext w1 w2 d p :
  w_cwd w1 = w_cwd w2 → w_fds w1 = w_fds w2 →
  kernel_path w1 d p = kernel_path w2 d p.
Proof. unfold kernel_path. by intros -> ->. Qed.

(** The real functions do not read [errno]: they set it when they fail and
    leave it alone otherwise. *)
Lemma kernel_open_errno e d p f m w r w1 :
  kernel_open d p f m w = (r, w1) →
  kernel_open d p f m (set_errno e w) = (r, if r <? 0 then w1 else set_errno e w1).
Proof.
  unfold kernel_open, alloc_fd. destruct p as [p|]; mred.
  - rewrite (kernel_path_ext (set_errno e w) w) by done. wsimpl. intros H. crush.
  - intros H. crush.
Qed.

Lemma real_openat_errno e d p f m w r w1 :
  real_openat d p f m w = (r, w1) →
  real_openat d p f m (set_errno e w) = (r, if r <? 0 then w1 else set_errno e w1).
Proof.
  unfold real_openat. mred. apply (kernel_open_errno e d p f m (set_trace _ w)).
Qed.

Lemma real_fstatat_errno e d p sb f w r w1 :
  real_fstatat d p sb f w = (r, w1) →
  real_fstatat d p sb f (set_errno e w) =
  (r, if r.1 <? 0 then w1 else set_errno e w1).
Proof.
  unfold real_fstatat. destruct p as [p|]; mred.
  - rewrite (kernel_path_ext (set_trace _ (set_errno e w))
               (set_trace (w_trace w ++ [EvRealFstatat d (Some p) f]) w)) by done.
    wsimpl. intros H. crush.
  - intros H. crush.
Qed.

Lemma real_faccessat_errno e d p m f w r w1 :
  real_faccessat d p m f w = (r, w1) →
  real_faccessat d p m f (set_errno e w) =
  (r, if r <? 0 then w1 else set_errno e w1).
Proof.
  unfold real_faccessat. destruct p as [p|]; mred.
  - rewrite (kernel_path_ext (set_trace _ (set_errno e w))
               (set_trace (w_trace w ++ [EvRealFaccessat d (Some p) m f]) w)) by done.
    wsimpl. intros H. crush.
  - intros H. crush.
Qed.

Lemma real_fopen_errno e p m w r w1 :
  real_fopen p m w = (r, w1) →
  real_fopen p m (set_errno e w) =
  (r, if bool_decide (r = None) then w1 else set_errno e w1).
Proof.
  unfold real_fopen. mred. destruct (fopen_flags m) as [fl|].
  - destruct (kernel_open AT_FDCWD p fl 438 _) as [fd w2] eqn:E.
    apply (kernel_open_errno e) in E. wsimpl.
    change (set_trace (w_trace w ++ [EvRealFopen p m]) (set_errno e w))
      with (set_errno e (set_trace (w_trace w ++ [EvRealFopen p m]) w)).
    rewrite E. intros H. crush.
  - intros H. crush.
Qed.

(** ** Path resolution *)

Lemma resolve_path_unfold d pathname s :
  resolve_path d (Some pathname) s =
  if is_absolute pathname then
    if strlen pathname >=? s then mret None
    else mret (Some (truncated s pathname))
  else
    dp ← (if d =? AT_FDCWD then sys_getcwd PATH_MAX
          else sys_readlink_fd d (PATH_MAX - 1));
    match dp with
    | None => mret None
    | Some dirpath =>
        let text := dirpath +:+ "/" +:+ pathname in
        if strlen text >=? s then mret None else mret (Some text)
    end.
Proof.
  destruct pathname as [|[[] [] [] [] [] [] [] []] p]; reflexivity.
Qed.

(** [resolve_path] leaves the world alone when it succeeds, and changes at
    most [errno] when it fails. *)
Lemma resolve_path_Some d p s w r w' :
  resolve_path d p s w = (Some r, w') → w' = w.
Proof.
  destruct p as [p|]; [|by intros [= <-]].
  rewrite resolve_path_unfold. unfold sys_getcwd, sys_readlink_fd.
  destruct (is_absolute p); mred.
  - destruct (strlen p >=? s); by intros [= <- <-].
  - destruct (d =? AT_FDCWD); cbv beta iota.
    + destruct (w_cwd w) as [c|]; cbv beta iota; [|by intros [= <-]].
      destruct (strlen c >=? PATH_MAX); cbv beta iota; [by intros [= <-]|].
      destruct (strlen _ >=? s); by intros [= <- <-].
    + destruct (w_fds w !! d) as [fd|]; cbv beta iota; [|by intros [= <-]].
      destruct (strlen _ >=? s); by intros [= <- <-].
Qed.

Lemma resolve_path_None d p s w w' :
  resolve_path d p s w = (None, w') → w' = w ∨ ∃ e, w' = set_errno e w.
Proof.
  destruct p as [p|]; [|intros [= <-]; by left].
  rewrite resolve_path_unfold. unfold sys_getcwd, sys_readlink_fd.
  destruct (is_absolute p); mred.
  - destruct (strlen p >=? s); intros [= <-]; by left.
  - destruct (d =? AT_FDCWD); cbv beta iota.
    + destruct (w_cwd w) as [c|]; cbv beta iota; [|intros [= <-]; eauto].
      destruct (strlen c >=? PATH_MAX); cbv beta iota; [intros [= <-]; eauto|].
      destruct (strlen _ >=? s); intros [= <-]; by left.
    + destruct (w_fds w !! d) as [fd|]; cbv beta iota; [|intros [= <-]; eauto].
      destruct (strlen _ >=? s); intros [= <-]; by left.
Qed.

Lemma classify_resolved d p w rel :
  classify d p w = Some rel →
  ∃ pathname resolved,
    p = Some pathname ∧
    resolve_path d p PATH_MAX w = (Some resolved, w) ∧
    is_workspace_path resolved = Some rel.
Proof.
  unfold classify. destruct (resolve_path d p PATH_MAX w) as [[r|] w1] eqn:Hr; [|done].
  intros Hc. pose proof (resolve_path_Some _ _ _ _ _ _ Hr) as ->.
  destruct p as [p|]; [eauto|]. by unfold resolve_path in Hr.
Qed.

(** ** What reaches the host *)

Lemma no_host_contact_refl w : no_host_contact w w.
Proof. by unfold no_host_contact. Qed.

Lemma no_host_contact_trans w1 w2 w3 :
  no_host_contact w1 w2 → no_host_contact w2 w3 → no_host_contact w1 w3.
Proof. unfold no_host_contact. intros (-> & -> & -> & ->) (-> & -> & -> & ->). done. Qed.

Lemma no_host_contact_errno e w : no_host_contact w (set_errno e w).
Proof. by unfold no_host_contact. Qed.

Lemma no_host_contact_in_hook b w : no_host_contact w (set_in_hook b w).
Proof. by unfold no_host_contact. Qed.

Lemma net_events_snoc_real t e :
  match e with EvConnect _ | EvRequest _ => False | _ => True end →
  net_events (t ++ [e]) = net_events t.
Proof.
  intros He. unfold net_events. rewrite omap_app. simpl.
  destruct e; try done; by rewrite app_nil_r.
Qed.

Lemma sys_mkdir_no_contact path mode w :
  no_host_contact w (sys_mkdir path mode w).2.
Proof.
  unfold sys_mkdir, next_fault, no_host_contact. mred. crush.
Qed.

Lemma kernel_open_no_contact d p f m w :
  no_host_contact w (kernel_open d p f m w).2.
Proof.
  unfold kernel_open, alloc_fd, no_host_contact. destruct p; mred; crush.
Qed.

Lemma real_openat_no_contact d p f m w :
  no_host_contact w (real_openat d p f m w).2.
Proof.
  unfold real_openat. mred.
  eapply no_host_contact_trans; [|apply kernel_open_no_contact].
  unfold no_host_contact; wsimpl. by rewrite net_events_snoc_real.
Qed.

Lemma real_fstatat_no_contact d p sb f w :
  no_host_contact w (real_fstatat d p sb f w).2.
Proof.
  unfold real_fstatat, no_host_contact. destruct p; mred; wsimpl;
    crush; by rewrite net_events_snoc_real.
Qed.

Lemma real_fdopen_no_contact fd m w :
  no_host_contact w (real_fdopen fd m w).2.
Proof.
  unfold real_fdopen, no_host_contact. mred; wsimpl;
    crush; by rewrite net_events_snoc_real.
Qed.

(** ** Read-only enforcement *)

Section ReadOnly.
Variables (dirfd : Z) (pathname : option string) (rel : string) (w : World).
Hypothesis Hhook : w_in_hook w = false.
Hypothesis Hin : classify dirfd pathname w = Some rel.

Lemma openat_write_intent flags va_mode :
  has_flag flags (Z.lor O_WRONLY O_RDWR) = true →
  openat dirfd pathname flags va_mode w = (-1, set_errno EROFS w).
Proof using Hhook Hin.
  intros Hf. destruct (classify_resolved _ _ _ _ Hin) as (p & r & -> & Hr & Hc).
  unfold openat. mred. rewrite Hhook, bool_decide_eq_false_2 by done.
  by rewrite Hr, Hc, Hf.
Qed.

Lemma faccessat_write_intent mode flags :
  has_flag mode W_OK = true →
  faccessat dirfd pathname mode flags w = (-1, set_errno EROFS w).
Proof using Hhook Hin.
  intros Hf. destruct (classify_resolved _ _ _ _ Hin) as (p & r & -> & Hr & Hc).
  unfold faccessat. mred. rewrite Hhook, bool_decide_eq_false_2 by done.
  by rewrite Hr, Hc, Hf.
Qed.

Lemma fopen_write_intent mode :
  dirfd = AT_FDCWD →
  strchr mode "w" || strchr mode "a" || strchr mode "+" = true →
  fopen pathname mode w = (None, set_errno EROFS w).
Proof using Hhook Hin.
  intros -> Hf. destruct (classify_resolved _ _ _ _ Hin) as (p & r & -> & Hr & Hc).
  unfold fopen. mred. rewrite Hhook, bool_decide_eq_false_2 by done.
  rewrite Hr, Hc. by destruct (strchr mode "w"), (strchr mode "a"), (strchr mode "+").
Qed.
End ReadOnly.

(** C2.  For a path of the namespace, an open with [O_WRONLY] or [O_RDWR]
    (through [openat], [openat64], [open], [open64]), an access check with
    [W_OK] (through [faccessat], [access]) and a stream open whose mode has
    [w], [a] or [+] (through [fopen], [fopen64]) fail with [EROFS], and the
    world they leave differs from the one they found by [errno] only:
    nothing was sent to the host. *)
Theorem write_intent_is_EROFS (dirfd : Z) (pathname : option string)
    (rel : string) (w : World) :
  w_in_hook w = false →
  classify dirfd pathname w = Some rel →
  (∀ flags va_mode,
     has_flag flags (Z.lor O_WRONLY O_RDWR) = true →
     openat dirfd pathname flags va_mode w = (-1, set_errno EROFS w) ∧
     openat64 dirfd pathname flags va_mode w = (-1, set_errno EROFS w) ∧
     (dirfd = AT_FDCWD →
      open pathname flags va_mode w = (-1, set_errno EROFS w) ∧
      open64 pathname flags va_mode w = (-1, set_errno EROFS w))) ∧
  (∀ mode flags,
     has_flag mode W_OK = true →
     faccessat dirfd pathname mode flags w = (-1, set_errno EROFS w) ∧
     (dirfd = AT_FDCWD → access pathname mode w = (-1, set_errno EROFS w))) ∧
  (∀ mode,
     dirfd = AT_FDCWD →
     strchr mode "w" || strchr mode "a" || strchr mode "+" = true →
     fopen pathname mode w = (None, set_errno EROFS w) ∧
     fopen64 pathname mode w = (None, set_errno EROFS w)) ∧
  no_host_contact w (set_errno EROFS w).
Proof.
  intros Hhook Hin. repeat split.
  - by apply (openat_write_intent _ _ rel).
  - by apply (openat_write_intent _ _ rel).
  - subst. by apply (openat_write_intent _ _ rel).
  - subst. by apply (openat_write_intent _ _ rel).
  - by apply (faccessat_write_intent _ _ rel).
  - intros ->. by apply (faccessat_write_intent _ _ rel).
  - by apply (fopen_write_intent dirfd _ rel).
  - by apply (fopen_write_intent dirfd _ rel).
Qed.

(** ** Pass-through outside the namespace *)

Lemma same_call_refl {A} (failed : A → bool) x : same_call failed x x.
Proof.
  split; [done|]. destruct (failed x.1); [done|].
  exists (w_errno x.2). by rewrite set_errno_id.
Qed.

Lemma same_call_errno {A} (failed : A → bool) (f : M A) w e :
  (∀ r w1, f w = (r, w1) →
           f (set_errno e w) = (r, if failed r then w1 else set_errno e w1)) →
  same_call failed (f (set_errno e w)) (f w).
Proof.
  intros H. destruct (f w) as [r w1] eqn:E. rewrite (H _ _ eq_refl).
  split; [done|]. simpl. destruct (failed r); eauto.
Qed.

Section PassThrough.
Variables (dirfd : Z) (pathname : option string) (w : World).
Hypothesis Hpass : passes_through dirfd pathname w.

(** What every hook does first, and where it leaves the world for the real
    call. *)
Lemma pass_through_cases :
  w_in_hook w = true ∨ pathname = None ∨
  (w_in_hook w = false ∧ ∃ p, pathname = Some p ∧
     ((∃ r, resolve_path dirfd pathname PATH_MAX w = (Some r, w) ∧
            is_workspace_path r = None) ∨
      (∃ w1, resolve_path dirfd pathname PATH_MAX w = (None, w1) ∧
             (w1 = w ∨ ∃ e, w1 = set_errno e w)))).
Proof using Hpass.
  destruct Hpass as [H|H]; [by left|].
  destruct (w_in_hook w) eqn:Hh; [by left|]. right.
  destruct pathname as [p|]; [right|by left]. split; [done|]. exists p.
  split; [done|]. unfold classify in H.
  destruct (resolve_path dirfd (Some p) PATH_MAX w) as [[r|] w1] eqn:Hr.
  - left. exists r. by rewrite (resolve_path_Some _ _ _ _ _ _ Hr) in *.
  - right. exists w1. split; [done|]. by apply (resolve_path_None _ _ _ _ _ Hr).
Qed.

Lemma openat_pass flags va_mode :
  same_call (λ r, r <? 0) (openat dirfd pathname flags va_mode w)
    (real_openat dirfd pathname flags (open_mode flags va_mode) w).
Proof using Hpass.
  unfold openat, open_mode. mred.
  destruct pass_through_cases as [H|[H|(Hh & p & Hp & H)]].
  - rewrite H. apply same_call_refl.
  - rewrite H. destruct (w_in_hook w); apply same_call_refl.
  - rewrite Hh, Hp, bool_decide_eq_false_2 by done. rewrite <- Hp.
    destruct H as [(r & -> & ->)|(w1 & -> & [->|[e ->]])];
      try apply same_call_refl.
    apply same_call_errno. intros. by apply real_openat_errno.
Qed.

Lemma fstatat_pass statbuf flags :
  same_call (λ r, r.1 <? 0) (fstatat dirfd pathname statbuf flags w)
    (real_fstatat dirfd pathname statbuf flags w).
Proof using Hpass.
  unfold fstatat. mred.
  destruct pass_through_cases as [H|[H|(Hh & p & Hp & H)]].
  - rewrite H. apply same_call_refl.
  - rewrite H. destruct (w_in_hook w); apply same_call_refl.
  - rewrite Hh, Hp, bool_decide_eq_false_2 by done. rewrite <- Hp.
    destruct H as [(r & -> & ->)|(w1 & -> & [->|[e ->]])];
      try apply same_call_refl.
    apply same_call_errno. intros. by apply real_fstatat_errno.
Qed.

Lemma faccessat_pass mode flags :
  same_call (λ r, r <? 0) (faccessat dirfd pathname mode flags w)
    (real_faccessat dirfd pathname mode flags w).
Proof using Hpass.
  unfold faccessat. mred.
  destruct pass_through_cases as [H|[H|(Hh & p & Hp & H)]].
  - rewrite H. apply same_call_refl.
  - rewrite H. destruct (w_in_hook w); apply same_call_refl.
  - rewrite Hh, Hp, bool_decide_eq_false_2 by done. rewrite <- Hp.
    destruct H as [(r & -> & ->)|(w1 & -> & [->|[e ->]])];
      try apply same_call_refl.
    apply same_call_errno. intros. by apply real_faccessat_errno.
Qed.

Lemma fopen_pass mode :
  dirfd = AT_FDCWD →
  same_call (λ r, bool_decide (r = None)) (fopen pathname mode w)
    (real_fopen pathname mode w).
Proof using Hpass.
  intros Hd. unfold fopen. mred.
  destruct pass_through_cases as [H|[H|(Hh & p & Hp & H)]].
  - rewrite H. apply same_call_refl.
  - rewrite H. destruct (w_in_hook w); apply same_call_refl.
  - rewrite Hh, Hp, bool_decide_eq_false_2 by done. rewrite <- Hp, <- Hd.
    destruct H as [(r & -> & ->)|(w1 & -> & [->|[e ->]])];
      try apply same_call_refl.
    apply same_call_errno. intros. by apply real_fopen_errno.
Qed.
End PassThrough.


(** ** The protocol client: what it leaves alone *)

Lemma net_step_refl w : net_step w w.
Proof. unfold net_step. repeat split; eauto. Qed.

Lemma net_step_trans w1 w2 w3 :
  net_step w1 w2 → net_step w2 w3 → net_step w1 w3.
Proof.
  intros (?&?&?&?&?&?&Ha) (?&?&?&?&?&?&Hb).
  repeat split; try congruence; try lia.
  intros fd Hfd. destruct (Hb fd) as [-> | ->]; [lia|by apply Ha|by right].
Qed.

Ltac net_step_prim :=
  unfold net_step; wsimpl; repeat split; try done; try lia;
  intros ??; wsimpl;
  rewrite ?lookup_insert_ne by lia;
  try (by left);
  try (match goal with
       | |- context [delete ?k _ !! ?fd] =>
           destruct (decide (k = fd)) as [->|];
           [right; apply lookup_delete_eq|left; by apply lookup_delete_ne]
       end).

Lemma next_fault_net w : net_step w (next_fault w).2.
Proof. unfold next_fault. destruct (w_script w); net_step_prim. Qed.

Lemma sys_close_net fd w : net_step w (sys_close fd w).2.
Proof. unfold sys_close. destruct (w_fds w !! fd) eqn:E; net_step_prim. Qed.

Lemma sys_socket_net w : net_step w (sys_socket w).2.
Proof.
  unfold sys_socket, next_fault, alloc_fd. mred.
  destruct (w_script w) as [|[]]; net_step_prim.
Qed.

Lemma sys_connect_net fd w : net_step w (sys_connect fd w).2.
Proof.
  unfold sys_connect, next_fault. mred.
  destruct (w_script w) as [|[]]; net_step_prim.
Qed.

Lemma sys_send_net fd data w : net_step w (sys_send fd data w).2.
Proof.
  unfold sys_send, next_fault. mred.
  destruct (w_script w) as [|[]]; net_step_prim.
Qed.

Lemma sys_malloc_net n w : net_step w (sys_malloc n w).2.
Proof.
  unfold sys_malloc, next_fault. mred.
  destruct (w_script w) as [|[]]; net_step_prim.
Qed.

Lemma host_turn_net w : net_step w (host_turn w).2.
Proof. unfold host_turn. destruct (w_tx w); net_step_prim. Qed.

Lemma sys_recv_net fd n w : net_step w (sys_recv fd n w).2.
Proof.
  unfold sys_recv. mred.
  pose proof (host_turn_net w) as H. destruct (host_turn w) as [[] w1].
  eapply net_step_trans; [exact H|]. clear H.
  unfold next_fault. destruct (w_script w1) as [|[]]; net_step_prim.
Qed.

(** Running [m] and then [k] is a [net_step] when both are. *)
Lemma bind_net {A B} (m : M A) (k : A → M B) w :
  net_step w (m w).2 →
  (∀ a w1, net_step w1 (k a w1).2) →
  net_step w ((m ≫= k) w).2.
Proof.
  intros Hm Hk. unfold mbind, M_bind. destruct (m w) as [a w1].
  eapply net_step_trans; [exact Hm|apply Hk].
Qed.

Lemma ret_net {A} (a : A) w : net_step w ((mret a : M A) w).2.
Proof. apply net_step_refl. Qed.

Lemma modify_errno_net e w : net_step w (modify (set_errno e) w).2.
Proof. net_step_prim. Qed.

Lemma modify_vsock_fd_net v w : net_step w (modify (set_vsock_fd v) w).2.
Proof. net_step_prim. Qed.

Lemma get_net {A} (f : World → A) w : net_step w (get f w).2.
Proof. apply net_step_refl. Qed.

Create HintDb net discriminated.

#[local] Hint Resolve net_step_refl ret_net get_net modify_errno_net
  modify_vsock_fd_net sys_close_net sys_socket_net sys_connect_net
  sys_send_net sys_recv_net sys_malloc_net next_fault_net : net.

Ltac net_auto :=
  repeat first
    [ solve [auto 1 with net nocore]
    | simple apply @bind_net; [|intros ??]
    | progress cbv zeta
    | match goal with
      | |- net_step _ ((if ?b then _ else _) _).2 => destruct b
      | |- net_step _ ((match ?x with _ => _ end) _).2 => destruct x
      end ].

Lemma vsock_connect_net w : net_step w (vsock_connect w).2.
Proof. unfold vsock_connect. net_auto. Qed.

Lemma vsock_disconnect_net w : net_step w (vsock_disconnect w).2.
Proof. unfold vsock_disconnect. net_auto. Qed.

Lemma send_all_net fd buf w : net_step w (send_all fd buf w).2.
Proof.
  unfold send_all. generalize (length buf) as fuel. intros fuel.
  revert buf w. induction fuel as [|fuel IH]; intros buf w; simpl; net_auto.
Qed.

Lemma recv_all_net fd n w : net_step w (recv_all fd n w).2.
Proof.
  unfold recv_all. generalize (Z.to_nat n) as fuel, (@nil byte) as buf.
  intros fuel. revert n w.
  induction fuel as [|fuel IH]; intros n w buf; simpl; net_auto.
Qed.

#[local] Hint Resolve vsock_connect_net vsock_disconnect_net send_all_net
  recv_all_net : net.

Lemma send_request_net msg msg_len w : net_step w (send_request msg msg_len w).2.
Proof. unfold send_request. net_auto. Qed.

#[local] Hint Resolve send_request_net : net.

Lemma remote_stat_net rel st w : net_step w (remote_stat rel st w).2.
Proof. unfold remote_stat. net_auto. Qed.

Lemma remote_read_chunk_net rel off n w :
  net_step w (remote_read_chunk rel off n w).2.
Proof. unfold remote_read_chunk. net_auto. Qed.

#[local] Hint Resolve remote_stat_net remote_read_chunk_net : net.

(** ** The protocol client: what it sends *)

Lemma len_app {A} (l1 l2 : list A) : len (l1 ++ l2) = len l1 + len l2.
Proof. unfold len. rewrite length_app. lia. Qed.

Lemma len_nonneg {A} (l : list A) : 0 ≤ len l.
Proof. unfold len. lia. Qed.

Lemma take_len {A} (l : list A) : take (Z.to_nat (len l)) l = l.
Proof. unfold len. rewrite Nat2Z.id. apply firstn_all. Qed.

Lemma drop_len {A} (l : list A) : drop (Z.to_nat (len l)) l = [].
Proof. unfold len. rewrite Nat2Z.id. apply drop_all. Qed.

Lemma take_len_app {A} (l1 l2 : list A) : take (Z.to_nat (len l1)) (l1 ++ l2) = l1.
Proof. apply take_app_length'. unfold len. by rewrite Nat2Z.id. Qed.

Lemma drop_len_app {A} (l1 l2 : list A) : drop (Z.to_nat (len l1)) (l1 ++ l2) = l2.
Proof. apply drop_app_length'. unfold len. by rewrite Nat2Z.id. Qed.

Lemma path_bytes_length s : length (path_bytes s) = String.length s.
Proof.
  unfold path_bytes, String.list_byte_of_string.
  rewrite length_map. induction s; simpl; congruence.
Qed.

Lemma wrap16_le z : 0 ≤ z → 0 ≤ wrap16 z ≤ z.
Proof.
  intros Hz. unfold wrap16. split; [apply Z.mod_pos_bound; lia|].
  apply Z.mod_le; lia.
Qed.

Lemma stat_msg_len rel : len (stat_msg rel) = 1 + 2 + wrap16 (strlen rel).
Proof.
  unfold stat_msg, len. rewrite length_app, length_take, path_bytes_length.
  pose proof (wrap16_le (strlen rel)). unfold strlen in *. simpl length. lia.
Qed.

Lemma be32_length x : length (be32 x) = 4%nat.
Proof. done. Qed.

Lemma be64_length x : length (be64 x) = 8%nat.
Proof. done. Qed.

Lemma read_msg_len rel off n :
  len (read_msg rel off n) = 1 + 2 + wrap16 (strlen rel) + 8 + 4.
Proof.
  unfold read_msg, len.
  rewrite !length_app, length_take, path_bytes_length, be64_length, be32_length.
  pose proof (wrap16_le (strlen rel)). unfold strlen in *. simpl length. lia.
Qed.

(** Results of the transfer calls. *)
Lemma xfer_bounds f n : 0 < n → 0 < xfer f n ≤ n.
Proof. intros. unfold xfer. destruct f; crush. Qed.

Lemma logged_refl w : logged w w [].
Proof. unfold logged. by rewrite app_nil_r. Qed.

Lemma logged_trans w1 w2 w3 l1 l2 :
  logged w1 w2 l1 → logged w2 w3 l2 → logged w1 w3 (l1 ++ l2).
Proof. unfold logged. intros -> ->. by rewrite app_assoc. Qed.

Lemma clean_run_refl w : clean_run w w.
Proof. exists []. split; [done|]. apply not_elem_of_nil. Qed.

Lemma clean_run_trans w1 w2 w3 :
  clean_run w1 w2 → clean_run w2 w3 → clean_run w1 w3.
Proof.
  intros (u1 & H1 & N1) (u2 & H2 & N2). exists (u1 ++ u2).
  split; [by rewrite H1, H2, app_assoc|]. rewrite elem_of_app. tauto.
Qed.

Lemma clean_run_same w w' : w_script w' = w_script w → clean_run w w'.
Proof. intros H. exists []. split; [by rewrite H|]. apply not_elem_of_nil. Qed.

Lemma clean_run_ext w w1 w2 :
  clean_run w w1 → w_script w2 = w_script w1 → clean_run w w2.
Proof. intros (u & ? & ?) Hs. exists u. by rewrite Hs. Qed.

Lemma clean_run_ext_l w w1 w2 :
  clean_run w1 w2 → w_script w = w_script w1 → clean_run w w2.
Proof. intros (u & ? & ?) Hs. exists u. by rewrite Hs. Qed.

(** A fault that was consumed rules out a clean run. *)
Lemma clean_run_no_fault w w' used :
  clean_run w w' → w_script w = used ++ w_script w' → FFail ∉ used.
Proof.
  intros (u & H & N) H'. rewrite H in H'. by apply app_inv_tail in H' as <-.
Qed.

Lemma next_fault_spec w f w' :
  next_fault w = (f, w') →
  (f = FFail ∨ clean_run w w') ∧
  w' = set_script (w_script w') w.
Proof.
  unfold next_fault. destruct (w_script w) as [|f0 s] eqn:E; intros; simplify_eq/=.
  - split; [right; by apply clean_run_same|]. by destruct w'.
  - split; [|done]. destruct f; [right|by left|right].
    + exists [FOk]. wsimpl. split; [done|].
      by intros [?|?%elem_of_nil]%elem_of_cons.
    + exists [FShort k]. wsimpl. split; [done|].
      by intros [?|?%elem_of_nil]%elem_of_cons.
Qed.

Lemma sys_send_spec fd data w r w' :
  sys_send fd data w = (r, w') →
  logged w w' [] ∧ w_vsock_fd w' = w_vsock_fd w ∧ w_rx w' = w_rx w ∧
  (r = -1 ∨
   clean_run w w' ∧ 0 ≤ r ≤ len data ∧ (data ≠ [] → 0 < r) ∧
   w_tx w' = w_tx w ++ take (Z.to_nat r) data).
Proof.
  unfold sys_send. mred. destruct (next_fault w) as [f w1] eqn:Ef.
  apply next_fault_spec in Ef as [Hf Hw]. rewrite Hw. unfold logged.
  pose proof (len_nonneg data).
  assert (data ≠ [] → 0 < len data).
  { destruct data; [done|]. unfold len. simpl. lia. }
  assert (∀ k, 0 ≤ xfer (FShort k) (len data) ≤ len data ∧
               (data ≠ [] → 0 < xfer (FShort k) (len data))).
  { intros k. unfold xfer. destruct (0 <? k) eqn:?, (k <? len data) eqn:?; crush. }
  destruct f as [| |k]; intros; simplify_eq/=; wsimpl;
    (split; [by rewrite ?app_nil_r|]); (split; [done|]); (split; [done|]);
    [right|by left|right];
    (destruct Hf as [|Hf]; [done|]);
    (split; [by eapply clean_run_ext|]).
  - split; [lia|]. by split.
  - destruct (H1 k) as [? ?]. split; [done|]. by split.
Qed.

Lemma send_all_spec fd buf w r w' :
  send_all fd buf w = (r, w') →
  logged w w' [] ∧ w_vsock_fd w' = w_vsock_fd w ∧ w_rx w' = w_rx w ∧
  (r = -1 ∨ r = 0 ∧ clean_run w w' ∧ w_tx w' = w_tx w ++ buf).
Proof.
  unfold send_all. generalize (length buf) as fuel. intros fuel.
  revert buf w. induction fuel as [|fuel IH]; intros buf w; simpl; mred.
  - destruct (len buf >? 0) eqn:E; intros; simplify_eq/=.
    + split; [apply logged_refl|]. eauto.
    + split; [apply logged_refl|]. do 2 (split; [done|]). right.
      split; [done|]. split; [apply clean_run_refl|]. zbool.
      destruct buf; [by rewrite app_nil_r|]. unfold len in *. simpl in *. lia.
  - destruct (len buf >? 0) eqn:E; cbv iota.
    + destruct (sys_send fd buf w) as [sent w1] eqn:Es.
      apply sys_send_spec in Es as (Hl & Hv & Hrx & Hs).
      destruct (sent <=? 0) eqn:Ele.
      * intros; simplify_eq/=. by eauto.
      * intros Hrec. apply IH in Hrec as (Hl2 & Hv2 & Hrx2 & Hr).
        split; [apply (logged_trans _ _ _ _ _ Hl Hl2)|].
        do 2 (split; [congruence|]).
        destruct Hr as [->|(-> & Hc & Htx)]; [by left|right]. split; [done|].
        zbool. destruct Hs as [->|(Hc1 & ? & ? & Hs)]; [lia|].
        split; [by eapply clean_run_trans|].
        rewrite Htx, Hs, <- app_assoc. by rewrite take_drop.
    + intros; simplify_eq/=. split; [apply logged_refl|].
      do 2 (split; [done|]). right. split; [done|].
      split; [apply clean_run_refl|]. zbool.
      destruct buf; [by rewrite app_nil_r|]. unfold len in *. simpl in *. lia.
Qed.

Lemma host_turn_spec w u w' :
  host_turn w = (u, w') →
  logged w w' (req_log w) ∧ w_tx w' = [] ∧ w_rx w' = pending w ∧
  w_vsock_fd w' = w_vsock_fd w ∧ w_script w' = w_script w.
Proof.
  unfold host_turn, logged, pending, req_log.
  destruct (w_tx w) eqn:E; intros; simplify_eq/=; wsimpl; by rewrite ?app_nil_r.
Qed.

Lemma sys_recv_spec fd n w got bytes w' :
  0 < n →
  sys_recv fd n w = ((got, bytes), w') →
  logged w w' (req_log w) ∧ w_tx w' = [] ∧ w_vsock_fd w' = w_vsock_fd w ∧
  (got ≤ 0 ∨
   0 < got ≤ n ∧ len bytes = got ∧ pending w = bytes ++ w_rx w' ∧ clean_run w w').
Proof.
  intros Hn. unfold sys_recv. mred.
  destruct (host_turn w) as [[] w1] eqn:Eh.
  apply host_turn_spec in Eh as (Hl & Htx & Hrx & Hv & Hs).
  destruct (next_fault w1) as [f w2] eqn:Ef.
  apply next_fault_spec in Ef as [Hf Hw]. rewrite Hw.
  assert (Hc : ∀ w3, w_script w3 = w_script w2 → clean_run w1 w2 → clean_run w w3).
  { intros w3 H3 Hc. eapply clean_run_ext; [|exact H3]. by eapply clean_run_ext_l. }
  assert (HL : ∀ l, logged w (set_script (w_script w2) l) (req_log w) ↔
                    logged w l (req_log w)) by done.
  pose proof (len_nonneg (w_rx w1)).
  assert (Hk : ∀ k, 0 ≤ k ≤ len (w_rx w1) →
     len (take (Z.to_nat k) (w_rx w1)) = k ∧
     pending w = take (Z.to_nat k) (w_rx w1) ++ drop (Z.to_nat k) (w_rx w1)).
  { intros k Hk. split; [|by rewrite take_drop].
    unfold len in *. rewrite length_take. lia. }
  destruct f as [| |k]; intros; simplify_eq/=; wsimpl;
    (split; [done|]); (split; [done|]); (split; [done|]).
  - destruct Hf as [|Hf]; [done|].
    destruct (decide (Z.min n (len (w_rx w1)) ≤ 0)) as [|]; [by left|right].
    destruct (Hk (Z.min n (len (w_rx w1)))) as [? ?]; [lia|].
    repeat split; try done; try lia. by apply Hc.
  - by left.
  - destruct Hf as [|Hf]; [done|].
    set (m := Z.min n (len (w_rx w1))) in *.
    set (k' := if (0 <? k) && (k <? m) then k else m) in *.
    assert (k' ≤ m ∧ (0 < m → 0 < k')).
    { subst k'. destruct (0 <? k) eqn:?, (k <? m) eqn:?; crush. }
    destruct (decide (k' ≤ 0)) as [|]; [by left|right].
    destruct (Hk k') as [? ?]; [lia|].
    repeat split; try done; try lia. by apply Hc.
Qed.

Lemma recv_all_loop_spec fuel fd n buf0 w r buf w' :
  w_tx w = [] →
  recv_all_loop fuel fd n buf0 w = ((r, buf), w') →
  logged w w' [] ∧ w_tx w' = [] ∧ w_vsock_fd w' = w_vsock_fd w ∧
  (r = -1 ∨
   r = 0 ∧ clean_run w w' ∧
   ∃ got, buf = buf0 ++ got ∧ len got = Z.max 0 n ∧ w_rx w = got ++ w_rx w').
Proof.
  revert n buf0 w. induction fuel as [|fuel IH]; intros n buf0 w Htx; simpl; mred.
  - destruct (n >? 0) eqn:E; intros; simplify_eq/=.
    + split; [apply logged_refl|]. eauto.
    + split; [apply logged_refl|]. do 2 (split; [done|]). right.
      split; [done|]. split; [apply clean_run_refl|]. exists []. zbool.
      rewrite app_nil_r. split; [done|]. split; [|done]. unfold len. simpl. lia.
  - destruct (n >? 0) eqn:E; cbv iota.
    + destruct (sys_recv fd n w) as [[got bytes] w1] eqn:Es. zbool.
      apply sys_recv_spec in Es as (Hl & Htx1 & Hv & Hs); [|done].
      unfold req_log in Hl. rewrite Htx in Hl.
      destruct (got <=? 0) eqn:Ele.
      * intros; simplify_eq/=. by eauto.
      * intros Hrec. apply IH in Hrec as (Hl2 & Htx2 & Hv2 & Hr); [|done].
        split; [apply (logged_trans _ _ _ _ _ Hl Hl2)|].
        split; [done|]. split; [congruence|].
        destruct Hr as [->|(-> & Hc & got2 & -> & Hlen & Hrx)]; [by left|right].
        split; [done|]. zbool.
        destruct Hs as [?|(? & Hb & Hp & Hc1)]; [lia|].
        split; [by eapply clean_run_trans|].
        exists (bytes ++ got2). rewrite <- app_assoc. split; [done|].
        rewrite len_app. split; [lia|].
        unfold pending in Hp. rewrite Htx, app_nil_r in Hp.
        by rewrite Hp, Hrx, app_assoc.
    + intros; simplify_eq/=. split; [apply logged_refl|].
      do 2 (split; [done|]). right. split; [done|].
      split; [apply clean_run_refl|]. exists []. zbool.
      rewrite app_nil_r. split; [done|]. split; [|done]. unfold len. simpl. lia.
Qed.

Lemma recv_all_spec fd n w r buf w' :
  0 < n →
  recv_all fd n w = ((r, buf), w') →
  logged w w' (req_log w) ∧ w_tx w' = [] ∧ w_vsock_fd w' = w_vsock_fd w ∧
  (r = -1 ∨
   r = 0 ∧ clean_run w w' ∧ len buf = n ∧ pending w = buf ++ w_rx w').
Proof.
  intros Hn. unfold recv_all.
  destruct (Z.to_nat n) as [|fuel] eqn:Ef; [lia|]. simpl. mred.
  destruct (n >? 0) eqn:E; [|zbool; lia]. cbv iota.
  destruct (sys_recv fd n w) as [[got bytes] w1] eqn:Es.
  apply sys_recv_spec in Es as (Hl & Htx1 & Hv & Hs); [|done].
  destruct (got <=? 0) eqn:Ele.
  - intros; simplify_eq/=. by eauto.
  - intros Hrec. apply recv_all_loop_spec in Hrec as (Hl2 & Htx2 & Hv2 & Hr); [|done].
    split; [rewrite <- (app_nil_r (req_log w)); apply (logged_trans _ _ _ _ _ Hl Hl2)|].
    split; [done|]. split; [congruence|].
    destruct Hr as [->|(-> & Hc & got2 & -> & Hlen & Hrx)]; [by left|right].
    split; [done|]. zbool.
    destruct Hs as [?|(? & Hb & Hp & Hc1)]; [lia|].
    split; [by eapply clean_run_trans|]. simpl.
    rewrite len_app. split; [lia|]. by rewrite Hp, Hrx, app_assoc.
Qed.

Lemma at_nonneg buf i : 0 ≤ at_ buf i.
Proof. unfold at_, u8. pose proof (byte.unsigned_range (nth i buf Byte.x00)). lia. Qed.

Lemma rd32_nonneg buf i : 0 ≤ rd32 buf i.
Proof.
  unfold rd32. rewrite !Z.lor_nonneg, !Z.shiftl_nonneg.
  repeat split; apply at_nonneg.
Qed.

Lemma rd32_app buf rest : len buf = 4 → rd32 (buf ++ rest) 0 = rd32 buf 0.
Proof.
  intros H. destruct buf as [|a [|b [|c [|d [|]]]]]; try (unfold len in H; simpl in H; lia).
  done.
Qed.

Lemma malloc_spec n w ok w' :
  sys_malloc n w = (ok, w') →
  logged w w' [] ∧ w_tx w' = w_tx w ∧ w_rx w' = w_rx w ∧
  w_vsock_fd w' = w_vsock_fd w ∧ w_host w' = w_host w ∧
  (ok = true → clean_run w w').
Proof.
  unfold sys_malloc. mred. destruct (next_fault w) as [f w1] eqn:Ef.
  apply next_fault_spec in Ef as [Hf Hw]. rewrite Hw. unfold logged.
  destruct f; intros; simplify_eq/=; wsimpl; rewrite app_nil_r;
    repeat split; try done; intros _;
    (destruct Hf as [|Hf]; [done|]); by eapply clean_run_ext.
Qed.

(** [send_request]: what goes out, and what a response that comes back says
    about the stream. *)
Lemma send_request_spec msg msg_len w r w' :
  send_request msg msg_len w = (r, w') →
  let req := w_tx w ++ be32 msg_len ++ msg in
  let stream := w_rx w ++ w_host w (requests_of (w_trace w)) req in
  w_vsock_fd w' = w_vsock_fd w ∧
  (logged w w' [] ∨ logged w w' [EvRequest req] ∧ w_tx w' = []) ∧
  match r with
  | None => True
  | Some (resp, resp_len) =>
      clean_run w w' ∧ logged w w' [EvRequest req] ∧ w_tx w' = [] ∧
      well_framed stream ∧ resp_len = rd32 stream 0 ∧ len resp = resp_len ∧
      stream = take 4 stream ++ resp ++ w_rx w'
  end.
Proof.
  unfold send_request. mred. intros H.
  set (req := w_tx w ++ be32 msg_len ++ msg).
  set (stream := w_rx w ++ w_host w (requests_of (w_trace w)) req).
  revert H.
  destruct (send_all (w_vsock_fd w) (be32 msg_len) w) as [r1 w1] eqn:E1.
  pose proof (send_all_net (w_vsock_fd w) (be32 msg_len) w) as N1.
  rewrite E1 in N1. simpl in N1.
  apply send_all_spec in E1 as (L1 & V1 & R1 & S1).
  destruct (r1 <? 0) eqn:B1; [cbv beta iota; intros [= <- <-]; by eauto|]. zbool.
  destruct S1 as [->|(-> & C1 & T1)]; [lia|].
  destruct (send_all (w_vsock_fd w) msg w1) as [r2 w2] eqn:E2.
  pose proof (send_all_net (w_vsock_fd w) msg w1) as N2.
  rewrite E2 in N2. simpl in N2.
  apply send_all_spec in E2 as (L2 & V2 & R2 & S2).
  pose proof (logged_trans _ _ _ _ _ L1 L2) as L12. simpl in L12.
  assert (V12 : w_vsock_fd w2 = w_vsock_fd w) by congruence.
  destruct (r2 <? 0) eqn:B2; [cbv beta iota; intros [= <- <-]; by eauto|]. zbool.
  destruct S2 as [->|(-> & C2 & T2)]; [lia|].
  assert (Htx2 : w_tx w2 = req) by (subst req; by rewrite T2, T1, <- app_assoc).
  assert (Hne : req ≠ []) by (subst req; by destruct (w_tx w)).
  assert (Hh : w_host w2 = w_host w).
  { destruct N1 as (_&_&_&_&Ha&_). destruct N2 as (_&_&_&_&Hb&_). congruence. }
  assert (Hp : pending w2 = stream).
  { unfold pending, stream. rewrite R2, R1, Hh, Htx2.
    unfold logged in L12. rewrite L12, app_nil_r. by destruct req. }
  assert (Hq : req_log w2 = [EvRequest req]).
  { unfold req_log. rewrite Htx2. by destruct req. }
  destruct (recv_all (w_vsock_fd w) 4 w2) as [[r3 hdr] w3] eqn:E3.
  apply recv_all_spec in E3 as (L3 & T3 & V3 & S3); [|lia].
  rewrite Hq in L3. pose proof (logged_trans _ _ _ _ _ L12 L3) as L123.
  simpl in L123.
  assert (V123 : w_vsock_fd w3 = w_vsock_fd w) by congruence.
  destruct (r3 <? 0) eqn:B3; [cbv beta iota; intros [= <- <-]; by eauto|]. zbool.
  destruct S3 as [->|(-> & C3 & Hlen & Hpend)]; [lia|].
  rewrite Hp in Hpend.
  destruct (rd32 hdr 0 =? 0) eqn:B4; [cbv beta iota; intros [= <- <-]; by eauto|].
  destruct (rd32 hdr 0 >? 16 * 1024 * 1024) eqn:B5;
    [cbv beta iota; intros [= <- <-]; by eauto|].
  zbool.
  destruct (sys_malloc (rd32 hdr 0) w3) as [ok w4] eqn:E4.
  apply malloc_spec in E4 as (L4 & T4 & R4 & V4 & H4 & C4).
  pose proof (logged_trans _ _ _ _ _ L123 L4) as L1234. simpl in L1234.
  assert (V1234 : w_vsock_fd w4 = w_vsock_fd w) by congruence.
  assert (T34 : w_tx w4 = []) by congruence.
  destruct ok; cbv beta iota; [|intros [= <- <-]; by eauto].
  destruct (recv_all (w_vsock_fd w) (rd32 hdr 0) w4) as [[r5 resp] w5] eqn:E5.
  pose proof (rd32_nonneg hdr 0).
  apply recv_all_spec in E5 as (L5 & T5 & V5 & S5); [|lia].
  assert (Hq4 : req_log w4 = []) by (unfold req_log; by rewrite T34).
  rewrite Hq4 in L5.
  pose proof (logged_trans _ _ _ _ _ L1234 L5) as L5'. simpl in L5'.
  assert (V5' : w_vsock_fd w5 = w_vsock_fd w) by congruence.
  destruct (r5 <? 0) eqn:B6; cbv beta iota; intros [= <- <-]; [by eauto|]. zbool.
  destruct S5 as [->|(_ & C5 & Hlen5 & Hpend5)]; [lia|].
  unfold pending in Hpend5. rewrite T34, app_nil_r, R4 in Hpend5.
  rewrite Hpend5 in Hpend.
  assert (Hhd : take 4 stream = hdr).
  { rewrite Hpend. rewrite take_app_length'; [done|]. unfold len in Hlen. lia. }
  assert (Hrd : rd32 stream 0 = rd32 hdr 0) by (rewrite Hpend; by apply rd32_app).
  split; [done|]. split; [by eauto|].
  split.
  { eapply clean_run_trans; [exact C1|]. eapply clean_run_trans; [exact C2|].
    eapply clean_run_trans; [exact C3|].
    eapply clean_run_trans; [exact (C4 eq_refl)|exact C5]. }
  do 2 (split; [done|]).
  split; [|by rewrite Hhd, Hrd].
  unfold well_framed. rewrite Hrd.
  assert (len stream = 4 + rd32 hdr 0 + len (w_rx w5)).
  { rewrite Hpend, !len_app. lia. }
  pose proof (len_nonneg (w_rx w5)). lia.
Qed.

Lemma sys_close_spec fd w u w' :
  sys_close fd w = (u, w') →
  logged w w' [] ∧ w_tx w' = w_tx w ∧ w_rx w' = w_rx w ∧
  w_vsock_fd w' = w_vsock_fd w ∧ w_script w' = w_script w.
Proof.
  unfold sys_close, logged. destruct (w_fds w !! fd); intros [= <- <-];
    wsimpl; by rewrite app_nil_r.
Qed.

Lemma vsock_connect_spec w r w' :
  vsock_connect w = (r, w') →
  (r = 0 ∧ 0 ≤ w_vsock_fd w ∧ w' = w) ∨
  (w_vsock_fd w < 0 ∧
   ((r = -1 ∧ w_vsock_fd w' = w_vsock_fd w ∧ logged w w' []) ∨
    (r = 0 ∧ clean_run w w' ∧
     logged w w' [EvConnect (Z.of_nat (w_next_fd w))] ∧
     w_vsock_fd w' = Z.of_nat (w_next_fd w) ∧
     w_tx w' = [] ∧ w_rx w' = []))).
Proof.
  unfold vsock_connect. mred.
  destruct (w_vsock_fd w >=? 0) eqn:B0; cbv beta iota.
  { intros [= <- <-]. zbool. left. by repeat split. }
  zbool. intros H. right. split; [lia|]. revert H.
  unfold sys_socket. mred.
  destruct (next_fault w) as [f1 w1] eqn:E1.
  apply next_fault_spec in E1 as [F1 W1].
  assert (Hsock : f1 = FFail ∨ f1 ≠ FFail ∧ clean_run w w1).
  { destruct F1 as [|F1]; [by left|]. destruct f1; [right|by left|right]; by split. }
  destruct Hsock as [->|[Hf1 C1]].
  { cbv beta iota. intros [= <- <-]. left. rewrite W1. unfold logged. wsimpl.
    by rewrite app_nil_r. }
  assert (Hs : (match f1 with
                | FFail => λ w0, (-1, set_errno EIO w0)
                | _ => alloc_fd FdSock
                end) w1 = alloc_fd FdSock w1) by (by destruct f1).
  rewrite Hs. unfold alloc_fd. cbv beta iota zeta.
  destruct (Z.of_nat (w_next_fd w1) <? 0) eqn:B1; [zbool; lia|]. cbv beta iota.
  unfold sys_connect. mred.
  set (w2 := set_next_fd _ _).
  destruct (next_fault w2) as [f2 w3] eqn:E2.
  apply next_fault_spec in E2 as [F2 W2].
  assert (Hn : w_next_fd w1 = w_next_fd w) by (by rewrite W1).
  assert (Hc : f2 = FFail ∨ f2 ≠ FFail ∧ clean_run w2 w3).
  { destruct F2 as [|F2]; [by left|]. destruct f2; [right|by left|right]; by split. }
  destruct Hc as [->|[Hf2 C2]].
  { zconst.
    destruct (sys_close (Z.of_nat (w_next_fd w1)) (set_errno EIO w3)) as [[] w4] eqn:E4.
    apply sys_close_spec in E4 as (L4 & _ & _ & V4 & _).
    intros [= <- <-]. left. split; [done|]. rewrite V4, W2. subst w2. wsimpl.
    rewrite W1. wsimpl. split; [done|]. unfold logged in *. rewrite L4, W2.
    wsimpl. rewrite W1. wsimpl. by rewrite !app_nil_r. }
  assert (Hs2 : ∀ k1 k2, (match f2 with
                | FFail => k1
                | _ => k2
                end : M Z) = k2) by (intros; by destruct f2).
  rewrite Hs2. zconst.
  intros [= <- <-]. right. wsimpl. rewrite Hn.
  split; [done|]. split.
  { eapply clean_run_trans; [exact C1|].
    eapply clean_run_ext; [|reflexivity]. eapply clean_run_ext_l; [exact C2|].
    by subst w2. }
  unfold logged. wsimpl. rewrite W2. subst w2. wsimpl. rewrite W1. wsimpl.
  by repeat split.
Qed.

Lemma vsock_disconnect_spec w u w' :
  vsock_disconnect w = (u, w') →
  logged w w' [] ∧ w_tx w' = w_tx w ∧ w_rx w' = w_rx w ∧ w_vsock_fd w' < 0 ∧
  w_script w' = w_script w.
Proof.
  unfold vsock_disconnect. mred.
  destruct (w_vsock_fd w >=? 0) eqn:B0; cbv beta iota.
  - destruct (sys_close (w_vsock_fd w) w) as [[] w1] eqn:E.
    apply sys_close_spec in E as (L & T & R & V & S).
    intros [= <- <-]. wsimpl. unfold logged in *. wsimpl. by repeat split.
  - zbool. intros [= <- <-]. unfold logged. rewrite app_nil_r. repeat split; lia.
Qed.

Lemma remote_stat_exchange rel st w :
  remote_stat rel st w =
  exchange (stat_msg rel) (1 + 2 + wrap16 (strlen rel)) (-1, st)
    (λ resp resp_len, parse_stat resp resp_len st) w.
Proof.
  unfold remote_stat, exchange, parse_stat. mred.
  destruct (vsock_connect w) as [c w1]. destruct (c <? 0); [done|].
  destruct (send_request _ _ w1) as [[[resp resp_len]|] w2]; [|done].
  by repeat case_match.
Qed.

Lemma remote_read_chunk_exchange rel off n w :
  remote_read_chunk rel off n w =
  exchange (read_msg rel off n) (1 + 2 + wrap16 (strlen rel) + 8 + 4) (-1, [])
    (λ resp resp_len, parse_read resp resp_len n) w.
Proof.
  unfold remote_read_chunk, exchange, parse_read. mred.
  destruct (vsock_connect w) as [c w1]. destruct (c <? 0); [done|].
  destruct (send_request _ _ w1) as [[[resp resp_len]|] w2]; [|done].
  by repeat case_match.
Qed.

Lemma net_events_app t1 t2 : net_events (t1 ++ t2) = net_events t1 ++ net_events t2.
Proof. apply omap_app. Qed.

Lemma requests_of_app t1 t2 :
  requests_of (t1 ++ t2) = requests_of t1 ++ requests_of t2.
Proof. apply omap_app. Qed.

(** One remote call from a quiet connection, or from none: at most one
    connection is made and at most one request sent; either the call fails
    and leaves no connection, or the host's reply starts with a frame the
    library accepts and the result is what the parser makes of it. *)
Lemma exchange_spec {A} msg (failure : A) parse w res w' :
  idle w →
  exchange msg (len msg) failure parse w = (res, w') →
  let reply := inbound w ++ w_host w (requests_of (w_trace w)) (frame msg) in
  ∃ c q,
    logged w w' (c ++ q) ∧
    (c = [] ∧ (0 ≤ w_vsock_fd w ∨ q = []) ∨
     w_vsock_fd w < 0 ∧ c = [EvConnect (Z.of_nat (w_next_fd w))]) ∧
    (q = [] ∨ q = [EvRequest (frame msg)]) ∧
    (res = failure ∧ w_vsock_fd w' < 0 ∨
     q = [EvRequest (frame msg)] ∧ 0 ≤ w_vsock_fd w' ∧ w_tx w' = [] ∧
     clean_run w w' ∧ well_framed reply ∧
     ∃ resp, reply = take 4 reply ++ resp ++ w_rx w' ∧
             len resp = rd32 reply 0 ∧ res = parse resp (len resp)).
Proof.
  intros Hidle. unfold exchange, inbound. mred.
  destruct (vsock_connect w) as [r0 w0] eqn:E0.
  pose proof (vsock_connect_net w) as N0. rewrite E0 in N0. simpl in N0.
  apply vsock_connect_spec in E0.
  assert (Hc : r0 = -1 ∧ w_vsock_fd w0 = w_vsock_fd w ∧ w_vsock_fd w < 0 ∧
               logged w w0 [] ∨
               r0 = 0 ∧ 0 ≤ w_vsock_fd w0 ∧ w_tx w0 = [] ∧
               w_rx w0 = (if w_vsock_fd w <? 0 then [] else w_rx w) ∧
               clean_run w w0 ∧
               ∃ c, logged w w0 c ∧
                    (c = [] ∧ 0 ≤ w_vsock_fd w ∨
                     w_vsock_fd w < 0 ∧
                     c = [EvConnect (Z.of_nat (w_next_fd w))])).
  { destruct E0 as [(-> & ? & ->)|(? & [(-> & ? & ?)|(-> & ? & ? & ? & ? & ?)])].
    - right. destruct Hidle as [|Ht]; [lia|].
      destruct (w_vsock_fd w <? 0) eqn:?; [zbool; lia|]. repeat split; try done.
      + apply clean_run_refl.
      + exists []. split; [apply logged_refl|left; by split].
    - left. by repeat split.
    - right. destruct (w_vsock_fd w <? 0) eqn:?; [|zbool; lia].
      repeat split; try done; try lia. eexists. split; [done|]. right. by split. }
  clear E0. destruct Hc as [(-> & V0 & ? & L0)|(-> & V0 & T0 & R0 & C0 & c & L0 & Hc)].
  { zconst. intros [= <- <-]. exists [], []. split; [done|].
    split; [left; split; [done|by right]|]. split; [by left|].
    left. split; [done|lia]. }
  zconst. destruct (send_request msg (len msg) w0) as [r1 w1] eqn:E1.
  apply send_request_spec in E1. simpl in E1. rewrite T0, R0 in E1. simpl in E1.
  assert (Hh : w_host w0 (requests_of (w_trace w0)) = w_host w (requests_of (w_trace w))).
  { destruct N0 as (_&_&_&_&->&_). unfold logged in L0. rewrite L0, requests_of_app.
    destruct Hc as [[-> _]|[_ ->]]; simpl; by rewrite app_nil_r. }
  rewrite Hh in E1. fold (frame msg) in E1.
  destruct E1 as (V1 & Q1 & S1).
  destruct r1 as [[resp resp_len]|]; cbv beta iota.
  - intros [= <- <-]. destruct S1 as (C1 & L1 & T1 & WF & -> & Hl & Hs).
    exists c, [EvRequest (frame msg)]. split; [by eapply logged_trans|].
    split; [destruct Hc as [[-> ?]|?]; [left; split; [done|by left]|by right]|].
    split; [by right|]. right.
    split; [done|]. split; [lia|]. split; [done|].
    split; [by eapply clean_run_trans|]. split; [done|].
    exists resp. by rewrite Hl.
  - destruct (vsock_disconnect w1) as [[] w2] eqn:E2.
    apply vsock_disconnect_spec in E2 as (L2 & T2 & R2 & V2 & _).
    intros [= <- <-].
    destruct Q1 as [L1|[L1 T1]].
    + exists c, []. split.
      { eapply logged_trans; [exact L0|].
        rewrite <- (app_nil_r []). by eapply logged_trans. }
      split; [destruct Hc as [[-> ?]|?]; [left; split; [done|by left]|by right]|].
      split; [by left|]. by left.
    + exists c, [EvRequest (frame msg)]. split.
      { eapply logged_trans; [exact L0|].
        rewrite <- (app_nil_r [_]). by eapply logged_trans. }
      split; [destruct Hc as [[-> ?]|?]; [left; split; [done|by left]|by right]|].
      split; [by right|]. by left.
Qed.

(** ** Big-endian packing *)

Lemma u8_to_u8_land x : u8 (to_u8 (Z.land x 255)) = Z.land x 255.
Proof.
  unfold u8, to_u8. rewrite byte.unsigned_of_Z. unfold byte.wrap.
  change 255 with (Z.ones 8). rewrite Z.land_ones by lia.
  apply Z.mod_mod. lia.
Qed.

Lemma testbit_byte x s n :
  0 ≤ n → 0 ≤ s →
  Z.testbit (Z.shiftl (Z.land (Z.shiftr x s) 255) s) n =
  Z.testbit x n && (s <=? n) && (n <? s + 8).
Proof.
  intros Hn Hs. change 255 with (Z.ones 8).
  destruct (Z.leb_spec s n) as [Hle|Hlt].
  - rewrite Z.shiftl_spec, Z.land_spec, Z.shiftr_spec, Z.testbit_ones_nonneg by lia.
    replace (n - s + s) with n by lia.
    destruct (Z.ltb_spec (n - s) 8), (Z.ltb_spec n (s + 8)); try lia;
      by rewrite ?andb_true_r, ?andb_false_r.
  - rewrite Z.shiftl_spec_low by lia. by rewrite andb_false_r.
Qed.

Lemma testbit_byte0 x n :
  0 ≤ n → Z.testbit (Z.land x 255) n = Z.testbit x n && (n <? 8).
Proof.
  intros Hn. change 255 with (Z.ones 8).
  by rewrite Z.land_spec, Z.testbit_ones_nonneg by lia.
Qed.

Lemma testbit_above x n k : 0 ≤ x < 2 ^ k → k ≤ n → Z.testbit x n = false.
Proof.
  intros Hx Hn. destruct (Z.eq_dec x 0) as [->|]; [apply Z.bits_0|].
  apply Z.bits_above_log2; [lia|].
  assert (Z.log2 x < k) by (apply Z.log2_lt_pow2; lia). lia.
Qed.

(** Decides the comparisons of a goal once the bit position is known. *)
Ltac decide_cmp :=
  repeat match goal with
  | |- context [?a <=? ?b] =>
      first [ rewrite (proj2 (Z.leb_le a b)) by lia
            | rewrite (proj2 (Z.leb_gt a b)) by lia ]
  | |- context [?a <? ?b] =>
      first [ rewrite (proj2 (Z.ltb_lt a b)) by lia
            | rewrite (proj2 (Z.ltb_ge a b)) by lia ]
  end.

Lemma rd32_be32 x : 0 ≤ x < 2 ^ 32 → rd32 (be32 x) 0 = x.
Proof.
  intros Hx. unfold rd32, be32, at_. simpl nth. rewrite !u8_to_u8_land.
  apply Z.bits_inj'. intros n Hn.
  rewrite !Z.lor_spec, !testbit_byte, testbit_byte0 by lia.
  destruct (Z.lt_ge_cases n 32) as [Hlt|Hge].
  - assert (Hc : n < 8 ∨ 8 ≤ n < 16 ∨ 16 ≤ n < 24 ∨ 24 ≤ n < 32) by lia.
    destruct Hc as [?|[?|[?|?]]]; decide_cmp; by destruct (Z.testbit x n).
  - rewrite (testbit_above x n 32) by done. done.
Qed.

Lemma rd64_be64 x : 0 ≤ x < 2 ^ 64 → rd64 (be64 x) 0 = x.
Proof.
  intros Hx. unfold rd64, be64, at_. simpl nth. rewrite !u8_to_u8_land.
  apply Z.bits_inj'. intros n Hn.
  rewrite !Z.lor_spec, !testbit_byte, testbit_byte0 by lia.
  destruct (Z.lt_ge_cases n 64) as [Hlt|Hge].
  - assert (Hc : n < 8 ∨ 8 ≤ n < 16 ∨ 16 ≤ n < 24 ∨ 24 ≤ n < 32 ∨
                 32 ≤ n < 40 ∨ 40 ≤ n < 48 ∨ 48 ≤ n < 56 ∨ 56 ≤ n < 64) by lia.
    destruct Hc as [?|[?|[?|[?|[?|[?|[?|?]]]]]]]; decide_cmp;
      by destruct (Z.testbit x n).
  - rewrite (testbit_above x n 64) by done. done.
Qed.

(** The unpacking reads a buffer from where it is told to. *)
Lemma at_skip (pre l : list byte) i : at_ (pre ++ l) (length pre + i) = at_ l i.
Proof.
  unfold at_. f_equal. induction pre as [|b pre IH]; simpl; [done|apply IH].
Qed.

Lemma rd32_skip (pre l : list byte) k : length pre = k → rd32 (pre ++ l) k = rd32 l 0.
Proof.
  intros <-. unfold rd32.
  rewrite <- (Nat.add_0_r (length pre)) at 1.
  by rewrite !at_skip.
Qed.

Lemma rd64_skip (pre l : list byte) k : length pre = k → rd64 (pre ++ l) k = rd64 l 0.
Proof.
  intros <-. unfold rd64.
  rewrite <- (Nat.add_0_r (length pre)) at 1.
  by rewrite !at_skip.
Qed.

Lemma at_take (l rest : list byte) i : (i < length l)%nat → at_ (l ++ rest) i = at_ l i.
Proof. intros Hi. unfold at_. f_equal. by apply app_nth1. Qed.

Lemma rd32_take (l rest : list byte) : length l = 4%nat → rd32 (l ++ rest) 0 = rd32 l 0.
Proof. intros Hl. unfold rd32. rewrite !at_take by (simpl; lia). done. Qed.

Lemma rd64_take (l rest : list byte) : length l = 8%nat → rd64 (l ++ rest) 0 = rd64 l 0.
Proof. intros Hl. unfold rd64. rewrite !at_take by (simpl; lia). done. Qed.

(** A file status is never a directory status. *)
Lemma S_ISDIR_reg m : S_ISDIR (Z.lor m S_IFREG) = false.
Proof.
  unfold S_ISDIR. apply Z.eqb_neq. intros H.
  apply (f_equal (λ z, Z.testbit z 15)) in H.
  rewrite Z.land_spec, Z.lor_spec in H. vm_compute (Z.testbit S_IFREG 15) in H.
  vm_compute (Z.testbit S_IFMT 15) in H. vm_compute (Z.testbit S_IFDIR 15) in H.
  by rewrite orb_true_r in H.
Qed.

(** ** Status queries and access checks *)

Lemma real_fstatat_spec d p sb f w r w' :
  real_fstatat d p sb f w = (r, w') →
  ∃ e, w' = set_errno e (set_trace (w_trace w ++ [EvRealFstatat d p f]) w).
Proof.
  unfold real_fstatat. destruct p as [p|]; mred; intros H.
  - case_match; simplify_eq/=; eauto.
  - simplify_eq/=. eauto.
Qed.

Lemma cache_path_for_abs rel cp d w :
  cache_path_for rel PATH_MAX = Some cp → kernel_path w d cp = Some cp.
Proof. unfold cache_path_for. destruct (_ >=? _); [done|]. by intros [= <-]. Qed.

(** A cached object is found by the lookup the library starts with. *)
Lemma real_fstatat_cached rel cp nd sb w :
  cache_path_for rel PATH_MAX = Some cp → w_fs w !! cp = Some nd →
  real_fstatat AT_FDCWD (Some cp) sb 0 w =
  ((0, stat_of_node nd),
   set_trace (w_trace w ++ [EvRealFstatat AT_FDCWD (Some cp) 0]) w).
Proof.
  intros Hcp Hnd. unfold real_fstatat. mred.
  rewrite (cache_path_for_abs _ _ _ _ Hcp). simpl. wsimpl. by rewrite Hnd.
Qed.

Lemma real_fstatat_result d p sb f w r sb' w' :
  real_fstatat d p sb f w = ((r, sb'), w') → r = 0 ∨ r = -1 ∧ sb' = sb.
Proof.
  unfold real_fstatat. destruct p as [p|]; mred; intros H.
  - case_match; simplify_eq/=; eauto.
  - simplify_eq/=. eauto.
Qed.

Lemma stat_frame rel :
  be32 (1 + 2 + wrap16 (strlen rel)) ++ stat_msg rel = frame (stat_msg rel).
Proof. unfold frame. by rewrite stat_msg_len. Qed.

Lemma remote_stat_spec rel st w res w' :
  idle w →
  remote_stat rel st w = (res, w') →
  w_fs w' = w_fs w ∧ w_in_hook w' = w_in_hook w ∧ idle w' ∧
  (res.1 = 0 ∨ res = (-1, st)) ∧
  ∃ c q,
    logged w w' (c ++ q) ∧
    (c = [] ∨ c = [EvConnect (Z.of_nat (w_next_fd w))]) ∧
    (q = [] ∨ q = [EvRequest (frame (stat_msg rel))]).
Proof.
  intros Hidle H.
  pose proof (remote_stat_net rel st w) as (Hfs & _ & Hh & _). rewrite H in *.
  simpl in *. do 2 (split; [done|]).
  rewrite remote_stat_exchange, <- stat_msg_len in H.
  apply exchange_spec in H as (c & q & L & Hc & Hq & Hr); [|done].
  split. { destruct Hr as [[_ ?]|(_&_&?&_)]; [by left|by right]. }
  split; [|exists c, q; split; [done|]; split; [|done];
           destruct Hc as [[? _]|[_ ?]]; eauto].
  destruct Hr as [[-> _]|(_&_&_&_&_&resp&_&_&->)]; [by right|].
  unfold parse_stat. repeat case_match; eauto.
Qed.

Lemma ensure_cached_stat_spec rel st w res w' :
  idle w →
  ensure_cached_stat rel st w = (res, w') →
  w_fs w' = w_fs w ∧ w_in_hook w' = w_in_hook w ∧ idle w' ∧
  ∃ q, requests_of (w_trace w') = requests_of (w_trace w) ++ q ∧
       (q = [] ∨ q = [frame (stat_msg rel)]).
Proof.
  intros Hidle. unfold ensure_cached_stat.
  destruct (cache_path_for rel PATH_MAX) as [cp|]; mred.
  2:{ intros [= <- <-]. repeat split; try done. exists []. by rewrite app_nil_r; eauto. }
  destruct (real_fstatat _ _ _ _ w) as [[rc st1] w1] eqn:E1.
  apply real_fstatat_spec in E1 as [e ->].
  destruct (rc =? 0).
  { intros [= <- <-]. wsimpl. repeat split; try done.
    exists []. rewrite requests_of_app. simpl. eauto. }
  intros H. apply remote_stat_spec in H as (Hfs & Hh & Hi & _ & c & q & L & Hc & Hq);
    [|done].
  wsimpl. repeat split; try done.
  unfold logged in L. wsimpl. rewrite L, !requests_of_app. simpl.
  rewrite app_nil_r.
  destruct Hc as [-> | ->], Hq as [-> | ->]; simpl; eauto.
Qed.

Lemma stat_request_opcode rel : at_ (frame (stat_msg rel)) 4 = OP_STAT.
Proof. done. Qed.

Lemma read_request_opcode rel off n : at_ (frame (read_msg rel off n)) 4 = OP_READ.
Proof. done. Qed.

(** C10.  A status query or an access check on a path of the namespace other
    than its root leaves the local file system as it found it, and the host
    receives from it at most one request, which is the STAT request for the
    relative path: no READ, and nothing is created under the cache root. *)
Theorem stat_and_access_do_not_populate (dirfd : Z) (pathname : option string)
    (rel : string) (w : World) :
  w_in_hook w = false →
  idle w →
  classify dirfd pathname w = Some rel →
  rel ≠ EmptyString →
  at_ (frame (stat_msg rel)) 4 = OP_STAT ∧
  (∀ statbuf flags,
     let w' := (fstatat dirfd pathname statbuf flags w).2 in
     w_fs w' = w_fs w ∧
     ∃ q, requests_of (w_trace w') = requests_of (w_trace w) ++ q ∧
          (q = [] ∨ q = [frame (stat_msg rel)])) ∧
  (∀ mode flags,
     let w' := (faccessat dirfd pathname mode flags w).2 in
     w_fs w' = w_fs w ∧
     ∃ q, requests_of (w_trace w') = requests_of (w_trace w) ++ q ∧
          (q = [] ∨ q = [frame (stat_msg rel)])).
Proof.
  intros Hhook Hidle Hin Hrel.
  destruct (classify_resolved _ _ _ _ Hin) as (p & r & -> & Hr & Hc).
  split; [done|]. split.
  - intros statbuf flags. unfold fstatat. mred.
    rewrite Hhook, bool_decide_eq_false_2, Hr, Hc by done.
    rewrite bool_decide_eq_false_2 by done. cbv beta iota.
    destruct (ensure_cached_stat rel statbuf (set_in_hook true w))
      as [[rc sb] w1] eqn:E.
    apply ensure_cached_stat_spec in E as (Hfs & _ & _ & q & Hq & Hq'); [|done].
    destruct (rc <? 0); simpl; wsimpl; eauto.
  - intros mode flags. unfold faccessat. mred.
    rewrite Hhook, bool_decide_eq_false_2, Hr, Hc by done.
    destruct (has_flag mode W_OK); cbv beta iota.
    { simpl. split; [done|]. exists []. rewrite app_nil_r. eauto. }
    rewrite bool_decide_eq_false_2 by done. cbv beta iota.
    destruct (ensure_cached_stat rel stat_zero (set_in_hook true w))
      as [[rc sb] w1] eqn:E.
    apply ensure_cached_stat_spec in E as (Hfs & _ & _ & q & Hq & Hq'); [|done].
    destruct (rc <? 0); simpl; wsimpl; eauto.
Qed.

(** ** The root of the namespace *)

Lemma set_in_hook_twice b b' w : set_in_hook b (set_in_hook b' w) = set_in_hook b w.
Proof. done. Qed.

Lemma no_host_contact_log e w :
  match e with EvConnect _ | EvRequest _ => False | _ => True end →
  no_host_contact w (set_trace (w_trace w ++ [e]) w).
Proof. intros He. unfold no_host_contact. wsimpl. by rewrite net_events_snoc_real. Qed.

Lemma openat_no_contact_tail d p f m w0 w :
  no_host_contact w0 w → no_host_contact w0 (real_openat d p f m w).2.
Proof. intros H. eapply no_host_contact_trans; [exact H|apply real_openat_no_contact]. Qed.

(** C9.  At the root of the namespace (empty relative path) a status query
    answers 0 with a synthesized directory status (type directory, mode
    0755, two links, every other field zero) and leaves the world untouched;
    an access check without [W_OK] answers 0 and leaves the world untouched;
    an open without [O_WRONLY] and [O_RDWR] is [mkdir] of the cache root
    followed by the real [openat] of the cache root with
    [O_RDONLY | O_DIRECTORY]; and whatever the arguments, no entry point
    connects to the host or sends it anything. *)
Theorem namespace_root_is_local (dirfd : Z) (pathname : option string) (w : World) :
  w_in_hook w = false →
  classify dirfd pathname w = Some EmptyString →
  (∀ statbuf flags,
     ∃ st, fstatat dirfd pathname statbuf flags w = ((0, st), w) ∧
           S_ISDIR (st_mode st) = true ∧ st_mode st = Z.lor S_IFDIR 493 ∧
           st_nlink st = 2 ∧ st_size st = 0) ∧
  (∀ mode flags,
     has_flag mode W_OK = false →
     faccessat dirfd pathname mode flags w = (0, w)) ∧
  (∀ flags va_mode,
     has_flag flags (Z.lor O_WRONLY O_RDWR) = false →
     openat dirfd pathname flags va_mode w =
     (sys_mkdir CACHE_DIR 493 ;;
      real_openat AT_FDCWD (Some CACHE_DIR) (Z.lor O_RDONLY O_DIRECTORY) 0) w) ∧
  (∀ flags va_mode,
     no_host_contact w (openat dirfd pathname flags va_mode w).2) ∧
  (∀ statbuf flags,
     no_host_contact w (fstatat dirfd pathname statbuf flags w).2) ∧
  (∀ mode flags,
     no_host_contact w (faccessat dirfd pathname mode flags w).2) ∧
  (dirfd = AT_FDCWD → ∀ mode, no_host_contact w (fopen pathname mode w).2).
Proof.
  intros Hhook Hin.
  destruct (classify_resolved _ _ _ _ Hin) as (p & r & -> & Hr & Hc).
  assert (Hstat : ∀ statbuf flags,
     ∃ st, fstatat dirfd (Some p) statbuf flags w = ((0, st), w) ∧
           S_ISDIR (st_mode st) = true ∧ st_mode st = Z.lor S_IFDIR 493 ∧
           st_nlink st = 2 ∧ st_size st = 0).
  { intros. unfold fstatat. mred.
    rewrite Hhook, bool_decide_eq_false_2, Hr, Hc by done.
    rewrite bool_decide_eq_true_2 by done. zconst.
    rewrite set_in_hook_twice, set_in_hook_id by done. eauto 10. }
  assert (Hacc : ∀ mode flags,
     has_flag mode W_OK = false →
     faccessat dirfd (Some p) mode flags w = (0, w)).
  { intros mode flags Hm. unfold faccessat. mred.
    rewrite Hhook, bool_decide_eq_false_2, Hr, Hc, Hm by done.
    rewrite bool_decide_eq_true_2 by done. zconst.
    by rewrite set_in_hook_twice, set_in_hook_id. }
  assert (Hopen : ∀ flags va_mode,
     has_flag flags (Z.lor O_WRONLY O_RDWR) = false →
     openat dirfd (Some p) flags va_mode w =
     (sys_mkdir CACHE_DIR 493 ;;
      real_openat AT_FDCWD (Some CACHE_DIR) (Z.lor O_RDONLY O_DIRECTORY) 0) w).
  { intros flags va_mode Hf. unfold openat. mred.
    rewrite Hhook, bool_decide_eq_false_2, Hr, Hc, Hf by done.
    rewrite bool_decide_eq_true_2 by done. cbv beta iota.
    by rewrite set_in_hook_twice, set_in_hook_id. }
  assert (Hopen' : ∀ flags va_mode,
     no_host_contact w (openat dirfd (Some p) flags va_mode w).2).
  { intros flags va_mode.
    destruct (has_flag flags (Z.lor O_WRONLY O_RDWR)) eqn:Hf.
    - rewrite (openat_write_intent _ _ _ _ Hhook Hin) by done.
      apply no_host_contact_errno.
    - rewrite Hopen by done. mred.
      pose proof (sys_mkdir_no_contact CACHE_DIR 493 w) as Hm.
      destruct (sys_mkdir CACHE_DIR 493 w) as [? w1].
      by apply openat_no_contact_tail. }
  do 4 (split; [done|]). split; [|split].
  - intros statbuf flags. destruct (Hstat statbuf flags) as (st & -> & _).
    apply no_host_contact_refl.
  - intros mode flags. destruct (has_flag mode W_OK) eqn:Hm.
    + rewrite (faccessat_write_intent _ _ _ _ Hhook Hin) by done.
      apply no_host_contact_errno.
    + rewrite Hacc by done. apply no_host_contact_refl.
  - intros -> mode. unfold fopen. mred.
    rewrite Hhook, bool_decide_eq_false_2, Hr, Hc by done.
    destruct (strchr mode "w"); [apply no_host_contact_errno|].
    destruct (strchr mode "a"); [apply no_host_contact_errno|].
    destruct (strchr mode "+"); [apply no_host_contact_errno|].
    pose proof (Hopen' O_RDONLY 0) as Ho.
    destruct (openat AT_FDCWD (Some p) O_RDONLY 0 w) as [fd w1].
    destruct (fd <? 0); [done|].
    eapply no_host_contact_trans; [exact Ho|apply real_fdopen_no_contact].
Qed.

(** ** Cache hits *)

Lemma ensure_cached_file_hit rel cp nd w :
  cache_path_for rel PATH_MAX = Some cp → w_fs w !! cp = Some nd →
  ensure_cached_file_exit rel w =
  (ExitCached, set_trace (w_trace w ++ [EvRealFstatat AT_FDCWD (Some cp) 0]) w).
Proof.
  intros Hcp Hnd. unfold ensure_cached_file_exit. rewrite Hcp. mred.
  by rewrite (real_fstatat_cached rel cp nd).
Qed.

(** An open that succeeds finds or makes the object it opens. *)
Lemma kernel_open_success d p f m w fd w' :
  kernel_open d (Some p) f m w = (fd, w') → 0 ≤ fd →
  ∃ path, kernel_path w d p = Some path ∧ is_Some (w_fs w' !! path).
Proof.
  unfold kernel_open, alloc_fd. mred. intros H Hfd.
  destruct (kernel_path w d p) as [path|] eqn:Hp; [|simplify_eq/=; lia].
  exists path. split; [done|]. revert H.
  destruct (w_fs w !! path) as [[|data]|] eqn:Hn;
    repeat (case_match; cbv beta iota); intros [= <- <-]; try lia;
    simplify_eq/=; rewrite ?lookup_insert_eq, ?Hn; eauto.
Qed.

(** C5.  When the cache path of a relative path exists, as a file or as a
    directory, [ensure_cached_file] answers 0 after the one local lookup and
    nothing goes to the host.  So after an open of a workspace path that
    returned a descriptor, a further open of the same relative path, with any
    flags, sends the host no STAT and no READ and makes no connection. *)
Theorem cache_hit_needs_no_host (rel cp : string) :
  cache_path_for rel PATH_MAX = Some cp →
  (∀ w nd,
     w_fs w !! cp = Some nd →
     ensure_cached_file rel w =
     (0, set_trace (w_trace w ++ [EvRealFstatat AT_FDCWD (Some cp) 0]) w) ∧
     no_host_contact w (ensure_cached_file rel w).2) ∧
  (∀ w dirfd pathname flags va_mode fd w1,
     w_in_hook w = false →
     classify dirfd pathname w = Some rel →
     rel ≠ EmptyString →
     openat dirfd pathname flags va_mode w = (fd, w1) →
     0 ≤ fd →
     is_Some (w_fs w1 !! cp) ∧
     ∀ dirfd' pathname' flags' va_mode',
       classify dirfd' pathname' w1 = Some rel →
       no_host_contact w1 (openat dirfd' pathname' flags' va_mode' w1).2).
Proof.
  intros Hcp.
  assert (Hhit : ∀ w nd,
     w_fs w !! cp = Some nd →
     ensure_cached_file rel w =
     (0, set_trace (w_trace w ++ [EvRealFstatat AT_FDCWD (Some cp) 0]) w)).
  { intros w nd Hnd. unfold ensure_cached_file. mred.
    by rewrite (ensure_cached_file_hit rel cp nd). }
  split.
  { intros w nd Hnd. split; [by eapply Hhit|].
    rewrite (Hhit w nd) by done. by apply no_host_contact_log. }
  intros w dirfd pathname flags va_mode fd w1 Hhook Hin Hrel Hopen Hfd.
  destruct (classify_resolved _ _ _ _ Hin) as (p & r & -> & Hr & Hc).
  assert (Hfs : is_Some (w_fs w1 !! cp) ∧ w_in_hook w1 = false).
  { revert Hopen. unfold openat. mred.
    rewrite Hhook, bool_decide_eq_false_2, Hr, Hc by done.
    destruct (has_flag flags _); [intros [= <- <-]; lia|].
    rewrite bool_decide_eq_false_2 by done. cbv beta iota.
    destruct (ensure_cached_file rel _) as [rc w2].
    destruct (rc <? 0); [intros [= <- <-]; lia|].
    rewrite Hcp. unfold real_openat. mred.
    destruct (kernel_open _ _ _ _ _) as [fd' w3] eqn:Ek.
    intros [= <- <-]. wsimpl. split; [|done].
    apply kernel_open_success in Ek as (path & Hp & Hs); [|done].
    rewrite (cache_path_for_abs _ _ _ _ Hcp) in Hp. by simplify_eq. }
  destruct Hfs as [[nd Hnd] Hhook1]. split; [by eauto|].
  intros dirfd' pathname' flags' va_mode' Hin'.
  destruct (classify_resolved _ _ _ _ Hin') as (p' & r' & -> & Hr' & Hc').
  destruct (has_flag flags' (Z.lor O_WRONLY O_RDWR)) eqn:Hf.
  { rewrite (openat_write_intent _ _ _ _ Hhook1 Hin') by done.
    apply no_host_contact_errno. }
  unfold openat. mred.
  rewrite Hhook1, bool_decide_eq_false_2, Hr', Hc', Hf by done.
  rewrite bool_decide_eq_false_2 by done. cbv beta iota.
  rewrite (Hhit (set_in_hook true w1) nd) by done. zconst. rewrite Hcp.
  cbv beta iota.
  match goal with
  | |- context [real_openat ?d ?p ?f ?m ?w0] =>
      pose proof (real_openat_no_contact d p f m w0) as Ho;
      destruct (real_openat d p f m w0) as [fd2 w3]
  end.
  simpl in *. eapply no_host_contact_trans; [|apply no_host_contact_in_hook].
  eapply no_host_contact_trans; [|exact Ho].
  unfold no_host_contact. wsimpl. by rewrite net_events_snoc_real.
Qed.

(** ** The protocol client when no call is made to fail *)

Lemma next_fault_ok w : w_script w = [] → next_fault w = (FOk, w).
Proof. unfold next_fault. by intros ->. Qed.

Lemma sys_send_ok fd data w :
  w_script w = [] →
  sys_send fd data w = (len data, set_tx (w_tx w ++ data) w).
Proof.
  intros Hs. unfold sys_send. mred. rewrite (next_fault_ok _ Hs). simpl.
  by rewrite take_len.
Qed.

Lemma send_all_ok fd buf w :
  w_script w = [] →
  send_all fd buf w = (0, set_tx (w_tx w ++ buf) w).
Proof.
  intros Hs. unfold send_all. destruct buf as [|b buf].
  { simpl. mred. rewrite app_nil_r. by destruct w. }
  simpl. mred.
  assert (Hl : 0 < len (b :: buf)) by (unfold len; simpl; lia).
  destruct (len (b :: buf) >? 0) eqn:E; [|zbool; lia]. cbv beta iota.
  rewrite (sys_send_ok _ _ _ Hs).
  destruct (len (b :: buf) <=? 0) eqn:E2; [zbool; lia|]. cbv beta iota.
  rewrite drop_len. by destruct (length buf).
Qed.

Lemma recv_all_ok fd n data rest w :
  w_script w = [] → 0 < n → len data = n → pending w = data ++ rest →
  recv_all fd n w = ((0, data), set_rx rest (answered w)).
Proof.
  intros Hs Hn Hlen Hp. unfold recv_all, answered.
  destruct (Z.to_nat n) as [|fuel] eqn:Ef; [lia|]. simpl. mred.
  destruct (n >? 0) eqn:E; [|zbool; lia]. cbv beta iota.
  unfold sys_recv. mred.
  destruct (host_turn w) as [[] w1] eqn:Eh.
  apply host_turn_spec in Eh as (_ & _ & Hrx & _ & Hs1).
  rewrite next_fault_ok by congruence. cbv beta iota. unfold xfer.
  rewrite Hrx, Hp, len_app, Hlen.
  pose proof (len_nonneg rest).
  rewrite Z.min_l by lia.
  destruct (n <=? 0) eqn:E2; [zbool; lia|]. cbv beta iota.
  rewrite <- Hlen, take_len_app, drop_len_app.
  rewrite Z.sub_diag. simpl. by destruct fuel.
Qed.

Lemma sys_malloc_ok n w : w_script w = [] → sys_malloc n w = (true, w).
Proof. intros Hs. unfold sys_malloc. mred. by rewrite (next_fault_ok _ Hs). Qed.

Lemma vsock_connect_ok w :
  w_script w = [] → w_vsock_fd w < 0 → vsock_connect w = (0, connected w).
Proof.
  intros Hs Hv. unfold vsock_connect, sys_socket, sys_connect, alloc_fd. mred.
  destruct (w_vsock_fd w >=? 0) eqn:E; [zbool; lia|]. cbv beta iota.
  rewrite (next_fault_ok _ Hs). cbv beta iota.
  destruct (Z.of_nat (w_next_fd w) <? 0) eqn:E2; [zbool; lia|]. cbv beta iota.
  rewrite next_fault_ok by done. zconst. done.
Qed.

Lemma pending_sent t w :
  t ≠ [] →
  pending (set_tx t w) = w_rx w ++ w_host w (requests_of (w_trace w)) t.
Proof. intros Ht. unfold pending. wsimpl. by destruct t. Qed.

Lemma answered_sent t w :
  t ≠ [] →
  answered (set_tx t w) =
  set_trace (w_trace w ++ [EvRequest t])
    (set_rx (w_rx w ++ w_host w (requests_of (w_trace w)) t) (set_tx [] w)).
Proof. intros Ht. unfold answered, host_turn. wsimpl. by destruct t. Qed.

Lemma answered_quiet w : w_tx w = [] → answered w = w.
Proof. intros Ht. unfold answered, host_turn. by rewrite Ht. Qed.

Lemma frame_nonempty msg : frame msg ≠ [].
Proof. done. Qed.

(** One request and its response on a quiet connection. *)
Lemma send_request_ok msg resp w :
  w_script w = [] → w_tx w = [] → w_rx w = [] →
  0 < len resp ≤ 16 * 1024 * 1024 →
  w_host w (requests_of (w_trace w)) (frame msg) = frame resp →
  send_request msg (len msg) w =
  (Some (resp, len resp), set_trace (w_trace w ++ [EvRequest (frame msg)]) w).
Proof.
  intros Hs Htx Hrx Hlen Hhost. unfold send_request. mred.
  rewrite (send_all_ok _ _ _ Hs). zconst.
  rewrite send_all_ok by done. zconst. wsimpl. rewrite Htx, app_nil_l.
  fold (frame msg).
  replace (set_tx (frame msg) (set_tx (be32 (len msg)) w))
    with (set_tx (frame msg) w) by done.
  pose proof (frame_nonempty msg) as Hne.
  erewrite (recv_all_ok _ 4 (be32 (len resp)) resp); try done; try lia.
  2:{ rewrite pending_sent by done. by rewrite Hrx, Hhost. }
  zconst. rewrite rd32_be32 by lia.
  destruct (len resp =? 0) eqn:E1; [zbool; lia|].
  destruct (len resp >? 16 * 1024 * 1024) eqn:E2; [zbool; lia|]. cbv beta iota.
  rewrite answered_sent, Hrx, Hhost by done. simpl app at 1.
  rewrite sys_malloc_ok by done. cbv beta iota.
  erewrite (recv_all_ok _ (len resp) resp []); try done; try lia.
  zconst. rewrite answered_quiet by done.
  destruct w; simpl in *; by subst.
Qed.

Lemma linked_quiet w :
  quiet w →
  w_script (linked w) = [] ∧ w_tx (linked w) = [] ∧ w_rx (linked w) = [] ∧
  0 ≤ w_vsock_fd (linked w) ∧ w_host (linked w) = w_host w ∧
  requests_of (w_trace (linked w)) = requests_of (w_trace w) ∧
  w_fs (linked w) = w_fs w.
Proof.
  intros [Hs Hq]. unfold linked.
  destruct (w_vsock_fd w <? 0) eqn:E; zbool.
  - unfold connected. wsimpl. rewrite requests_of_app. simpl.
    rewrite app_nil_r. repeat split; try done. lia.
  - destruct (Hq E) as [? ?]. by repeat split.
Qed.

Lemma exchanged_quiet msg w :
  quiet w → quiet (exchanged msg w) ∧ 0 ≤ w_vsock_fd (exchanged msg w).
Proof.
  intros Hq. destruct (linked_quiet w Hq) as (?&?&?&?&_).
  unfold exchanged, quiet. wsimpl. by repeat split.
Qed.

Lemma exchanged_linked msg w :
  0 ≤ w_vsock_fd w →
  exchanged msg w = set_trace (w_trace w ++ [EvRequest (frame msg)]) w.
Proof.
  intros Hv. unfold exchanged, linked.
  by destruct (w_vsock_fd w <? 0) eqn:E; zbool; [lia|].
Qed.

Lemma exchange_ok {A} msg resp (failure : A) parse w :
  quiet w →
  0 < len resp ≤ 16 * 1024 * 1024 →
  w_host w (requests_of (w_trace w)) (frame msg) = frame resp →
  exchange msg (len msg) failure parse w =
  (parse resp (len resp), exchanged msg w).
Proof.
  intros Hq Hlen Hhost. pose proof (linked_quiet w Hq) as (Hs&Ht&Hr&Hv&Hh&Hreq&_).
  destruct Hq as [Hs0 Hq]. unfold exchange. mred.
  assert (Hc : vsock_connect w = (0, linked w)).
  { unfold linked. destruct (w_vsock_fd w <? 0) eqn:E; zbool.
    - by apply vsock_connect_ok.
    - unfold vsock_connect. mred.
      destruct (w_vsock_fd w >=? 0) eqn:E2; [done|]. zbool. lia. }
  rewrite Hc. zconst.
  rewrite (send_request_ok msg resp); try done.
  by rewrite Hh, Hreq.
Qed.

Lemma parse_stat_file mode size mtime st :
  0 ≤ size < 2 ^ 63 →
  let '(rc, st') := parse_stat (stat_file_response mode size mtime)
                      (len (stat_file_response mode size mtime)) st in
  rc = 0 ∧ S_ISDIR (st_mode st') = false ∧ st_size st' = size.
Proof.
  intros Hsize. unfold parse_stat.
  change (len (stat_file_response mode size mtime)) with 22.
  change (at_ (stat_file_response mode size mtime) 0) with (u8 (to_u8 0)).
  change (at_ (stat_file_response mode size mtime) 21) with (u8 (to_u8 0)).
  assert (Hrd : rd64 (stat_file_response mode size mtime) 5 = size).
  { unfold stat_file_response.
    rewrite (app_assoc [to_u8 STATUS_OK] (be32 mode)).
    rewrite (rd64_skip ([to_u8 STATUS_OK] ++ be32 mode)) by reflexivity.
    rewrite rd64_take by reflexivity. apply rd64_be64.
    change (2 ^ 64) with (2 * 2 ^ 63). lia. }
  change (u8 (to_u8 0)) with 0. simpl.
  split; [done|]. split; [apply S_ISDIR_reg|].
  rewrite Hrd. unfold signed64, wrap64.
  rewrite Z.mod_small by lia. destruct (size <? 2 ^ 63) eqn:E; zbool; lia.
Qed.

Lemma parse_read_full data n :
  len data = n → 0 < n ≤ READ_CHUNK_SIZE →
  parse_read (read_response data) (len (read_response data)) n = (n, data).
Proof.
  intros Hlen Hn. unfold parse_read, read_response, READ_CHUNK_SIZE in *.
  rewrite !len_app. change (len [to_u8 STATUS_OK]) with 1.
  change (len (be32 (len data))) with 4.
  change (at_ ([to_u8 STATUS_OK] ++ be32 (len data) ++ data) 0) with (u8 (to_u8 0)).
  change (rd32 ([to_u8 STATUS_OK] ++ be32 (len data) ++ data) 1)
    with (rd32 (be32 (len data)) 0).
  change (u8 (to_u8 0)) with 0.
  change (drop 5 ([to_u8 STATUS_OK] ++ be32 (len data) ++ data)) with data.
  rewrite rd32_be32 by lia. rewrite Hlen. simpl.
  destruct (1 + (4 + n) <? 1) eqn:E1; [zbool; lia|].
  destruct (1 + (4 + n) <? 5) eqn:E2; [zbool; lia|].
  destruct (n >? 1 + (4 + n) - 5) eqn:E3; [zbool; lia|].
  destruct (n >? n) eqn:E4; [zbool; lia|].
  by rewrite <- Hlen, take_len.
Qed.

(** ** Malformed frames and failed transfers *)

Lemma exchange_failure {A} msg (failure : A) parse w res w' :
  idle w →
  exchange msg (len msg) failure parse w = (res, w') →
  ¬ well_framed (inbound w ++ w_host w (requests_of (w_trace w)) (frame msg)) ∨
  call_failed w w' →
  res = failure ∧ w_vsock_fd w' < 0 ∧ one_attempt w w' (frame msg).
Proof.
  intros Hidle H Hbad.
  apply exchange_spec in H as (c & q & L & Hc & Hq & Hr); [|done].
  assert (Hone : one_attempt w w' (frame msg)).
  { exists c, q. split; [done|]. split; [|done].
    destruct Hc as [[? _]|[_ ?]]; eauto. }
  destruct Hr as [[-> ?]|(_ & _ & _ & Hclean & Hwf & _)]; [done|].
  destruct Hbad as [Hbad|(used & Hu & Hin)]; [done|].
  by destruct (clean_run_no_fault _ _ _ Hclean Hu).
Qed.

Lemma exchange_reconnects {A} msg (failure : A) parse w res w' :
  w_vsock_fd w < 0 →
  exchange msg (len msg) failure parse w = (res, w') →
  reconnects w w' (frame msg).
Proof.
  intros Hv H.
  apply exchange_spec in H as (c & q & L & Hc & Hq & Hr); [|by left].
  destruct Hc as [[-> [?| ->]]|[_ ->]]; [lia|by left|].
  right. by exists q.
Qed.

(** C7.  Take a remote call, [remote_stat] or [remote_read_chunk], that
    starts with nothing in flight.  If what the host sends back does not
    start with a frame whose declared length is between 1 and 16 MiB and
    whose bytes are all there (length zero, length over 16 MiB, stream that
    ends early), or if a system call of the exchange is made to fail (a
    failed send or receive among them), then the call returns its error
    value, [vsock_fd] is negative when it returns, and it has made at most
    one connection and sent at most one request.  A remote call that starts
    with [vsock_fd] negative sends nothing unless it first makes a new
    connection, on a descriptor not used before. *)
Theorem bad_frame_drops_connection (w : World) :
  idle w →
  (∀ rel st res w',
     remote_stat rel st w = (res, w') →
     ¬ well_framed
         (inbound w ++ w_host w (requests_of (w_trace w)) (frame (stat_msg rel))) ∨
     call_failed w w' →
     res = (-1, st) ∧ w_vsock_fd w' < 0 ∧
     one_attempt w w' (frame (stat_msg rel)) ∧
     (∀ rel2 st2 res2 w2,
        remote_stat rel2 st2 w' = (res2, w2) →
        reconnects w' w2 (frame (stat_msg rel2))) ∧
     (∀ rel2 off2 n2 res2 w2,
        remote_read_chunk rel2 off2 n2 w' = (res2, w2) →
        reconnects w' w2 (frame (read_msg rel2 off2 n2)))) ∧
  (∀ rel off n res w',
     remote_read_chunk rel off n w = (res, w') →
     ¬ well_framed
         (inbound w ++
          w_host w (requests_of (w_trace w)) (frame (read_msg rel off n))) ∨
     call_failed w w' →
     res = (-1, []) ∧ w_vsock_fd w' < 0 ∧
     one_attempt w w' (frame (read_msg rel off n)) ∧
     (∀ rel2 st2 res2 w2,
        remote_stat rel2 st2 w' = (res2, w2) →
        reconnects w' w2 (frame (stat_msg rel2))) ∧
     (∀ rel2 off2 n2 res2 w2,
        remote_read_chunk rel2 off2 n2 w' = (res2, w2) →
        reconnects w' w2 (frame (read_msg rel2 off2 n2)))).
Proof.
  intros Hidle.
  assert (Hnext : ∀ w', w_vsock_fd w' < 0 →
     (∀ rel2 st2 res2 w2,
        remote_stat rel2 st2 w' = (res2, w2) →
        reconnects w' w2 (frame (stat_msg rel2))) ∧
     (∀ rel2 off2 n2 res2 w2,
        remote_read_chunk rel2 off2 n2 w' = (res2, w2) →
        reconnects w' w2 (frame (read_msg rel2 off2 n2)))).
  { intros w' Hv. split.
    - intros rel2 st2 res2 w2. rewrite remote_stat_exchange, <- stat_msg_len.
      by apply exchange_reconnects.
    - intros rel2 off2 n2 res2 w2.
      rewrite remote_read_chunk_exchange, <- (read_msg_len rel2 off2 n2).
      by apply exchange_reconnects. }
  split.
  - intros rel st res w' H Hbad.
    rewrite remote_stat_exchange, <- stat_msg_len in H.
    destruct (exchange_failure _ _ _ _ _ _ Hidle H Hbad) as (-> & Hv & Hone).
    do 3 (split; [done|]). by apply Hnext.
  - intros rel off n res w' H Hbad.
    rewrite remote_read_chunk_exchange, <- (read_msg_len rel off n) in H.
    destruct (exchange_failure _ _ _ _ _ _ Hidle H Hbad) as (-> & Hv & Hone).
    do 3 (split; [done|]). by apply Hnext.
Qed.

(** ** Short responses *)

Lemma parse_stat_short resp st :
  at_ resp 0 = STATUS_OK → len resp < 22 → parse_stat resp (len resp) st = (-1, st).
Proof.
  intros H0 Hl. unfold parse_stat. rewrite H0. simpl.
  destruct (len resp <? 1); [done|]. simpl.
  by destruct (len resp <? 22) eqn:E; zbool; [|lia].
Qed.

Lemma parse_read_short resp n :
  at_ resp 0 = STATUS_OK → 1 ≤ len resp < 5 → parse_read resp (len resp) n = (0, []).
Proof.
  intros H0 Hl. unfold parse_read. rewrite H0. simpl.
  destruct (len resp <? 1) eqn:E1; zbool; [lia|]. simpl.
  by destruct (len resp <? 5) eqn:E; zbool; [|lia].
Qed.

(** C6, as the code has it.  On a connection with nothing in flight and no
    call made to fail, a response with status OK that is shorter than the 22
    bytes of a STAT answer makes [remote_stat] return -1; one with status OK
    that is shorter than the 5 bytes of a READ header makes
    [remote_read_chunk] return 0, the end of the stream, not an error.  In
    both cases the response has been read in full and the connection is
    kept: [vsock_fd] is not negative afterwards. *)
Theorem short_response_keeps_connection (w : World) (rel : string)
    (resp : list byte) :
  quiet w →
  at_ resp 0 = STATUS_OK →
  (∀ st,
     w_host w (requests_of (w_trace w)) (frame (stat_msg rel)) = frame resp →
     1 ≤ len resp < 22 →
     remote_stat rel st w = ((-1, st), exchanged (stat_msg rel) w) ∧
     0 ≤ w_vsock_fd (exchanged (stat_msg rel) w)) ∧
  (∀ off n,
     w_host w (requests_of (w_trace w)) (frame (read_msg rel off n)) = frame resp →
     1 ≤ len resp < 5 →
     remote_read_chunk rel off n w = ((0, []), exchanged (read_msg rel off n) w) ∧
     0 ≤ w_vsock_fd (exchanged (read_msg rel off n) w)).
Proof.
  intros Hq H0. split.
  - intros st Hhost Hl. split; [|by apply exchanged_quiet].
    rewrite remote_stat_exchange, <- stat_msg_len.
    rewrite (exchange_ok _ resp) by (done || lia).
    by rewrite parse_stat_short by (done || lia).
  - intros off n Hhost Hl. split; [|by apply exchanged_quiet].
    rewrite remote_read_chunk_exchange, <- (read_msg_len rel off n).
    rewrite (exchange_ok _ resp) by (done || lia).
    by rewrite parse_read_short.
Qed.

(** ** The cache manager: what it leaves behind *)

Lemma strlen_nonneg s : 0 ≤ strlen s.
Proof. unfold strlen. lia. Qed.

Lemma strlen_app s1 s2 : strlen (s1 +:+ s2) = strlen s1 + strlen s2.
Proof.
  unfold strlen. induction s1 as [|c s1 IH]; simpl; [done|].
  rewrite !Nat2Z.inj_succ. simpl in IH. lia.
Qed.

Lemma str_take_drop n s : str_take n s +:+ str_drop n s = s.
Proof.
  revert s. induction n as [|n IH]; intros [|c s]; simpl; try done.
  change (String c (str_take n s +:+ str_drop n s) = String c s).
  by rewrite IH.
Qed.

Lemma str_take_length n s : strlen (str_take n s) ≤ strlen s.
Proof.
  unfold strlen. revert s. induction n as [|n IH]; intros [|c s]; simpl; try lia.
  specialize (IH s). lia.
Qed.

Lemma dirs_added_refl w bound : dirs_added w w bound.
Proof. intros p. by left. Qed.

Lemma dirs_added_trans w1 w2 w3 bound :
  dirs_added w1 w2 bound → dirs_added w2 w3 bound → dirs_added w1 w3 bound.
Proof.
  intros H1 H2 p. destruct (H1 p) as [E1|(N1 & S1 & L1)], (H2 p) as [E2|(N2 & S2 & L2)].
  - left. congruence.
  - right. rewrite <- E1. by repeat split.
  - right. rewrite E2. by repeat split.
  - congruence.
Qed.

Lemma dirs_added_weaken w w' b1 b2 : b1 ≤ b2 → dirs_added w w' b1 → dirs_added w w' b2.
Proof.
  intros Hb H p. destruct (H p) as [?|(?&?&?)]; [by left|right].
  repeat split; try done. lia.
Qed.

Lemma local_step_refl w : local_step w w.
Proof. by unfold local_step. Qed.

Lemma local_step_trans w1 w2 w3 :
  local_step w1 w2 → local_step w2 w3 → local_step w1 w3.
Proof. unfold local_step. intros (?&?&?&?&?&?&?&?&?&?) (?&?&?&?&?&?&?&?&?&?).
  repeat split; congruence. Qed.

Lemma sys_mkdir_spec path mode w r w' :
  sys_mkdir path mode w = (r, w') →
  local_step w w' ∧ dirs_added w w' (strlen path + 1) ∧
  (w_script w = [] → w_script w' = []).
Proof.
  unfold sys_mkdir, next_fault. mred.
  destruct (w_script w) as [|f s] eqn:Es; [|destruct f]; cbv beta iota; wsimpl;
    try (intros [= <- <-]; wsimpl; rewrite ?Es;
         (split; [done|]); (split; [apply dirs_added_refl|done]));
    destruct (w_fs w !! path) eqn:Ep; intros [= <- <-]; wsimpl;
    rewrite ?Es; (split; [done|]); (split; [|done]);
    try apply dirs_added_refl.
  all: intros p; wsimpl; destruct (decide (path = p)) as [->|];
    first [ by left
          | right; split; [done|]; split; [apply lookup_insert_eq|lia]
          | left; by rewrite lookup_insert_ne ].
Qed.

Lemma mkdirs_loop_spec done rest w u w' :
  mkdirs_loop done rest w = (u, w') →
  local_step w w' ∧ dirs_added w w' (strlen done + strlen rest) ∧
  (w_script w = [] → w_script w' = []).
Proof.
  revert done w. induction rest as [|c rest IH]; intros done w; simpl; mred.
  { intros [= <- <-]. split; [apply local_step_refl|].
    split; [apply dirs_added_refl|done]. }
  assert (Hlen : strlen (done +:+ String c "") + strlen rest =
                 strlen done + strlen (String c rest)).
  { rewrite strlen_app. unfold strlen. simpl. lia. }
  destruct (Ascii.eqb c "/").
  - destruct (sys_mkdir done 493 w) as [r w1] eqn:E1.
    apply sys_mkdir_spec in E1 as (L1 & D1 & S1). cbv beta iota.
    intros H. apply IH in H as (L2 & D2 & S2). rewrite Hlen in D2.
    split; [by eapply local_step_trans|]. split; [|by eauto].
    eapply dirs_added_trans; [|exact D2].
    eapply dirs_added_weaken; [|exact D1].
    pose proof (strlen_nonneg rest). unfold strlen in *. simpl. lia.
  - cbv beta iota. intros H. apply IH in H as (L2 & D2 & S2).
    by rewrite Hlen in D2.
Qed.

Lemma mkdirs_spec rel cp w u w' :
  cache_path_for rel PATH_MAX = Some cp →
  mkdirs cp w = (u, w') →
  local_step w w' ∧ dirs_added w w' (strlen cp) ∧
  (w_script w = [] → w_script w' = []).
Proof.
  intros Hcp. unfold mkdirs. mred.
  destruct (sys_mkdir "/tmp/.wscache" 493 w) as [r w1] eqn:E1.
  apply sys_mkdir_spec in E1 as (L1 & D1 & S1).
  intros H. apply mkdirs_loop_spec in H as (L2 & D2 & S2).
  rewrite <- strlen_app, str_take_drop in D2.
  assert (14 ≤ strlen cp).
  { unfold cache_path_for in Hcp. destruct (_ >=? _); [done|].
    injection Hcp as <-. rewrite strlen_app. pose proof (strlen_nonneg rel).
    change (strlen CACHE_DIR) with 14. lia. }
  split; [by eapply local_step_trans|]. split; [|by eauto].
  eapply dirs_added_trans.
  - eapply dirs_added_weaken; [|exact D1]. change (strlen "/tmp/.wscache") with 13. lia.
  - eapply dirs_added_weaken; [|exact D2]. apply str_take_length.
Qed.

Lemma sys_mkstemp_spec template w fd name w' :
  sys_mkstemp template w = ((fd, name), w') →
  fd = -1 ∧ w_fs w' = w_fs w ∨
  0 ≤ fd ∧ downloading (w_fs w) name fd w'.
Proof.
  unfold sys_mkstemp, next_fault, alloc_fd, downloading. mred.
  destruct (w_script w) as [|f s]; [|destruct f]; cbv beta iota; wsimpl;
    try (intros [= <- <- <-]; by left);
    (destruct (String.eqb _ "XXXXXX"); cbv beta iota; wsimpl;
     [|intros [= <- <- <-]; by left]);
    (match goal with
     | |- context [w_fs w !! ?n] => destruct (w_fs w !! n) eqn:En
     end; cbv beta iota; wsimpl; intros [= <- <- <-]; wsimpl; [by left|right]);
    (split; [lia|]); (split; [done|]); (split; [by eauto|]);
    (split; [left; apply lookup_insert_eq|lia]).
Qed.

Lemma downloading_net fs0 name fd w w' :
  net_step w w' → downloading fs0 name fd w → downloading fs0 name fd w'.
Proof.
  intros (Hfs & _ & _ & _ & _ & Hn & Hfds) (H0 & Hd & Hfd & Hlt).
  split; [done|]. split; [by rewrite Hfs|]. split; [|lia].
  destruct (Hfds fd Hlt) as [-> | ->]; [done|by right].
Qed.

Lemma sys_write_spec fs0 name fd data w r w' :
  sys_write fd data w = (r, w') →
  downloading fs0 name fd w → downloading fs0 name fd w'.
Proof.
  unfold sys_write, next_fault, downloading. mred.
  intros H (H0 & [old Hd] & Hfd & Hlt). revert H.
  destruct (w_script w) as [|f s]; [|destruct f]; cbv beta iota; wsimpl;
    try (intros [= <- <-]; wsimpl; by eauto 10);
    (destruct Hfd as [Hfd|Hfd]; rewrite Hfd; cbv beta iota;
     [|intros [= <- <-]; wsimpl; by eauto 10]);
    rewrite Hd, lookup_insert_eq; cbv beta iota; intros [= <- <-]; wsimpl;
    rewrite insert_insert_eq; eauto 10.
Qed.

Lemma write_loop_spec fs0 name fd fuel chunk written got w ok w' :
  write_loop fuel fd chunk written got w = (ok, w') →
  downloading fs0 name fd w → downloading fs0 name fd w'.
Proof.
  revert written w. induction fuel as [|fuel IH]; intros written w; simpl; mred.
  - destruct (written <? got); by intros [= <- <-].
  - destruct (written <? got); cbv beta iota; [|by intros [= <- <-]].
    destruct (sys_write _ _ w) as [r w1] eqn:E1. intros H Hd.
    pose proof (sys_write_spec _ _ _ _ _ _ _ E1 Hd) as Hd1. revert H.
    destruct (r <=? 0); [by intros [= <- <-]|]. intros H. by eapply IH.
Qed.

(** The clean-up on every failure exit: the descriptor closed, the temporary
    file unlinked. *)
Lemma cleanup_spec fs0 name fd w u w1 r w' :
  downloading fs0 name fd w →
  sys_close fd w = (u, w1) → sys_unlink name w1 = (r, w') →
  w_fs w' = fs0.
Proof.
  intros (H0 & [data Hd] & _) Hc Hu.
  assert (Hfs1 : w_fs w1 = w_fs w).
  { revert Hc. unfold sys_close. destruct (w_fds w !! fd); by intros [= <- <-]. }
  revert Hu. unfold sys_unlink. mred. rewrite Hfs1, Hd, lookup_insert_eq.
  intros [= <- <-]. wsimpl. by apply delete_insert_id.
Qed.

Lemma sys_close_downloading fs0 name fd fd' w :
  downloading fs0 name fd w → downloading fs0 name fd (sys_close fd' w).2.
Proof.
  intros (H0 & Hd & Hfd & Hlt). unfold sys_close, downloading.
  destruct (w_fds w !! fd') eqn:E; wsimpl; repeat split; try done.
  destruct (decide (fd' = fd)) as [->|]; [right; apply lookup_delete_eq|].
  by rewrite lookup_delete_ne.
Qed.

Lemma download_loop_spec fs0 name fd fuel rel offset file_size w e w' :
  file_size - offset ≤ Z.of_nat fuel →
  downloading fs0 name fd w →
  download_loop fuel rel fd name offset file_size w = (e, w') →
  e = ExitPopulated ∧ downloading fs0 name fd w' ∨
  (e = ExitReadFailed ∨ e = ExitWriteFailed) ∧ w_fs w' = fs0.
Proof.
  revert offset w. induction fuel as [|fuel IH]; intros offset w Hfuel Hd;
    simpl; mred.
  - destruct (offset <? file_size) eqn:E; [zbool; lia|].
    intros [= <- <-]. by left.
  - destruct (offset <? file_size) eqn:E; cbv beta iota;
      [|intros [= <- <-]; by left].
    match goal with
    | |- context [remote_read_chunk rel offset ?want w] =>
        pose proof (remote_read_chunk_net rel offset want w) as Hn;
        destruct (remote_read_chunk rel offset want w) as [[got chunk] w1] eqn:E1
    end.
    simpl in Hn. pose proof (downloading_net _ _ _ _ _ Hn Hd) as Hd1.
    destruct (got <? 0) eqn:Eg; cbv beta iota.
    { destruct (sys_close fd w1) as [u w2] eqn:Ec.
      destruct (sys_unlink name w2) as [r w3] eqn:Eu.
      intros [= <- <-]. right. split; [by left|]. by eapply cleanup_spec. }
    destruct (got =? 0) eqn:Eg0; cbv beta iota; [intros [= <- <-]; by left|].
    destruct (write_loop _ _ _ _ _ w1) as [ok w2] eqn:Ew.
    pose proof (write_loop_spec _ _ _ _ _ _ _ _ _ _ Ew Hd1) as Hd2.
    destruct ok; cbv beta iota.
    + intros H. eapply IH; [|exact Hd2|exact H]. zbool. lia.
    + destruct (sys_close fd w2) as [u w3] eqn:Ec.
      destruct (sys_unlink name w3) as [r w4] eqn:Eu.
      intros [= <- <-]. right. split; [by right|]. by eapply cleanup_spec.
Qed.

(** The cache path is not there when the first lookup fails. *)
Lemma real_fstatat_miss rel cp sb w rc sb' w' :
  cache_path_for rel PATH_MAX = Some cp →
  real_fstatat AT_FDCWD (Some cp) sb 0 w = ((rc, sb'), w') →
  rc ≠ 0 → w_fs w !! cp = None ∧ w_fs w' = w_fs w.
Proof.
  intros Hcp. unfold real_fstatat. mred.
  rewrite (cache_path_for_abs _ _ _ _ Hcp). simpl. wsimpl.
  destruct (w_fs w !! cp); intros [= <- <- <-]; done.
Qed.

Lemma sys_rename_failed old new w r w' :
  sys_rename old new w = (r, w') → r < 0 → w_fs w' = w_fs w.
Proof.
  unfold sys_rename, next_fault. mred.
  destruct (w_script w) as [|f s]; [|destruct f]; cbv beta iota; wsimpl;
    try (intros [= <- <-]; done);
    destruct (w_fs w !! old); intros [= <- <-]; done || lia.
Qed.

Lemma ensure_cached_file_exit_spec rel cp w e w' :
  cache_path_for rel PATH_MAX = Some cp →
  ensure_cached_file_exit rel w = (e, w') →
  e ≠ ExitFuel ∧ e ≠ ExitPathTooLong ∧
  (failure_exit e = true →
   w_fs w !! cp = None ∧ dirs_added w w' (strlen cp)).
Proof.
  intros Hcp. unfold ensure_cached_file_exit. rewrite Hcp. mred.
  destruct (real_fstatat _ _ _ _ w) as [[rc st0] w1] eqn:E1.
  destruct (rc =? 0) eqn:Erc; [by intros [= <- <-]|]. zbool.
  apply (real_fstatat_miss rel) in E1 as [Hmiss Hfs1]; [|done..].
  pose proof (remote_stat_net rel stat_zero w1) as N2.
  destruct (remote_stat rel stat_zero w1) as [[rc2 rst] w2] eqn:E2. simpl in N2.
  assert (Hfs2 : w_fs w2 = w_fs w) by (destruct N2 as (-> & _); done).
  destruct (rc2 <? 0).
  { intros [= <- <-]. do 2 (split; [done|]). intros _. split; [done|].
    intros p. left. by rewrite Hfs2. }
  destruct (S_ISDIR (st_mode rst)).
  { destruct (mkdirs cp w2) as [u w3]. destruct (sys_mkdir cp 493 w3) as [r w4].
    by intros [= <- <-]. }
  destruct (mkdirs cp w2) as [u w3] eqn:E3.
  apply (mkdirs_spec rel) in E3 as (L3 & D3 & _); [|done].
  assert (D03 : dirs_added w w3 (strlen cp)).
  { intros p. destruct (D3 p) as [?|(?&?&?)]; [left|right]; by rewrite <- Hfs2. }
  assert (Hsame : ∀ w4, w_fs w4 = w_fs w3 → dirs_added w w4 (strlen cp)).
  { intros w4 H4 p. rewrite H4. apply D03. }
  destruct (sys_mkstemp _ w3) as [[tmp_fd tmp_path] w4] eqn:E4.
  apply sys_mkstemp_spec in E4 as [[-> Hfs4]|[Hfd Hd4]].
  { zconst. intros [= <- <-]. repeat split; try done. by apply Hsame. }
  destruct (tmp_fd <? 0) eqn:Efd; [zbool; lia|]. cbv beta iota.
  pose proof (sys_malloc_net READ_CHUNK_SIZE w4) as N5.
  destruct (sys_malloc READ_CHUNK_SIZE w4) as [ok w5] eqn:E5. simpl in N5.
  pose proof (downloading_net _ _ _ _ _ N5 Hd4) as Hd5.
  destruct ok; cbv beta iota.
  2:{ destruct (sys_close tmp_fd w5) as [u1 w6] eqn:Ec.
      destruct (sys_unlink tmp_path w6) as [r w7] eqn:Eu.
      intros [= <- <-]. repeat split; try done. apply Hsame.
      by eapply cleanup_spec. }
  destruct (download_loop _ _ _ _ _ _ w5) as [e1 w6] eqn:E6.
  apply (download_loop_spec (w_fs w3)) in E6 as [[-> Hd6]|[He Hfs6]];
    [| |lia|done].
  - pose proof (sys_close_downloading _ _ _ tmp_fd _ Hd6) as Hd7.
    destruct (sys_close tmp_fd w6) as [u1 w7] eqn:Ec. simpl in Hd7.
    destruct (sys_rename tmp_path cp w7) as [r w8] eqn:Er.
    destruct (r <? 0) eqn:Erl; cbv beta iota; [|by intros [= <- <-]].
    zbool. apply sys_rename_failed in Er as Hfs8; [|done].
    destruct (sys_unlink tmp_path w8) as [r2 w9] eqn:Eu.
    intros [= <- <-]. repeat split; try done. apply Hsame.
    destruct Hd7 as (H0 & [data Hd7] & _).
    revert Eu. unfold sys_unlink. mred. rewrite Hfs8, Hd7, lookup_insert_eq.
    intros [= <- <-]. wsimpl. by apply delete_insert_id.
  - destruct He as [-> | ->]; intros [= <- <-]; repeat split; try done;
      by apply Hsame.
Qed.


(** ** The delegated open *)

(** The flags [openat] passes on: [flags & ~(O_CREAT | O_EXCL)]. *)
Lemma delegated_flags_bits flags n :
  0 ≤ n →
  Z.testbit (Z.land flags (Z.lnot (Z.lor O_CREAT O_EXCL))) n =
  Z.testbit flags n && negb (n =? 6) && negb (n =? 7).
Proof.
  intros Hn. rewrite Z.land_spec, Z.lnot_spec, Z.lor_spec by done.
  change O_CREAT with (2 ^ 6). change O_EXCL with (2 ^ 7).
  rewrite !Z.pow2_bits_eqb by lia. rewrite (Z.eqb_sym 6), (Z.eqb_sym 7).
  by destruct (Z.testbit flags n), (n =? 6), (n =? 7).
Qed.

Lemma land_land_const a m k r : Z.land m k = r → Z.land (Z.land a m) k = Z.land a r.
Proof. intros <-. by rewrite Z.land_assoc. Qed.




(** ** A download that goes well *)

Lemma real_fstatat_absent rel cp sb w :
  cache_path_for rel PATH_MAX = Some cp → w_fs w !! cp = None →
  real_fstatat AT_FDCWD (Some cp) sb 0 w =
  ((-1, sb),
   set_errno ENOENT (set_trace (w_trace w ++ [EvRealFstatat AT_FDCWD (Some cp) 0]) w)).
Proof.
  intros Hcp Hnd. unfold real_fstatat. mred.
  rewrite (cache_path_for_abs _ _ _ _ Hcp). simpl. wsimpl. by rewrite Hnd.
Qed.

Lemma sys_close_ok fd d w :
  w_fds w !! fd = Some d → sys_close fd w = (tt, set_fds (delete fd (w_fds w)) w).
Proof. intros H. unfold sys_close. by rewrite H. Qed.

Lemma sys_rename_ok old new nd w :
  w_script w = [] → w_fs w !! old = Some nd →
  sys_rename old new w = (0, set_fs (<[new := nd]> (delete old (w_fs w))) w).
Proof.
  intros Hs Hold. unfold sys_rename. mred. rewrite (next_fault_ok _ Hs).
  cbv beta iota. by rewrite Hold.
Qed.

Lemma sys_write_ok fd name old data w :
  w_script w = [] → w_fds w !! fd = Some (FdFile name) →
  w_fs w !! name = Some (NFile old) →
  sys_write fd data w = (len data, set_fs (<[name := NFile (old ++ data)]> (w_fs w)) w).
Proof.
  intros Hs Hfd Hn. unfold sys_write. mred. rewrite (next_fault_ok _ Hs).
  cbv beta iota. rewrite Hfd, Hn. cbv beta iota. unfold xfer.
  by rewrite take_len.
Qed.

Lemma write_loop_ok fd name old chunk got w :
  w_script w = [] → w_fds w !! fd = Some (FdFile name) →
  w_fs w !! name = Some (NFile old) → len chunk = got → 0 < got →
  write_loop (Z.to_nat got) fd chunk 0 got w =
  (true, set_fs (<[name := NFile (old ++ chunk)]> (w_fs w)) w).
Proof.
  intros Hs Hfd Hn Hlen Hgot.
  destruct (Z.to_nat got) as [|fuel] eqn:Ef; [lia|]. simpl. mred.
  destruct (0 <? got) eqn:E; [|zbool; lia]. cbv beta iota.
  change (Z.to_nat 0) with 0%nat. rewrite drop_0, Z.sub_0_r, <- Hlen, take_len.
  rewrite (sys_write_ok fd name old) by done.
  destruct (len chunk <=? 0) eqn:E2; [zbool; lia|].
  rewrite Z.add_0_l.
  destruct fuel; simpl; mred; by rewrite Z.ltb_irrefl.
Qed.

(** Strings: a prefix and what follows it. *)
Lemma str_take_app a b : str_take (String.length a) (a +:+ b) = a.
Proof. induction a as [|c a IH]; simpl; [by destruct b|]. by rewrite IH. Qed.

Lemma str_drop_app a b : str_drop (String.length a) (a +:+ b) = b.
Proof. induction a as [|c a IH]; simpl; [by destruct b|done]. Qed.

Lemma str_take_all n s : (String.length s ≤ n)%nat → str_take n s = s.
Proof.
  revert n. induction s as [|c s IH]; intros [|n] H; simpl in *; try done; try lia.
  rewrite IH; [done|lia].
Qed.

Lemma string_length_app a b :
  String.length (a +:+ b) = (String.length a + String.length b)%nat.
Proof. induction a as [|c a IH]; simpl; [done|]. by rewrite IH. Qed.

Lemma string_app_assoc a b c : (a +:+ b) +:+ c = a +:+ (b +:+ c).
Proof.
  induction a as [|x a IH]; [done|].
  change (String x ((a +:+ b) +:+ c) = String x (a +:+ (b +:+ c))).
  by rewrite IH.
Qed.

Lemma sys_mkstemp_ok cp w :
  w_script w = [] → strlen cp + 7 < PATH_MAX →
  w_fs w !! temp_name cp w = None →
  sys_mkstemp (truncated PATH_MAX (cp +:+ ".XXXXXX")) w =
  ((Z.of_nat (w_next_fd w), temp_name cp w), with_temp (temp_name cp w) w).
Proof.
  intros Hs Hlen Hfree. unfold truncated.
  rewrite str_take_all.
  2:{ rewrite string_length_app. unfold strlen, PATH_MAX in *. simpl. lia. }
  change (cp +:+ ".XXXXXX") with (cp +:+ ("." +:+ "XXXXXX")).
  rewrite <- string_app_assoc.
  unfold sys_mkstemp, alloc_fd. mred. rewrite (next_fault_ok _ Hs). cbv beta iota.
  assert (Hn : (String.length ((cp +:+ ".") +:+ "XXXXXX") - 6 =
                String.length (cp +:+ "."))%nat).
  { rewrite (string_length_app (cp +:+ ".")). simpl. lia. }
  rewrite Hn, str_drop_app, str_take_app.
  change (String.eqb "XXXXXX" "XXXXXX") with true. cbv beta iota.
  wsimpl. fold (temp_name cp w). by rewrite Hfree.
Qed.

Lemma remote_read_chunk_ok rel off n data w :
  quiet w → 0 ≤ w_vsock_fd w →
  w_host w (requests_of (w_trace w)) (frame (read_msg rel off n)) =
    frame (read_response data) →
  len data = n → 0 < n ≤ READ_CHUNK_SIZE →
  remote_read_chunk rel off n w =
  ((n, data), set_trace (w_trace w ++ [EvRequest (frame (read_msg rel off n))]) w).
Proof.
  intros Hq Hv Hhost Hlen Hn.
  rewrite remote_read_chunk_exchange, <- (read_msg_len rel off n).
  rewrite (exchange_ok _ (read_response data)); [| done | | done].
  - by rewrite parse_read_full, exchanged_linked.
  - unfold read_response. rewrite !len_app.
    change (len [to_u8 STATUS_OK]) with 1.
    change (len (be32 (len data))) with 4.
    unfold READ_CHUNK_SIZE in *. lia.
Qed.

Lemma download_loop_ok rel fd name file_size k :
  ∀ fuel offset data chunks w,
    (k ≤ fuel)%nat →
    file_size - offset ≤ Z.of_nat k * READ_CHUNK_SIZE →
    ((0 < k)%nat → (Z.of_nat k - 1) * READ_CHUNK_SIZE < file_size - offset) →
    w_script w = [] → 0 ≤ w_vsock_fd w → w_tx w = [] → w_rx w = [] →
    w_fds w !! fd = Some (FdFile name) →
    w_fs w !! name = Some (NFile data) →
    served rel (w_host w) (read_plan k offset file_size) chunks →
    download_loop fuel rel fd name offset file_size w =
    (ExitPopulated,
     set_fs (<[name := NFile (data ++ concat chunks)]> (w_fs w))
       (set_trace
          (w_trace w ++
           map EvRequest (read_frames rel (read_plan k offset file_size))) w)).
Proof.
  induction k as [|k IH];
    intros fuel offset data chunks w Hk Hle Hgt Hs Hv Htx Hrx Hfd Hn Hsrv.
  - apply Forall2_nil_inv_l in Hsrv as ->. simpl.
    rewrite !app_nil_r, insert_id by done.
    assert (Hoff : (offset <? file_size) = false) by (apply Z.ltb_ge; lia).
    destruct fuel; simpl; mred; rewrite Hoff; cbv beta iota;
      by destruct w.
  - destruct fuel as [|fuel]; [lia|].
    simpl read_plan in *.
    apply Forall2_cons_inv_l in Hsrv as (chunk & rest & [Hlen Hhost] & Hsrv & ->).
    simpl in Hlen, Hhost.
    assert (Hrem : 0 < file_size - offset).
    { specialize (Hgt ltac:(lia)). unfold READ_CHUNK_SIZE in *. lia. }
    assert (Hwant : 0 < want_at offset file_size ≤ READ_CHUNK_SIZE).
    { unfold want_at. destruct (file_size - offset <? READ_CHUNK_SIZE) eqn:E;
        zbool; unfold READ_CHUNK_SIZE in *; lia. }
    simpl download_loop. mred.
    destruct (offset <? file_size) eqn:Eo; [|zbool; lia]. cbv beta iota.
    assert (Hw : (if file_size - offset <? READ_CHUNK_SIZE
                  then wrap32 (file_size - offset) else READ_CHUNK_SIZE) =
                 want_at offset file_size).
    { unfold want_at. destruct (file_size - offset <? READ_CHUNK_SIZE) eqn:E;
        [|done]. zbool.
      unfold wrap32, READ_CHUNK_SIZE in *. apply Z.mod_small.
      change (2 ^ 32) with 4294967296. lia. }
    rewrite Hw.
    rewrite (remote_read_chunk_ok rel offset _ chunk); try done.
    cbv beta iota.
    destruct (want_at offset file_size <? 0) eqn:E1; [zbool; lia|].
    destruct (want_at offset file_size =? 0) eqn:E2; [zbool; lia|].
    cbv beta iota.
    rewrite (write_loop_ok fd name data); try done; try lia.
    cbv beta iota. wsimpl.
    assert (Hnext : file_size - (offset + want_at offset file_size) ≤
                    Z.of_nat k * READ_CHUNK_SIZE ∧
                    ((0 < k)%nat →
                     offset + want_at offset file_size = offset + READ_CHUNK_SIZE)).
    { unfold want_at in *.
      destruct (file_size - offset <? READ_CHUNK_SIZE) eqn:E; zbool.
      - split; [unfold READ_CHUNK_SIZE in *; lia|]. intros Hk0.
        specialize (Hgt ltac:(lia)). unfold READ_CHUNK_SIZE in *. lia.
      - split; [|done]. unfold READ_CHUNK_SIZE in *. lia. }
    destruct Hnext as [Hle' Heq'].
    assert (Hgt' : (Z.of_nat (S k) - 1) * READ_CHUNK_SIZE < file_size - offset)
      by (apply Hgt; lia).
    destruct k as [|k'].
    + apply Forall2_nil_inv_l in Hsrv as ->.
      rewrite (IH fuel _ (data ++ chunk) [] _); wsimpl;
        try done; try lia; try apply lookup_insert_eq; [|constructor].
      simpl. by rewrite !app_nil_r, insert_insert_eq.
    + rewrite Heq' by lia.
      rewrite (IH fuel _ (data ++ chunk) rest _); wsimpl;
        try done; try apply lookup_insert_eq;
        try (unfold READ_CHUNK_SIZE in *; lia).
      by rewrite insert_insert_eq, <- !app_assoc.
Qed.

Lemma requests_of_requests l : requests_of (map EvRequest l) = l.
Proof. induction l as [|x l IH]; simpl; [done|]. by rewrite IH. Qed.

Lemma strlen_temp_name cp w : strlen (temp_name cp w) = strlen cp + 7.
Proof. unfold temp_name. rewrite !strlen_app. unfold strlen. simpl. lia. Qed.

Lemma remote_stat_file_ok rel mode size mtime st w :
  quiet w → 0 ≤ size < 2 ^ 63 →
  serves (w_host w) (stat_msg rel) (stat_file_response mode size mtime) →
  ∃ st', remote_stat rel st w = ((0, st'), exchanged (stat_msg rel) w) ∧
         S_ISDIR (st_mode st') = false ∧ st_size st' = size.
Proof.
  intros Hq Hsize Hhost.
  rewrite remote_stat_exchange, <- stat_msg_len.
  rewrite (exchange_ok _ (stat_file_response mode size mtime)); [|done|done|apply Hhost].
  pose proof (parse_stat_file mode size mtime st Hsize) as H.
  destruct (parse_stat _ _ st) as [rc st']. destruct H as (-> & ? & ?). eauto.
Qed.

Lemma chunks_of_spec size :
  0 ≤ size →
  (chunks_of size ≤ Z.to_nat size)%nat ∧
  size ≤ Z.of_nat (chunks_of size) * READ_CHUNK_SIZE ∧
  ((0 < chunks_of size)%nat →
   (Z.of_nat (chunks_of size) - 1) * READ_CHUNK_SIZE < size).
Proof.
  intros Hs. unfold chunks_of, READ_CHUNK_SIZE.
  change (1024 * 1024) with 1048576.
  pose proof (Z.div_mod (size + 1048576 - 1) 1048576 ltac:(lia)) as Hd.
  pose proof (Z.mod_pos_bound (size + 1048576 - 1) 1048576 ltac:(lia)) as Hm.
  set (q := (size + 1048576 - 1) / 1048576) in *.
  assert (0 ≤ q) by (apply Z.div_pos; lia).
  rewrite Z2Nat.id by done. repeat split; [|lia|lia].
  apply Z2Nat.inj_le; lia.
Qed.

Lemma populate_start rel cp mode size mtime w :
  quiet w →
  cache_path_for rel PATH_MAX = Some cp →
  strlen cp + 7 < PATH_MAX →
  w_fs w !! cp = None →
  w_fs w !! temp_name cp w = None →
  0 ≤ size < 2 ^ 63 →
  serves (w_host w) (stat_msg rel) (stat_file_response mode size mtime) →
  ∃ fd fs0 w4,
    ensure_cached_file_exit rel w =
      finish_download rel cp fd (temp_name cp w) size w4 ∧
    download_ready rel cp w fd fs0 w4.
Proof.
  intros Hq Hcp Hlen Hmiss Hfree Hsize Hstat.
  unfold ensure_cached_file_exit. rewrite Hcp. mred.
  rewrite (real_fstatat_absent rel cp) by done. zconst.
  set (w1 := set_errno ENOENT _).
  assert (Hq1 : quiet w1) by (destruct Hq; by split).
  destruct (remote_stat_file_ok rel mode size mtime stat_zero w1 Hq1 Hsize Hstat)
    as (st & -> & Hdir & Hsz). zconst. rewrite Hdir. cbv beta iota.
  set (w2 := exchanged (stat_msg rel) w1).
  destruct (exchanged_quiet (stat_msg rel) w1 Hq1) as [Hq2 Hv2]. fold w2 in Hq2, Hv2.
  destruct (linked_quiet w1 Hq1) as (Hs1 & Htx1 & Hrx1 & _ & Hh1 & Hreq1 & Hfs1).
  assert (Hw2 : w_script w2 = [] ∧ w_tx w2 = [] ∧ w_rx w2 = [] ∧
                w_host w2 = w_host w ∧ w_fs w2 = w_fs w ∧
                w_tmpctr w2 = w_tmpctr w ∧
                requests_of (w_trace w2) =
                  requests_of (w_trace w) ++ [frame (stat_msg rel)]).
  { subst w2. unfold exchanged. wsimpl. repeat split; try done.
    - unfold linked. destruct (_ <? _); done.
    - rewrite requests_of_app, Hreq1. subst w1. wsimpl.
      rewrite requests_of_app. simpl. by rewrite app_nil_r. }
  destruct Hw2 as (Hs2 & Htx2 & Hrx2 & Hh2 & Hfs2 & Hc2 & Hreq2).
  destruct (mkdirs cp w2) as [u w3] eqn:E3.
  apply (mkdirs_spec rel) in E3 as (L3 & D3 & S3); [|done].
  destruct L3 as (Lfds & Lnfd & _ & _ & Lv & Ltx & Lrx & Lh & Lt & Lc).
  specialize (S3 Hs2).
  assert (Htmp : temp_name cp w3 = temp_name cp w).
  { unfold temp_name. by rewrite Lc, Hc2. }
  assert (Hfree3 : w_fs w3 !! temp_name cp w3 = None).
  { rewrite Htmp. destruct (D3 (temp_name cp w)) as [->|(_ & _ & Hl)].
    - by rewrite Hfs2.
    - rewrite strlen_temp_name in Hl. lia. }
  assert (Hmiss3 : w_fs w3 !! cp = None).
  { destruct (D3 cp) as [->|(_ & _ & Hl)]; [by rewrite Hfs2|lia]. }
  rewrite sys_mkstemp_ok by done. rewrite Htmp in *.
  destruct (Z.of_nat (w_next_fd w3) <? 0) eqn:Efd; [zbool; lia|]. cbv beta iota.
  rewrite sys_malloc_ok by done. cbv beta iota.
  rewrite Hsz. unfold wrap64.
  rewrite Z.mod_small by (change (2 ^ 64) with (2 * 2 ^ 63); lia).
  exists (Z.of_nat (w_next_fd w3)), (w_fs w3), (with_temp (temp_name cp w) w3).
  split; [reflexivity|].
  unfold download_ready, with_temp. wsimpl.
  repeat (split; [first [done | congruence | lia | apply lookup_insert_eq]|]).
  split.
  { intros p nd Hp. destruct (D3 p) as [->|(Hn & _)]; [by rewrite Hfs2|].
    rewrite Hfs2 in Hn. congruence. }
  split; [|by rewrite Lt].
  intros p data Hp. destruct (D3 p) as [Heq|(_ & Hd & _)]; [|congruence].
  by rewrite <- Hfs2, <- Heq.
Qed.

(** The end of a download: the temporary file is closed and renamed. *)
Lemma populate_finish cp name fd fs0 data w :
  w_script w = [] → w_fds w !! fd = Some (FdFile name) →
  w_fs w = <[name := NFile data]> fs0 → fs0 !! name = None →
  install_download cp fd name w =
  (ExitPopulated,
   set_fs (<[cp := NFile data]> fs0) (set_fds (delete fd (w_fds w)) w)).
Proof.
  intros Hs Hfd Hfs Hfree. unfold install_download. mred.
  rewrite (sys_close_ok _ (FdFile name)) by done. cbv beta iota.
  rewrite (sys_rename_ok _ _ (NFile data))
    by (wsimpl; done || (rewrite Hfs; apply lookup_insert_eq)).
  zconst. wsimpl. by rewrite Hfs, delete_insert_id.
Qed.

(** A file that is not cached, a host that serves it in full: the file is
    downloaded into the temporary file and renamed into place. *)
Lemma populate_ok rel cp mode size mtime chunks w :
  quiet w →
  cache_path_for rel PATH_MAX = Some cp →
  strlen cp + 7 < PATH_MAX →
  w_fs w !! cp = None →
  w_fs w !! temp_name cp w = None →
  0 ≤ size < 2 ^ 63 →
  serves (w_host w) (stat_msg rel) (stat_file_response mode size mtime) →
  served rel (w_host w) (read_plan (chunks_of size) 0 size) chunks →
  ∃ w',
    ensure_cached_file_exit rel w = (ExitPopulated, w') ∧
    w_fs w' !! cp = Some (NFile (concat chunks)) ∧
    w_fs w' !! temp_name cp w = None ∧
    requests_of (w_trace w') =
      requests_of (w_trace w) ++
      frame (stat_msg rel) :: read_frames rel (read_plan (chunks_of size) 0 size) ∧
    quiet w' ∧ 0 ≤ w_vsock_fd w' ∧
    (∀ p nd, w_fs w !! p = Some nd → w_fs w' !! p = Some nd).
Proof.
  intros Hq Hcp Hlen Hmiss Hfree Hsize Hstat Hsrv.
  destruct (populate_start rel cp mode size mtime w) as (fd & fs0 & w4 & -> & R);
    try done.
  destruct R as (Hs & Hv & Htx & Hrx & Hh & Hfd & Hfs & Hf0 & Hm0 & Hold & _ & Hreq).
  destruct (chunks_of_spec size ltac:(lia)) as (Hk1 & Hk2 & Hk3).
  unfold finish_download. mred.
  rewrite (download_loop_ok rel fd (temp_name cp w) size (chunks_of size)
             _ 0 [] chunks); try done; try lia.
  2:{ rewrite Hfs. apply lookup_insert_eq. }
  2:{ by rewrite Hh. }
  cbv beta iota. rewrite app_nil_l.
  rewrite (populate_finish cp (temp_name cp w) fd fs0 (concat chunks))
    by (wsimpl; done || (rewrite Hfs; apply insert_insert_eq)).
  eexists. split; [reflexivity|]. wsimpl.
  assert (Hne : temp_name cp w ≠ cp).
  { intros Heq. pose proof (strlen_temp_name cp w) as Hl. rewrite Heq in Hl. lia. }
  split; [apply lookup_insert_eq|].
  split; [by rewrite lookup_insert_ne|].
  split. { rewrite requests_of_app, requests_of_requests, Hreq.
           by rewrite <- app_assoc. }
  split; [by split|]. split; [done|].
  intros p nd Hp. assert (p ≠ cp) by congruence.
  rewrite lookup_insert_ne by done. by apply Hold.
Qed.

(** The real open of a cached file, read-only. *)
Lemma real_openat_cached rel cp data w :
  cache_path_for rel PATH_MAX = Some cp → w_fs w !! cp = Some (NFile data) →
  real_openat AT_FDCWD (Some cp) O_RDONLY 0 w =
  (Z.of_nat (w_next_fd w),
   set_next_fd (S (w_next_fd w))
     (set_fds (<[Z.of_nat (w_next_fd w) := FdFile cp]> (w_fds w))
        (set_trace (w_trace w ++ [EvRealOpenat AT_FDCWD (Some cp) O_RDONLY 0]) w))).
Proof.
  intros Hcp Hnd. unfold real_openat, kernel_open, alloc_fd. mred.
  rewrite (cache_path_for_abs _ _ _ _ Hcp). wsimpl. by rewrite Hnd.
Qed.


(** ** The properties on sample worlds *)

Lemma len_replicate {A} n (x : A) : 0 ≤ n → len (replicate (Z.to_nat n) x) = n.
Proof. intros Hn. unfold len. rewrite length_replicate. lia. Qed.


Lemma write_intent_is_EROFS_witness :
  openat AT_FDCWD (Some "/workspace/notes.txt") O_WRONLY 0 fresh_world =
    (-1, set_errno EROFS fresh_world) ∧
  faccessat AT_FDCWD (Some "/workspace/notes.txt") W_OK 0 fresh_world =
    (-1, set_errno EROFS fresh_world) ∧
  fopen (Some "/workspace/notes.txt") "w" fresh_world =
    (None, set_errno EROFS fresh_world).
Proof.
  destruct (write_intent_is_EROFS AT_FDCWD (Some "/workspace/notes.txt")
              "notes.txt" fresh_world) as (Ho & Ha & Hf & _).
  - reflexivity.
  - vm_compute. reflexivity.
  - split; [apply (Ho O_WRONLY 0); reflexivity|].
    split; [apply (Ha W_OK 0); reflexivity|].
    apply (Hf "w"%string); reflexivity.
Defined.



Lemma cache_hit_needs_no_host_witness :
  ensure_cached_file "notes.txt" cached_world =
  (0, set_trace
        (w_trace cached_world ++
         [EvRealFstatat AT_FDCWD (Some "/tmp/.wscache/notes.txt") 0])
        cached_world).
Proof.
  destruct (cache_hit_needs_no_host "notes.txt" "/tmp/.wscache/notes.txt")
    as [H _].
  - reflexivity.
  - apply (H cached_world (NFile [Byte.x68; Byte.x69])). apply lookup_insert_eq.
Defined.

Lemma short_response_keeps_connection_witness :
  remote_stat "a" stat_zero terse_world =
    ((-1, stat_zero), exchanged (stat_msg "a") terse_world) ∧
  0 ≤ w_vsock_fd (exchanged (stat_msg "a") terse_world).
Proof.
  assert (Hq : quiet terse_world) by (split; [reflexivity|simpl; lia]).
  pose proof (short_response_keeps_connection terse_world "a"%string
                [to_u8 STATUS_OK] Hq eq_refl) as [H _].
  apply (H stat_zero); [reflexivity|]. unfold len. simpl. lia.
Defined.

(** C6, as stated, fails.  The host answers a STAT and a READ with a frame
    whose payload is the status byte alone.  [remote_stat] returns -1 and
    keeps the connection: a second call sends its request on it, and the
    log shows one connection for the two requests.  [remote_read_chunk]
    returns 0, which its caller takes for the end of the file, and keeps the
    connection too. *)
Lemma short_response_is_no_disconnect :
  let r1 := remote_stat "a" stat_zero terse_world in
  let r2 := remote_stat "a" stat_zero r1.2 in
  let r3 := remote_read_chunk "a" 0 16 terse_world in
  w_host terse_world [] (frame (stat_msg "a")) = frame [to_u8 STATUS_OK] ∧
  len [to_u8 STATUS_OK] < 5 ∧
  r1.1.1 = -1 ∧ w_vsock_fd r1.2 = 3 ∧
  net_events (w_trace r2.2) =
    [EvConnect 3; EvRequest (frame (stat_msg "a"));
     EvRequest (frame (stat_msg "a"))] ∧
  r3.1 = (0, []) ∧ w_vsock_fd r3.2 = 3.
Proof. vm_compute. repeat split. Qed.

Lemma bad_frame_drops_connection_witness :
  let r := remote_stat "a" stat_zero fresh_world in
  r.1 = (-1, stat_zero) ∧ w_vsock_fd r.2 < 0.
Proof.
  assert (Hi : idle fresh_world) by (left; reflexivity).
  pose proof (bad_frame_drops_connection fresh_world Hi) as [Hs _].
  destruct (Hs "a"%string stat_zero
              (remote_stat "a" stat_zero fresh_world).1
              (remote_stat "a" stat_zero fresh_world).2) as (Hr & Hv & _).
  - vm_compute. reflexivity.
  - left. vm_compute. intros (Hn & _). by apply Hn.
  - split; [exact Hr|exact Hv].
Defined.

Lemma namespace_root_is_local_witness :
  faccessat AT_FDCWD (Some "/workspace") R_OK 0 fresh_world = (0, fresh_world) ∧
  no_host_contact fresh_world
    (openat AT_FDCWD (Some "/workspace") O_RDONLY 0 fresh_world).2.
Proof.
  assert (Hc : classify AT_FDCWD (Some "/workspace") fresh_world = Some EmptyString)
    by (vm_compute; reflexivity).
  pose proof (namespace_root_is_local AT_FDCWD (Some "/workspace") fresh_world
                eq_refl Hc) as (_ & Ha & _ & Ho & _).
  split; [apply (Ha R_OK 0); reflexivity|apply (Ho O_RDONLY 0)].
Defined.

Lemma stat_and_access_do_not_populate_witness :
  w_fs (fstatat AT_FDCWD (Some "/workspace/notes.txt") stat_zero 0 fresh_world).2 =
    w_fs fresh_world ∧
  w_fs (faccessat AT_FDCWD (Some "/workspace/notes.txt") R_OK 0 fresh_world).2 =
    w_fs fresh_world.
Proof.
  assert (Hi : idle fresh_world) by (left; reflexivity).
  assert (Hc : classify AT_FDCWD (Some "/workspace/notes.txt") fresh_world =
               Some "notes.txt"%string) by (vm_compute; reflexivity).
  assert (Hr : "notes.txt"%string ≠ EmptyString) by discriminate.
  pose proof (stat_and_access_do_not_populate AT_FDCWD
                (Some "/workspace/notes.txt") "notes.txt" fresh_world
                eq_refl Hi Hc Hr) as (_ & Hs & Ha).
  split; [exact (proj1 (Hs stat_zero 0))|exact (proj1 (Ha R_OK 0))].
Defined.

(** ** Paths: resolution and classification *)

Lemma truncated_id s p : strlen p < s → truncated s p = p.
Proof.
  intros H. unfold truncated. apply str_take_all. unfold strlen in H. lia.
Qed.

Lemma strlen_str_drop n s : strlen (str_drop n s) ≤ strlen s.
Proof.
  unfold strlen. revert s. induction n as [|n IH]; intros [|c s]; simpl; try lia.
  specialize (IH s). lia.
Qed.

Lemma resolve_path_result d p s w r w' :
  resolve_path d (Some p) s w = (Some r, w') →
  strlen r < s ∧
  if is_absolute p then r = p
  else ∃ dir, r = dir +:+ "/" +:+ p ∧
              if d =? AT_FDCWD then w_cwd w = Some dir ∧ strlen dir < PATH_MAX
              else ∃ o, w_fds w !! d = Some o ∧
                        dir = str_take (Z.to_nat (PATH_MAX - 1)) (fd_link o).
Proof.
  rewrite resolve_path_unfold. unfold sys_getcwd, sys_readlink_fd.
  destruct (is_absolute p); mred.
  - destruct (strlen p >=? s) eqn:E; intros [= <- <-]. zbool.
    rewrite truncated_id by lia. split; [lia|done].
  - destruct (d =? AT_FDCWD); cbv beta iota.
    + destruct (w_cwd w) as [c|]; cbv beta iota; [|by intros [= <-]].
      destruct (strlen c >=? PATH_MAX) eqn:Ec; cbv beta iota; [by intros [= <-]|].
      destruct (strlen _ >=? s) eqn:E; intros [= <- <-]. zbool.
      split; [lia|]. exists c. split; [done|]. split; [done|lia].
    + destruct (w_fds w !! d) as [o|]; cbv beta iota; [|by intros [= <-]].
      remember (str_take (Z.to_nat (PATH_MAX - 1)) (fd_link o)) as dir eqn:Hdir.
      destruct (strlen _ >=? s) eqn:E; intros [= <- <-]. zbool.
      split; [lia|]. exists dir. split; [done|]. by exists o.
Qed.

Lemma is_workspace_path_iff resolved rel :
  is_workspace_path resolved = Some rel ↔
  resolved = WORKSPACE_PREFIX +:+ rel ∨
  resolved = WORKSPACE_DIR ∧ rel = EmptyString.
Proof.
  unfold is_workspace_path. split.
  - destruct (String.eqb (str_take WORKSPACE_PREFIX_LEN resolved) WORKSPACE_PREFIX)
      eqn:E1.
    + intros [= <-]. left. apply String.eqb_eq in E1.
      rewrite <- E1. symmetry. apply str_take_drop.
    + destruct (String.eqb resolved WORKSPACE_DIR) eqn:E2; [|done].
      intros [= <-]. right. by apply String.eqb_eq in E2.
  - intros [->|[-> ->]]; [|reflexivity].
    change WORKSPACE_PREFIX_LEN with (String.length WORKSPACE_PREFIX).
    by rewrite str_take_app, String.eqb_refl, str_drop_app.
Qed.

Lemma classify_length d p w rel :
  classify d p w = Some rel → strlen rel < PATH_MAX.
Proof.
  intros H. destruct (classify_resolved _ _ _ _ H) as (q & r & -> & Hr & Hc).
  apply resolve_path_result in Hr as [Hlen _].
  apply is_workspace_path_iff in Hc as [->|[_ ->]]; [|done].
  rewrite strlen_app in Hlen. pose proof (strlen_nonneg WORKSPACE_PREFIX). lia.
Qed.



(** X2.  A resolved path is of the namespace exactly when it is
    [/workspace/] followed by the relative path, or [/workspace] itself with
    the empty relative path: a path that merely starts with the letters of
    [/workspace] is not. *)
Theorem namespace_membership (resolved rel : string) :
  is_workspace_path resolved = Some rel ↔
  resolved = WORKSPACE_PREFIX +:+ rel ∨
  resolved = WORKSPACE_DIR ∧ rel = EmptyString.
Proof. apply is_workspace_path_iff. Qed.

(** ** Requests on the wire *)

Lemma wrap16_small z : 0 ≤ z < 2 ^ 16 → wrap16 z = z.
Proof. intros H. unfold wrap16. by apply Z.mod_small. Qed.

Lemma len_path_bytes s : len (path_bytes s) = strlen s.
Proof. unfold len, strlen. by rewrite path_bytes_length. Qed.

Lemma be16_value x :
  0 ≤ x < 2 ^ 16 → at_ (be16 x) 0 * 256 + at_ (be16 x) 1 = x.
Proof.
  intros Hx. unfold be16, at_. simpl nth. rewrite !u8_to_u8_land.
  change 255 with (Z.ones 8). rewrite !Z.land_ones, Z.shiftr_div_pow2 by lia.
  change (2 ^ 8) with 256. change (2 ^ 16) with 65536 in Hx.
  rewrite (Z.mod_small (x / 256)); [|split; [apply Z.div_pos; lia|]].
  - pose proof (Z.div_mod x 256 ltac:(lia)). lia.
  - apply Z.div_lt_upper_bound; lia.
Qed.

Lemma stat_msg_layout rel :
  strlen rel < 2 ^ 16 →
  stat_msg rel = to_u8 OP_STAT :: be16 (strlen rel) ++ path_bytes rel.
Proof.
  intros H. unfold stat_msg.
  rewrite wrap16_small by (pose proof (strlen_nonneg rel); lia).
  by rewrite <- len_path_bytes, take_len.
Qed.

Lemma read_msg_layout rel off n :
  strlen rel < 2 ^ 16 →
  read_msg rel off n =
  to_u8 OP_READ :: be16 (strlen rel) ++ path_bytes rel ++ be64 off ++ be32 n.
Proof.
  intros H. unfold read_msg.
  rewrite wrap16_small by (pose proof (strlen_nonneg rel); lia).
  by rewrite <- len_path_bytes, take_len.
Qed.

(** X3.  For a relative path that classification has produced, the path
    fits the 16-bit length field: the STAT request is the opcode 1, the
    length of the path in two bytes, high byte first, and the whole path;
    the READ request is the opcode 2, the same length and path, the offset
    in eight bytes and the length asked for in four, high byte first, so
    that the unpacking of the library itself gives back offset and
    length. *)
Theorem requests_carry_their_arguments (dirfd : Z) (pathname : option string)
    (w : World) (rel : string) (offset len_ : Z) :
  classify dirfd pathname w = Some rel →
  0 ≤ offset < 2 ^ 64 →
  0 ≤ len_ < 2 ^ 32 →
  let path := path_bytes rel in
  stat_msg rel = to_u8 OP_STAT :: be16 (strlen rel) ++ path ∧
  read_msg rel offset len_ =
    to_u8 OP_READ :: be16 (strlen rel) ++ path ++ be64 offset ++ be32 len_ ∧
  len path = strlen rel ∧
  at_ (stat_msg rel) 1 * 256 + at_ (stat_msg rel) 2 = strlen rel ∧
  at_ (read_msg rel offset len_) 1 * 256 + at_ (read_msg rel offset len_) 2 =
    strlen rel ∧
  rd64 (read_msg rel offset len_) (3 + length path) = offset ∧
  rd32 (read_msg rel offset len_) (3 + length path + 8) = len_.
Proof.
  intros Hc Hoff Hlen path.
  pose proof (classify_length _ _ _ _ Hc) as Hrel.
  pose proof (strlen_nonneg rel) as Hpos.
  assert (H16 : strlen rel < 2 ^ 16) by (unfold PATH_MAX in Hrel; lia).
  split; [by apply stat_msg_layout|]. split; [by apply read_msg_layout|].
  split; [apply len_path_bytes|].
  rewrite stat_msg_layout, read_msg_layout by done. fold path.
  split; [apply (be16_value (strlen rel)); lia|].
  split; [apply (be16_value (strlen rel)); lia|].
  split.
  - change (to_u8 OP_READ :: be16 (strlen rel) ++ path ++ be64 offset ++ be32 len_)
      with ((to_u8 OP_READ :: be16 (strlen rel)) ++ path ++ be64 offset ++ be32 len_).
    rewrite (app_assoc _ path).
    rewrite rd64_skip by (rewrite length_app; reflexivity).
    rewrite rd64_take by reflexivity. by apply rd64_be64.
  - change (to_u8 OP_READ :: be16 (strlen rel) ++ path ++ be64 offset ++ be32 len_)
      with ((to_u8 OP_READ :: be16 (strlen rel)) ++ path ++ be64 offset ++ be32 len_).
    rewrite (app_assoc _ path), (app_assoc _ (be64 offset)).
    rewrite rd32_skip by (rewrite !length_app; reflexivity).
    by apply rd32_be32.
Qed.

Lemma requests_carry_their_arguments_witness :
  rd64 (read_msg "notes.txt" 1048576 4096) (3 + length (path_bytes "notes.txt")) =
    1048576 ∧
  rd32 (read_msg "notes.txt" 1048576 4096)
    (3 + length (path_bytes "notes.txt") + 8) = 4096.
Proof.
  assert (Hc : classify AT_FDCWD (Some "/workspace/notes.txt") fresh_world =
               Some "notes.txt"%string) by (vm_compute; reflexivity).
  pose proof (requests_carry_their_arguments AT_FDCWD
                (Some "/workspace/notes.txt") fresh_world "notes.txt"
                1048576 4096 Hc) as H.
  destruct H as (_ & _ & _ & _ & _ & H1 & H2).
  - split; [lia|reflexivity].
  - split; [lia|reflexivity].
  - split; [exact H1|exact H2].
Defined.

(** ** Status of a file that is not cached, and of one that is *)

Lemma signed64_small z : 0 ≤ z < 2 ^ 63 → signed64 z = z.
Proof.
  intros H. unfold signed64, wrap64.
  rewrite Z.mod_small by (change (2 ^ 64) with (2 * 2 ^ 63); lia).
  destruct (z <? 2 ^ 63) eqn:E; zbool; lia.
Qed.

Lemma parse_stat_response mode size mtime is_dir st :
  0 ≤ mode < 2 ^ 32 → 0 ≤ size < 2 ^ 63 → 0 ≤ mtime < 2 ^ 63 →
  parse_stat (stat_response mode size mtime is_dir)
    (len (stat_response mode size mtime is_dir)) st =
  (0, decoded_stat mode size mtime is_dir).
Proof.
  intros Hmode Hsize Hmtime.
  assert (H64 : 2 ^ 64 = 2 * 2 ^ 63) by reflexivity.
  assert (Hm : rd32 (stat_response mode size mtime is_dir) 1 = mode).
  { unfold stat_response.
    rewrite (rd32_skip [to_u8 STATUS_OK]) by reflexivity.
    rewrite rd32_take by reflexivity. by apply rd32_be32. }
  assert (Hs : rd64 (stat_response mode size mtime is_dir) 5 = size).
  { unfold stat_response. rewrite (app_assoc [to_u8 STATUS_OK] (be32 mode)).
    rewrite (rd64_skip ([to_u8 STATUS_OK] ++ be32 mode)) by reflexivity.
    rewrite rd64_take by reflexivity. apply rd64_be64. lia. }
  assert (Ht : rd64 (stat_response mode size mtime is_dir) 13 = mtime).
  { unfold stat_response.
    rewrite (app_assoc [to_u8 STATUS_OK] (be32 mode)),
      (app_assoc _ (be64 size)).
    rewrite (rd64_skip (([to_u8 STATUS_OK] ++ be32 mode) ++ be64 size))
      by reflexivity.
    rewrite rd64_take by reflexivity. apply rd64_be64. lia. }
  unfold parse_stat. rewrite Hm, Hs, Ht.
  change (len (stat_response mode size mtime is_dir)) with 22.
  change (at_ (stat_response mode size mtime is_dir) 0) with (u8 (to_u8 0)).
  change (at_ (stat_response mode size mtime is_dir) 21)
    with (u8 (to_u8 (if is_dir then 1 else 0))).
  change (u8 (to_u8 0)) with 0. simpl.
  rewrite !signed64_small by done. unfold wrap64.
  rewrite Z.mod_small by lia.
  by destruct is_dir.
Qed.

(** X4.  A status query on a path of the namespace that is not cached, on a
    connection with nothing in flight and no call made to fail: the host is
    sent the one STAT request, and what it answers is what the caller gets.
    The mode has the type bit of a directory or of a regular file added, the
    size and the modification time are the host's, a directory has two links
    and a file one, the block size is 4096 and the blocks are the size in
    units of 512 bytes, rounded up.  Nothing is created locally. *)
Theorem uncached_status_is_the_hosts (dirfd : Z) (pathname : option string)
    (rel cp : string) (statbuf : struct_stat) (flags mode size mtime : Z)
    (is_dir : bool) (w : World) :
  w_in_hook w = false →
  quiet w →
  classify dirfd pathname w = Some rel →
  rel ≠ EmptyString →
  cache_path_for rel PATH_MAX = Some cp →
  w_fs w !! cp = None →
  serves (w_host w) (stat_msg rel) (stat_response mode size mtime is_dir) →
  0 ≤ mode < 2 ^ 32 → 0 ≤ size < 2 ^ 63 → 0 ≤ mtime < 2 ^ 63 →
  ∃ w',
    fstatat dirfd pathname statbuf flags w =
      ((0, decoded_stat mode size mtime is_dir), w') ∧
    w_fs w' = w_fs w ∧ w_in_hook w' = false ∧
    requests_of (w_trace w') = requests_of (w_trace w) ++ [frame (stat_msg rel)].
Proof.
  intros Hhook Hq Hin Hrel Hcp Hmiss Hhost Hmode Hsize Hmtime.
  destruct (classify_resolved _ _ _ _ Hin) as (p & r & -> & Hr & Hc).
  unfold fstatat. mred.
  rewrite Hhook, bool_decide_eq_false_2, Hr, Hc by done.
  rewrite bool_decide_eq_false_2 by done. cbv beta iota.
  unfold ensure_cached_stat. rewrite Hcp. mred.
  rewrite (real_fstatat_absent rel cp) by done. zconst.
  set (w1 := set_errno ENOENT _).
  assert (Hq1 : quiet w1) by (destruct Hq; by split).
  rewrite remote_stat_exchange, <- stat_msg_len.
  rewrite (exchange_ok _ (stat_response mode size mtime is_dir));
    [|done|done|apply Hhost].
  rewrite parse_stat_response by done. zconst.
  eexists. split; [reflexivity|]. unfold exchanged. wsimpl.
  destruct (linked_quiet w1 Hq1) as (_ & _ & _ & _ & _ & Hreq & Hfs).
  split; [by rewrite Hfs|]. split; [done|].
  rewrite requests_of_app, Hreq. subst w1. wsimpl.
  rewrite requests_of_app. simpl. by rewrite app_nil_r.
Qed.

Lemma uncached_status_is_the_hosts_witness :
  ∃ w',
    fstatat AT_FDCWD (Some "/workspace/notes.txt") stat_zero 0 stat_only_world =
      ((0, decoded_stat 420 5 1000 false), w') ∧
    w_fs w' = w_fs stat_only_world.
Proof.
  assert (Hq : quiet stat_only_world) by (split; [reflexivity|simpl; lia]).
  assert (Hc : classify AT_FDCWD (Some "/workspace/notes.txt") stat_only_world =
               Some "notes.txt"%string) by (vm_compute; reflexivity).
  assert (Hr : "notes.txt"%string ≠ EmptyString) by discriminate.
  assert (Hh : serves (w_host stat_only_world) (stat_msg "notes.txt")
                 (stat_response 420 5 1000 false)).
  { intros hist. simpl. unfold stat_only_host. by rewrite decide_True. }
  destruct (uncached_status_is_the_hosts AT_FDCWD (Some "/workspace/notes.txt")
              "notes.txt" "/tmp/.wscache/notes.txt" stat_zero 0 420 5 1000
              false stat_only_world eq_refl Hq Hc Hr eq_refl eq_refl Hh)
    as (w' & H1 & H2 & _).
  - split; [lia|reflexivity].
  - split; [lia|reflexivity].
  - split; [lia|reflexivity].
  - exists w'. split; [exact H1|exact H2].
Defined.

(** X5.  A status query or an access check on a path of the namespace whose
    cache path exists is answered from the local object: [fstatat] gives the
    status of the cached file or directory, [faccessat] without [W_OK]
    gives 0, and the one thing that happens
    is the real [fstatat] of the cache path; nothing goes to the host. *)
Theorem cached_status_is_local (dirfd : Z) (pathname : option string)
    (rel cp : string) (nd : node) (w : World) :
  w_in_hook w = false →
  classify dirfd pathname w = Some rel →
  rel ≠ EmptyString →
  cache_path_for rel PATH_MAX = Some cp →
  w_fs w !! cp = Some nd →
  let w' := set_trace (w_trace w ++ [EvRealFstatat AT_FDCWD (Some cp) 0]) w in
  (∀ statbuf flags,
     fstatat dirfd pathname statbuf flags w = ((0, stat_of_node nd), w')) ∧
  (∀ mode flags,
     has_flag mode W_OK = false →
     faccessat dirfd pathname mode flags w = (0, w')) ∧
  no_host_contact w w'.
Proof.
  intros Hhook Hin Hrel Hcp Hnd w'.
  destruct (classify_resolved _ _ _ _ Hin) as (p & r & -> & Hr & Hc).
  assert (Hw : set_in_hook false
                 (set_trace (w_trace w ++ [EvRealFstatat AT_FDCWD (Some cp) 0])
                    (set_in_hook true w)) = w').
  { subst w'. destruct w. simpl in *. by subst. }
  split; [|split].
  - intros statbuf flags. unfold fstatat. mred.
    rewrite Hhook, bool_decide_eq_false_2, Hr, Hc by done.
    rewrite bool_decide_eq_false_2 by done. cbv beta iota.
    unfold ensure_cached_stat. rewrite Hcp. mred.
    rewrite (real_fstatat_cached rel cp nd) by done. zconst. by rewrite <- Hw.
  - intros mode flags Hm. unfold faccessat. mred.
    rewrite Hhook, bool_decide_eq_false_2, Hr, Hc, Hm by done.
    rewrite bool_decide_eq_false_2 by done. cbv beta iota.
    unfold ensure_cached_stat. rewrite Hcp. mred.
    rewrite (real_fstatat_cached rel cp nd) by done. zconst. by rewrite <- Hw.
  - subst w'. unfold no_host_contact. wsimpl. by rewrite net_events_snoc_real.
Qed.

Lemma cached_status_is_local_witness :
  fstatat AT_FDCWD (Some "/workspace/notes.txt") stat_zero 0 cached_world =
  ((0, stat_of_node (NFile [Byte.x68; Byte.x69])),
   set_trace
     (w_trace cached_world ++
      [EvRealFstatat AT_FDCWD (Some "/tmp/.wscache/notes.txt") 0])
     cached_world).
Proof.
  assert (Hc : classify AT_FDCWD (Some "/workspace/notes.txt") cached_world =
               Some "notes.txt"%string) by (vm_compute; reflexivity).
  assert (Hr : "notes.txt"%string ≠ EmptyString) by discriminate.
  assert (Hn : w_fs cached_world !! "/tmp/.wscache/notes.txt" =
               Some (NFile [Byte.x68; Byte.x69])) by apply lookup_insert_eq.
  exact (proj1 (cached_status_is_local AT_FDCWD (Some "/workspace/notes.txt")
                  "notes.txt" "/tmp/.wscache/notes.txt" _ cached_world
                  eq_refl Hc Hr eq_refl Hn) stat_zero 0).
Defined.

(** ** Transfers that the kernel splits *)

Lemma next_fault_clean w :
  FFail ∉ w_script w →
  ∃ f w1, next_fault w = (f, w1) ∧ f ≠ FFail ∧ (FFail ∉ w_script w1) ∧
          w1 = set_script (w_script w1) w.
Proof.
  intros H. unfold next_fault. destruct (w_script w) as [|f s] eqn:E.
  - exists FOk, w. rewrite E. repeat split; try done. destruct w; simpl in *; by subst.
  - exists f, (set_script s w). wsimpl. split; [done|].
    apply not_elem_of_cons in H as [? ?]. by repeat split.
Qed.

Lemma xfer_clean f n : 0 < n → f ≠ FFail → 0 < xfer f n ≤ n.
Proof. intros. by apply xfer_bounds. Qed.

Lemma len_drop {A} (l : list A) k : 0 ≤ k ≤ len l → len (drop (Z.to_nat k) l) = len l - k.
Proof. intros H. unfold len in *. rewrite length_drop. lia. Qed.

Lemma send_all_loop_total fuel fd :
  ∀ buf w,
    FFail ∉ w_script w → (length buf ≤ fuel)%nat →
    ∃ w', send_all_loop fuel fd buf w = (0, w') ∧
          w_tx w' = w_tx w ++ buf ∧ w_rx w' = w_rx w ∧
          w_trace w' = w_trace w ∧ FFail ∉ w_script w'.
Proof.
  induction fuel as [|fuel IH]; intros buf w Hs Hlen.
  - destruct buf; [|simpl in Hlen; lia]. exists w. simpl. mred.
    change (len (@nil byte) >? 0) with false. cbv beta iota.
    by rewrite app_nil_r.
  - simpl. mred. destruct (len buf >? 0) eqn:E; cbv beta iota.
    2:{ exists w. split; [done|]. zbool.
        destruct buf; [by rewrite app_nil_r|]. unfold len in E. simpl in E. lia. }
    zbool. unfold sys_send. mred.
    destruct (next_fault_clean w Hs) as (f & w1 & -> & Hf & Hs1 & Hw1).
    pose proof (xfer_clean f (len buf) ltac:(lia) Hf) as Hk.
    destruct f as [| |k]; [|done|]; cbv beta iota;
      (destruct (_ <=? 0) eqn:Ek; [zbool; lia|]);
      match goal with
      | |- context [send_all_loop fuel fd ?b ?w0] =>
          destruct (IH b w0) as (w' & -> & Htx & Hrx & Ht & Hs');
            [by wsimpl | rewrite length_drop; unfold len in *; lia |]
      end;
      exists w'; (split; [done|]); wsimpl;
      rewrite Htx, Hrx, Ht, <- app_assoc, take_drop, Hw1; wsimpl; done.
Qed.

(** X9.  When no system call is made to fail, [send_all] returns 0 and the
    stream has received the whole buffer, in order and once, however the
    kernel splits the transfer: a [send] that takes fewer bytes than offered
    is followed by one for the rest. *)
Theorem send_all_sends_the_whole_buffer (fd : Z) (buf : list byte) (w : World) :
  FFail ∉ w_script w →
  ∃ w', send_all fd buf w = (0, w') ∧ w_tx w' = w_tx w ++ buf ∧
        w_rx w' = w_rx w ∧ w_trace w' = w_trace w.
Proof.
  intros Hs. unfold send_all.
  destruct (send_all_loop_total (length buf) fd buf w Hs ltac:(lia))
    as (w' & H & ? & ? & ? & _).
  by exists w'.
Qed.

Lemma send_all_sends_the_whole_buffer_witness :
  ∃ w', send_all 3 [Byte.x61; Byte.x62; Byte.x63; Byte.x64; Byte.x65] choppy_world =
          (0, w') ∧
        w_tx w' = w_tx choppy_world ++
                  [Byte.x61; Byte.x62; Byte.x63; Byte.x64; Byte.x65].
Proof.
  destruct (send_all_sends_the_whole_buffer 3
              [Byte.x61; Byte.x62; Byte.x63; Byte.x64; Byte.x65] choppy_world)
    as (w' & H1 & H2 & _).
  - simpl. intros H. repeat (apply elem_of_cons in H as [H|H]; [discriminate|]).
    by apply elem_of_nil in H.
  - exists w'. split; [exact H1|exact H2].
Defined.

Lemma sys_recv_clean fd n w :
  FFail ∉ w_script w → w_tx w = [] → 0 < n →
  ∃ k w', sys_recv fd n w = ((k, take (Z.to_nat k) (w_rx w)), w') ∧
          w_rx w' = drop (Z.to_nat k) (w_rx w) ∧ w_tx w' = [] ∧
          w_trace w' = w_trace w ∧ (FFail ∉ w_script w') ∧
          0 ≤ k ≤ Z.min n (len (w_rx w)) ∧
          (0 < len (w_rx w) → 0 < k).
Proof.
  intros Hs Htx Hn. unfold sys_recv, host_turn. mred. rewrite Htx.
  destruct (next_fault_clean w Hs) as (f & w1 & -> & Hf & Hs1 & Hw1).
  pose proof (len_nonneg (w_rx w)) as Hr.
  assert (Hrx1 : w_rx w1 = w_rx w) by (rewrite Hw1; done).
  assert (Htx1 : w_tx w1 = []) by (rewrite Hw1; done).
  assert (Ht1 : w_trace w1 = w_trace w) by (rewrite Hw1; done).
  assert (Hk : 0 ≤ xfer f (Z.min n (len (w_rx w))) ≤ Z.min n (len (w_rx w)) ∧
               (0 < len (w_rx w) → 0 < xfer f (Z.min n (len (w_rx w))))).
  { destruct (Z.eq_dec (len (w_rx w)) 0) as [H0|H0].
    - rewrite H0, Z.min_r by lia. unfold xfer.
      destruct f as [| |k]; try lia.
      destruct (0 <? k) eqn:?, (k <? 0) eqn:?; zbool; simpl; lia.
    - pose proof (xfer_clean f (Z.min n (len (w_rx w))) ltac:(lia) Hf). lia. }
  destruct f as [| |k]; [|done|]; cbv beta iota; rewrite Hrx1;
    eexists _, _; (split; [reflexivity|]); wsimpl; by rewrite ?Htx1, ?Ht1.
Qed.

Lemma recv_all_loop_total fuel fd :
  ∀ n buf0 w,
    FFail ∉ w_script w → w_tx w = [] → 0 ≤ n ≤ len (w_rx w) →
    (Z.to_nat n ≤ fuel)%nat →
    ∃ w', recv_all_loop fuel fd n buf0 w =
            ((0, buf0 ++ take (Z.to_nat n) (w_rx w)), w') ∧
          w_rx w' = drop (Z.to_nat n) (w_rx w) ∧ w_tx w' = [] ∧
          w_trace w' = w_trace w.
Proof.
  induction fuel as [|fuel IH]; intros n buf0 w Hs Htx Hn Hfuel.
  - assert (n = 0) as -> by lia. exists w. simpl. mred.
    change (0 >? 0) with false. cbv beta iota.
    by rewrite take_0, drop_0, app_nil_r.
  - simpl. mred. destruct (n >? 0) eqn:E; cbv beta iota.
    2:{ zbool. assert (n = 0) as -> by lia. exists w.
        by rewrite take_0, drop_0, app_nil_r. }
    zbool.
    destruct (sys_recv_clean fd n w Hs Htx E)
      as (k & w1 & -> & Hrx & Htx1 & Ht1 & Hs1 & Hk & Hpos).
    cbv beta iota.
    destruct (k <=? 0) eqn:Ek; [zbool; lia|]. zbool.
    destruct (IH (n - k) (buf0 ++ take (Z.to_nat k) (w_rx w)) w1)
      as (w' & -> & Hrx' & Htx' & Ht'); try done.
    { rewrite Hrx, len_drop by lia. lia. }
    { lia. }
    exists w'. rewrite Hrx' , Hrx, Htx', Ht', Ht1. split; [|split; [|done]].
    + rewrite <- app_assoc, take_take_drop. do 3 f_equal. f_equal. lia.
    + rewrite drop_drop. f_equal. lia.
Qed.

Lemma recv_all_loop_short fuel fd :
  ∀ n buf0 w,
    FFail ∉ w_script w → w_tx w = [] → len (w_rx w) < n →
    ∃ buf w', recv_all_loop fuel fd n buf0 w = ((-1, buf), w').
Proof.
  induction fuel as [|fuel IH]; intros n buf0 w Hs Htx Hn;
    pose proof (len_nonneg (w_rx w)) as Hr.
  - simpl. mred. destruct (n >? 0) eqn:E; [|zbool; lia]. by eexists _, _.
  - simpl. mred. destruct (n >? 0) eqn:E; [|zbool; lia]. cbv beta iota. zbool.
    destruct (sys_recv_clean fd n w Hs Htx E)
      as (k & w1 & -> & Hrx & Htx1 & Ht1 & Hs1 & Hk & Hpos).
    cbv beta iota. destruct (k <=? 0) eqn:Ek; [by eexists _, _|]. zbool.
    apply IH; try done. rewrite Hrx, len_drop by lia. lia.
Qed.

(** X10.  When no system call is made to fail and what was sent has been
    read by the host, [recv_all] for [n] bytes that the stream holds returns
    0 with exactly the first [n] bytes of the stream, in order, and leaves
    the rest on it, however the kernel splits the transfer.  When the stream
    holds fewer than [n] bytes, [recv_all] returns -1. *)
Theorem recv_all_takes_exactly_n (fd n : Z) (w : World) :
  FFail ∉ w_script w →
  w_tx w = [] →
  0 < n →
  (n ≤ len (w_rx w) →
   ∃ w', recv_all fd n w = ((0, take (Z.to_nat n) (w_rx w)), w') ∧
         w_rx w' = drop (Z.to_nat n) (w_rx w) ∧ w_trace w' = w_trace w) ∧
  (len (w_rx w) < n → ∃ buf w', recv_all fd n w = ((-1, buf), w')).
Proof.
  intros Hs Htx Hn. unfold recv_all. split.
  - intros Hl.
    destruct (recv_all_loop_total (Z.to_nat n) fd n [] w) as (w' & H & ? & ? & ?);
      try done; [lia|].
    exists w'. by rewrite H.
  - intros Hl. by apply recv_all_loop_short.
Qed.

Lemma recv_all_takes_exactly_n_witness :
  (∃ w', recv_all 3 4 choppy_world =
           ((0, [Byte.x01; Byte.x02; Byte.x03; Byte.x04]), w') ∧
         w_rx w' = [Byte.x05]) ∧
  (∃ buf w', recv_all 3 6 choppy_world = ((-1, buf), w')).
Proof.
  assert (Hs : FFail ∉ w_script choppy_world).
  { simpl. intros H. repeat (apply elem_of_cons in H as [H|H]; [discriminate|]).
    by apply elem_of_nil in H. }
  split.
  - destruct (proj1 (recv_all_takes_exactly_n 3 4 choppy_world Hs eq_refl eq_refl))
      as (w' & H1 & H2 & _).
    + unfold len. simpl. lia.
    + exists w'. split; [exact H1|exact H2].
  - apply (proj2 (recv_all_takes_exactly_n 3 6 choppy_world Hs eq_refl eq_refl)).
    unfold len. simpl. lia.
Defined.

(** ** Downloads of any size, directories, and a stream that ends early *)

Lemma read_plan_length k offset size : length (read_plan k offset size) = k.
Proof. revert offset. induction k as [|k IH]; intros offset; simpl; [done|]. by rewrite IH. Qed.

Lemma read_plan_lookup k offset size i off n :
  read_plan k offset size !! i = Some (off, n) →
  off = offset + Z.of_nat i * READ_CHUNK_SIZE ∧ n = want_at off size.
Proof.
  revert offset i. induction k as [|k IH]; intros offset i; simpl; [done|].
  destruct i as [|i]; simpl.
  - intros [= <- <-]. split; [lia|done].
  - intros H. apply IH in H as [-> ->]. split; [lia|done].
Qed.

Lemma served_total rel h k :
  ∀ offset size chunks,
    size - offset ≤ Z.of_nat k * READ_CHUNK_SIZE →
    ((0 < k)%nat → (Z.of_nat k - 1) * READ_CHUNK_SIZE < size - offset) →
    0 ≤ size - offset →
    served rel h (read_plan k offset size) chunks →
    len (concat chunks) = size - offset.
Proof.
  induction k as [|k IH]; intros offset size chunks Hle Hgt Hpos Hsrv.
  - apply Forall2_nil_inv_l in Hsrv as ->. unfold len. simpl. lia.
  - simpl read_plan in Hsrv.
    apply Forall2_cons_inv_l in Hsrv as (chunk & rest & [Hlen _] & Hsrv & ->).
    simpl in Hlen. simpl concat. rewrite len_app, Hlen.
    specialize (Hgt ltac:(lia)).
    unfold want_at in *.
    destruct (size - offset <? READ_CHUNK_SIZE) eqn:E; zbool.
    + destruct k as [|k'].
      * apply Forall2_nil_inv_l in Hsrv as ->. unfold len. simpl. lia.
      * unfold READ_CHUNK_SIZE in *. lia.
    + rewrite (IH (offset + READ_CHUNK_SIZE) size rest); try done;
        unfold READ_CHUNK_SIZE in *; lia.
Qed.



Lemma S_ISDIR_dir mode : Z.land mode S_IFMT = 0 → S_ISDIR (Z.lor mode S_IFDIR) = true.
Proof.
  intros H. unfold S_ISDIR. by rewrite Z.land_lor_distr_l, H.
Qed.

Lemma sys_mkdir_ok path mode w :
  w_script w = [] → w_fs w !! path = None →
  sys_mkdir path mode w = (0, set_fs (<[path := NDir]> (w_fs w)) w).
Proof.
  intros Hs Hp. unfold sys_mkdir. mred. rewrite (next_fault_ok _ Hs).
  cbv beta iota. by rewrite Hp.
Qed.



Lemma parse_read_empty n :
  0 ≤ n →
  parse_read (read_response []) (len (read_response [])) n = (0, []).
Proof.
  intros Hn. unfold parse_read.
  change (len (read_response [])) with 5.
  change (at_ (read_response []) 0) with (u8 (to_u8 0)).
  change (rd32 (read_response []) 1) with (rd32 (be32 0) 0).
  change (u8 (to_u8 0)) with 0. rewrite rd32_be32 by (split; [lia|reflexivity]).
  simpl. destruct (0 >? n) eqn:E; [zbool; lia|]. done.
Qed.



(** ** What the host cannot make the library do *)

Lemma parse_read_bounds resp n :
  0 ≤ n →
  parse_read resp (len resp) n = (-1, []) ∨
  0 ≤ (parse_read resp (len resp) n).1 ≤ n ∧
  len (parse_read resp (len resp) n).2 = (parse_read resp (len resp) n).1.
Proof.
  intros Hn. unfold parse_read.
  destruct ((len resp <? 1) || negb (at_ resp 0 =? STATUS_OK)); [by left|].
  destruct (len resp <? 5) eqn:E5; [right; simpl; unfold len; simpl; lia|].
  zbool. right. pose proof (rd32_nonneg resp 1) as Hr.
  set (b1 := if rd32 resp 1 >? len resp - 5 then len resp - 5 else rd32 resp 1).
  assert (H1 : 0 ≤ b1 ≤ len resp - 5).
  { subst b1. destruct (rd32 resp 1 >? len resp - 5) eqn:E; zbool; lia. }
  set (b2 := if b1 >? n then n else b1).
  assert (H2 : 0 ≤ b2 ≤ n ∧ b2 ≤ len resp - 5).
  { subst b2. destruct (b1 >? n) eqn:E; zbool; lia. }
  simpl. split; [lia|].
  unfold len in *. rewrite length_take, length_drop. lia.
Qed.

(** X11.  Whatever the host sends and whichever calls fail,
    [remote_read_chunk] asked for [len] bytes returns -1 or a count between 0
    and [len], and copies exactly that many bytes to the buffer: a response
    that announces more bytes than it carries, or more than were asked for,
    is cut down. *)
Theorem read_chunk_never_exceeds_request (rel : string) (offset len_ : Z)
    (w : World) :
  0 ≤ len_ →
  let res := (remote_read_chunk rel offset len_ w).1 in
  res = (-1, []) ∨ 0 ≤ res.1 ≤ len_ ∧ len res.2 = res.1.
Proof.
  intros Hn res. subst res.
  rewrite remote_read_chunk_exchange. unfold exchange. mred.
  destruct (vsock_connect w) as [c w1]. destruct (c <? 0); [by left|].
  destruct (send_request _ _ w1) as [[[resp resp_len]|] w2] eqn:Es;
    cbv beta iota.
  - apply send_request_spec in Es as (_ & _ & _ & _ & _ & _ & _ & Hl & _).
    simpl. rewrite <- Hl. apply parse_read_bounds, Hn.
  - destruct (vsock_disconnect w2). by left.
Qed.

Lemma read_chunk_never_exceeds_request_witness :
  (remote_read_chunk "a" 0 4 boastful_world).1 =
    (4, [Byte.x61; Byte.x62; Byte.x63; Byte.x64]) ∧
  (let res := (remote_read_chunk "a" 0 4 boastful_world).1 in
   res = (-1, []) ∨ 0 ≤ res.1 ≤ 4 ∧ len res.2 = res.1).
Proof.
  split; [vm_compute; reflexivity|].
  apply (read_chunk_never_exceeds_request "a" 0 4 boastful_world). lia.
Defined.

(** ** The guard *)

Lemma kernel_open_in_hook d p f m w :
  w_in_hook (kernel_open d p f m w).2 = w_in_hook w.
Proof. unfold kernel_open, alloc_fd. destruct p; mred; crush. Qed.

Lemma real_openat_in_hook d p f m w :
  w_in_hook (real_openat d p f m w).2 = w_in_hook w.
Proof. unfold real_openat. mred. by rewrite kernel_open_in_hook. Qed.

Lemma real_fstatat_in_hook d p sb f w :
  w_in_hook (real_fstatat d p sb f w).2 = w_in_hook w.
Proof. unfold real_fstatat. destruct p; mred; crush. Qed.

Lemma real_faccessat_in_hook d p m f w :
  w_in_hook (real_faccessat d p m f w).2 = w_in_hook w.
Proof. unfold real_faccessat. destruct p; mred; crush. Qed.

Lemma real_fopen_in_hook p m w :
  w_in_hook (real_fopen p m w).2 = w_in_hook w.
Proof.
  unfold real_fopen. mred. destruct (fopen_flags m); [|done].
  pose proof (kernel_open_in_hook AT_FDCWD p z 438
                (set_trace (w_trace w ++ [EvRealFopen p m]) w)) as H.
  destruct (kernel_open _ _ _ _ _) as [fd w1]. simpl in H.
  by destruct (fd <? 0).
Qed.

Lemma real_fdopen_in_hook fd m w :
  w_in_hook (real_fdopen fd m w).2 = w_in_hook w.
Proof. unfold real_fdopen. mred. crush. Qed.

Lemma sys_mkdir_in_hook path mode w :
  w_in_hook (sys_mkdir path mode w).2 = w_in_hook w.
Proof.
  destruct (sys_mkdir path mode w) as [r w'] eqn:E.
  by apply sys_mkdir_spec in E as ((_ & _ & _ & ? & _) & _).
Qed.

Lemma resolve_path_in_hook d p s w :
  w_in_hook (resolve_path d p s w).2 = w_in_hook w.
Proof.
  destruct (resolve_path d p s w) as [[r|] w'] eqn:E; simpl.
  - by apply resolve_path_Some in E as ->.
  - by apply resolve_path_None in E as [->|[e ->]].
Qed.

Lemma openat_in_hook d p f m w :
  w_in_hook w = false → w_in_hook (openat d p f m w).2 = false.
Proof.
  intros Hh. unfold openat. mred. rewrite Hh. simpl.
  destruct (bool_decide (p = None)).
  { by rewrite real_openat_in_hook. }
  pose proof (resolve_path_in_hook d p PATH_MAX w) as Hr.
  destruct (resolve_path d p PATH_MAX w) as [[r|] w1]; simpl in Hr;
    [|by rewrite real_openat_in_hook, Hr].
  destruct (is_workspace_path r) as [rel|]; [|by rewrite real_openat_in_hook, Hr].
  destruct (has_flag f _); [simpl; congruence|].
  destruct (bool_decide (rel = EmptyString)); cbv beta iota.
  - pose proof (sys_mkdir_in_hook CACHE_DIR 493 (set_in_hook false (set_in_hook true w1)))
      as Hm.
    destruct (sys_mkdir _ _ _) as [u w2]. simpl in Hm.
    by rewrite real_openat_in_hook.
  - destruct (ensure_cached_file rel _) as [rc w2].
    destruct (rc <? 0); [done|].
    destruct (cache_path_for rel PATH_MAX); [|done].
    by destruct (real_openat _ _ _ _ _).
Qed.

(** X12.  The guard is clear whenever an entry point returns to a caller that
    entered with the guard clear: on the pass-through paths, on the
    read-only refusals, when the cache manager fails and when the delegated
    open fails, for every host and every failing call. *)
Theorem guard_is_clear_on_return (w : World) :
  w_in_hook w = false →
  (∀ dirfd pathname flags va_mode,
     w_in_hook (openat dirfd pathname flags va_mode w).2 = false ∧
     w_in_hook (openat64 dirfd pathname flags va_mode w).2 = false) ∧
  (∀ pathname flags va_mode,
     w_in_hook (open pathname flags va_mode w).2 = false ∧
     w_in_hook (open64 pathname flags va_mode w).2 = false) ∧
  (∀ dirfd pathname statbuf flags,
     w_in_hook (fstatat dirfd pathname statbuf flags w).2 = false) ∧
  (∀ dirfd pathname mode flags,
     w_in_hook (faccessat dirfd pathname mode flags w).2 = false) ∧
  (∀ pathname mode,
     w_in_hook (fopen pathname mode w).2 = false ∧
     w_in_hook (fopen64 pathname mode w).2 = false).
Proof.
  intros Hh.
  assert (Hfs : ∀ dirfd pathname statbuf flags,
            w_in_hook (fstatat dirfd pathname statbuf flags w).2 = false).
  { intros d p sb f. unfold fstatat. mred. rewrite Hh. simpl.
    destruct (bool_decide (p = None)).
    { by rewrite real_fstatat_in_hook. }
    pose proof (resolve_path_in_hook d p PATH_MAX w) as Hr.
    destruct (resolve_path d p PATH_MAX w) as [[r|] w1]; simpl in Hr;
      [|by rewrite real_fstatat_in_hook, Hr].
    destruct (is_workspace_path r) as [rel|];
      [|by rewrite real_fstatat_in_hook, Hr].
    destruct (bool_decide (rel = EmptyString)); cbv beta iota; [done|].
    destruct (ensure_cached_stat rel sb _) as [[rc st] w2].
    by destruct (rc <? 0). }
  assert (Hfa : ∀ dirfd pathname mode flags,
            w_in_hook (faccessat dirfd pathname mode flags w).2 = false).
  { intros d p m f. unfold faccessat. mred. rewrite Hh. simpl.
    destruct (bool_decide (p = None)).
    { by rewrite real_faccessat_in_hook. }
    pose proof (resolve_path_in_hook d p PATH_MAX w) as Hr.
    destruct (resolve_path d p PATH_MAX w) as [[r|] w1]; simpl in Hr;
      [|by rewrite real_faccessat_in_hook, Hr].
    destruct (is_workspace_path r) as [rel|];
      [|by rewrite real_faccessat_in_hook, Hr].
    destruct (has_flag m W_OK); [simpl; congruence|].
    destruct (bool_decide (rel = EmptyString)); cbv beta iota; [done|].
    destruct (ensure_cached_stat rel stat_zero _) as [[rc st] w2].
    by destruct (rc <? 0). }
  assert (Hfo : ∀ pathname mode, w_in_hook (fopen pathname mode w).2 = false).
  { intros p m. unfold fopen. mred. rewrite Hh. simpl.
    destruct (bool_decide (p = None)).
    { by rewrite real_fopen_in_hook. }
    pose proof (resolve_path_in_hook AT_FDCWD p PATH_MAX w) as Hr.
    destruct (resolve_path AT_FDCWD p PATH_MAX w) as [[r|] w1] eqn:Er;
      simpl in Hr; [|by rewrite real_fopen_in_hook, Hr].
    destruct (is_workspace_path r) as [rel|];
      [|by rewrite real_fopen_in_hook, Hr].
    destruct (strchr m "w" || strchr m "a" || strchr m "+") eqn:Em.
    { revert Em. unfold orb. intros ->. simpl. congruence. }
    revert Em. unfold orb. intros ->.
    pose proof (openat_in_hook AT_FDCWD p O_RDONLY 0 w1 ltac:(congruence)) as Ho.
    destruct (openat AT_FDCWD p O_RDONLY 0 w1) as [fd w2]. simpl in Ho.
    destruct (fd <? 0); [done|]. by rewrite real_fdopen_in_hook. }
  split; [|split; [|split; [|split]]].
  - intros d p f m. split; by apply openat_in_hook.
  - intros p f m. split; by apply openat_in_hook.
  - exact Hfs.
  - exact Hfa.
  - intros p m. split; apply Hfo.
Qed.

Lemma guard_is_clear_on_return_witness :
  w_in_hook (openat AT_FDCWD (Some "/workspace/notes.txt") O_RDONLY 0
               fresh_world).2 = false ∧
  w_in_hook (fopen (Some "/workspace/notes.txt") "r" fresh_world).2 = false.
Proof.
  pose proof (guard_is_clear_on_return fresh_world eq_refl) as (Ho & _ & _ & _ & Hf).
  split; [exact (proj1 (Ho AT_FDCWD (Some "/workspace/notes.txt") O_RDONLY 0))|].
  exact (proj1 (Hf (Some "/workspace/notes.txt") "r"%string)).
Defined.

(** ** A host that cannot be reached *)

Lemma vsock_connect_fails w :
  w_vsock_fd w < 0 → connect_fails w →
  w_fds w !! Z.of_nat (w_next_fd w) = None →
  ∃ w', vsock_connect w = (-1, w') ∧
        w_fds w' = w_fds w ∧ w_fs w' = w_fs w ∧ w_vsock_fd w' = w_vsock_fd w ∧
        w_trace w' = w_trace w ∧ w_in_hook w' = w_in_hook w.
Proof.
  intros Hv [s [Hs|(f & Hf & Hs)]] Hfree;
    unfold vsock_connect, sys_socket, sys_connect, sys_close, alloc_fd, next_fault;
    mred; (destruct (w_vsock_fd w >=? 0) eqn:E; [zbool; lia|]); rewrite Hs;
    cbv beta iota; wsimpl.
  - zconst. eexists. split; [reflexivity|]. by wsimpl.
  - assert (E2 : (Z.of_nat (w_next_fd w) <? 0) = false) by (apply Z.ltb_ge; lia).
    destruct f; [|done|]; cbv beta iota; wsimpl; rewrite E2; cbv beta iota;
      wsimpl; zconst; wsimpl; rewrite lookup_insert_eq; eexists;
      (split; [reflexivity|]); wsimpl; by rewrite delete_insert_id.
Qed.

Lemma remote_stat_unreachable rel st w :
  w_vsock_fd w < 0 → connect_fails w →
  w_fds w !! Z.of_nat (w_next_fd w) = None →
  ∃ w', remote_stat rel st w = ((-1, st), w') ∧
        w_fds w' = w_fds w ∧ w_fs w' = w_fs w ∧ w_vsock_fd w' = w_vsock_fd w ∧
        w_trace w' = w_trace w ∧ w_in_hook w' = w_in_hook w.
Proof.
  intros Hv Hc Hfree.
  destruct (vsock_connect_fails w Hv Hc Hfree) as (w' & H & R).
  exists w'. split; [|done]. unfold remote_stat. mred. rewrite H. by zconst.
Qed.

(** X13.  When the library has no connection and [socket] or [connect]
    fails, a status query or a read-only open of a path of the namespace
    that is not cached returns -1 with [ENOENT].  Nothing is sent, no
    connection is logged, the file system is as it was, and so is the
    descriptor table: the socket that [connect] failed on has been
    closed. *)
Theorem unreachable_host_is_not_found (dirfd : Z) (pathname : option string)
    (rel cp : string) (w : World) :
  w_in_hook w = false →
  classify dirfd pathname w = Some rel →
  rel ≠ EmptyString →
  cache_path_for rel PATH_MAX = Some cp →
  w_fs w !! cp = None →
  w_vsock_fd w < 0 →
  connect_fails w →
  w_fds w !! Z.of_nat (w_next_fd w) = None →
  (∀ statbuf flags,
     ∃ w', fstatat dirfd pathname statbuf flags w = ((-1, statbuf), w') ∧
           w_errno w' = ENOENT ∧ w_fs w' = w_fs w ∧ w_fds w' = w_fds w ∧
           w_vsock_fd w' < 0 ∧ net_events (w_trace w') = net_events (w_trace w)) ∧
  (∀ flags va_mode,
     has_flag flags (Z.lor O_WRONLY O_RDWR) = false →
     ∃ w', openat dirfd pathname flags va_mode w = (-1, w') ∧
           w_errno w' = ENOENT ∧ w_fs w' = w_fs w ∧ w_fds w' = w_fds w ∧
           w_vsock_fd w' < 0 ∧ net_events (w_trace w') = net_events (w_trace w)).
Proof.
  intros Hhook Hin Hrel Hcp Hmiss Hv Hc Hfree.
  destruct (classify_resolved _ _ _ _ Hin) as (p & r & -> & Hr & Hcl).
  set (w1 := set_errno ENOENT
               (set_trace (w_trace (set_in_hook true w) ++
                           [EvRealFstatat AT_FDCWD (Some cp) 0])
                  (set_in_hook true w))).
  assert (Hc1 : connect_fails w1) by exact Hc.
  split.
  - intros statbuf flags. unfold fstatat. mred.
    rewrite Hhook, bool_decide_eq_false_2, Hr, Hcl by done.
    rewrite bool_decide_eq_false_2 by done. cbv beta iota.
    unfold ensure_cached_stat. rewrite Hcp. mred.
    rewrite (real_fstatat_absent rel cp) by done. zconst. fold w1.
    destruct (remote_stat_unreachable rel statbuf w1 Hv Hc1 Hfree)
      as (w' & -> & Hfds & Hfs & Hvs & Ht & _).
    zconst. eexists. split; [reflexivity|]. wsimpl.
    rewrite Hfs, Hfds, Hvs, Ht. subst w1. wsimpl.
    by rewrite net_events_snoc_real.
  - intros flags va_mode Hf. unfold openat. mred.
    rewrite Hhook, bool_decide_eq_false_2, Hr, Hcl, Hf by done.
    rewrite bool_decide_eq_false_2 by done. cbv beta iota.
    unfold ensure_cached_file, ensure_cached_file_exit. rewrite Hcp. mred.
    rewrite (real_fstatat_absent rel cp) by done. zconst. fold w1.
    destruct (remote_stat_unreachable rel stat_zero w1 Hv Hc1 Hfree)
      as (w' & -> & Hfds & Hfs & Hvs & Ht & _).
    zconst. change (exit_code ExitStatFailed <? 0) with true. cbv beta iota.
    eexists. split; [reflexivity|]. wsimpl.
    rewrite Hfs, Hfds, Hvs, Ht. subst w1. wsimpl.
    by rewrite net_events_snoc_real.
Qed.

Lemma unreachable_host_is_not_found_witness :
  ∃ w', openat AT_FDCWD (Some "/workspace/notes.txt") O_RDONLY 0 offline_world =
          (-1, w') ∧
        w_errno w' = ENOENT ∧ w_fds w' = w_fds offline_world.
Proof.
  assert (Hc : classify AT_FDCWD (Some "/workspace/notes.txt") offline_world =
               Some "notes.txt"%string) by (vm_compute; reflexivity).
  assert (Hr : "notes.txt"%string ≠ EmptyString) by discriminate.
  assert (Hf : connect_fails offline_world).
  { exists []. right. exists FOk. by split. }
  pose proof (unreachable_host_is_not_found AT_FDCWD
                (Some "/workspace/notes.txt") "notes.txt"
                "/tmp/.wscache/notes.txt" offline_world
                eq_refl Hc Hr eq_refl eq_refl eq_refl Hf eq_refl) as [_ H].
  destruct (H O_RDONLY 0 eq_refl) as (w' & H1 & H2 & _ & H3 & _).
  exists w'. split; [exact H1|]. split; [exact H2|exact H3].
Defined.

(** ** The directories above a cache path *)

Lemma string_app_nil_r s : s +:+ "" = s.
Proof.
  induction s as [|c s IH]; [done|].
  change (String c (s +:+ "") = String c s). by rewrite IH.
Qed.

Lemma dirs_added_keeps w w' bound p nd :
  dirs_added w w' bound → w_fs w !! p = Some nd → w_fs w' !! p = Some nd.
Proof. intros H Hp. destruct (H p) as [->|(Hn & _)]; congruence. Qed.

Lemma sys_mkdir_exists path mode w :
  FFail ∉ w_script w →
  is_Some (w_fs (sys_mkdir path mode w).2 !! path) ∧
  FFail ∉ w_script (sys_mkdir path mode w).2.
Proof.
  intros Hs. unfold sys_mkdir. mred.
  destruct (next_fault_clean w Hs) as (f & w1 & -> & Hf & Hs1 & Hw1).
  assert (Hfs : w_fs w1 = w_fs w) by (rewrite Hw1; done).
  destruct f; [|done|]; cbv beta iota;
    (destruct (w_fs w1 !! path) eqn:E; simpl;
     [by rewrite E|by rewrite lookup_insert_eq]).
Qed.

Lemma mkdirs_loop_ancestors rest :
  ∀ done w,
    FFail ∉ w_script w →
    ∀ a b, rest = a +:+ String "/" b →
           is_Some (w_fs (mkdirs_loop done rest w).2 !! (done +:+ a)).
Proof.
  induction rest as [|c rest IH]; intros done w Hs a b Hab.
  { destruct a; discriminate. }
  simpl. mred.
  assert (Hstep : ∀ w1, FFail ∉ w_script w1 →
            (c = "/"%char → is_Some (w_fs w1 !! done)) →
            is_Some (w_fs (mkdirs_loop (done +:+ String c "") rest w1).2
                     !! (done +:+ a))).
  { intros w1 Hs1 Hd. destruct a as [|c' a'].
    - injection Hab as -> ->. rewrite string_app_nil_r.
      destruct (Hd eq_refl) as [nd Hnd].
      destruct (mkdirs_loop (done +:+ "/") b w1) as [u w2] eqn:E.
      apply mkdirs_loop_spec in E as (_ & D & _). simpl.
      exists nd. by eapply dirs_added_keeps.
    - change (String c rest = String c' (a' +:+ String "/" b)) in Hab.
      injection Hab as -> ->.
      replace (done +:+ String c' a') with ((done +:+ String c' "") +:+ a')
        by (by rewrite string_app_assoc).
      by eapply IH. }
  destruct (Ascii.eqb_spec c "/") as [->|Hne]; cbv beta iota.
  - pose proof (sys_mkdir_exists done 493 w Hs) as [Hd Hs1].
    destruct (sys_mkdir done 493 w) as [r w1]. simpl in Hd, Hs1.
    by apply Hstep.
  - by apply Hstep.
Qed.



(** ** A path whose cache path does not fit *)

(** X15.  A path of the namespace whose cache path does not fit in
    [PATH_MAX] characters (a relative path of 4082 characters or more) is
    reported as not found by every entry point: -1 with [ENOENT], and the
    world is otherwise as it was.  The host is not asked. *)
Theorem unfitting_cache_path_is_not_found (dirfd : Z) (pathname : option string)
    (rel : string) (w : World) :
  w_in_hook w = false →
  classify dirfd pathname w = Some rel →
  cache_path_for rel PATH_MAX = None →
  4082 ≤ strlen rel ∧
  (∀ statbuf flags,
     fstatat dirfd pathname statbuf flags w = ((-1, statbuf), set_errno ENOENT w)) ∧
  (∀ mode flags,
     has_flag mode W_OK = false →
     faccessat dirfd pathname mode flags w = (-1, set_errno ENOENT w)) ∧
  (∀ flags va_mode,
     has_flag flags (Z.lor O_WRONLY O_RDWR) = false →
     openat dirfd pathname flags va_mode w = (-1, set_errno ENOENT w)).
Proof.
  intros Hhook Hin Hcp.
  destruct (classify_resolved _ _ _ _ Hin) as (p & r & -> & Hr & Hc).
  assert (Hlen : 4082 ≤ strlen rel).
  { unfold cache_path_for in Hcp. destruct (_ >=? _) eqn:E; [|done]. zbool.
    rewrite strlen_app in E. change (strlen CACHE_DIR) with 14 in E.
    unfold PATH_MAX in E. lia. }
  assert (Hrel : rel ≠ EmptyString).
  { intros ->. unfold strlen in Hlen. simpl in Hlen. lia. }
  assert (Hw : set_errno ENOENT (set_in_hook false (set_in_hook true w)) =
               set_errno ENOENT w).
  { destruct w. simpl in *. by subst. }
  split; [done|]. split; [|split].
  - intros statbuf flags. unfold fstatat. mred.
    rewrite Hhook, bool_decide_eq_false_2, Hr, Hc by done.
    rewrite bool_decide_eq_false_2 by done. cbv beta iota.
    unfold ensure_cached_stat. rewrite Hcp. mred. zconst. by rewrite Hw.
  - intros mode flags Hm. unfold faccessat. mred.
    rewrite Hhook, bool_decide_eq_false_2, Hr, Hc, Hm by done.
    rewrite bool_decide_eq_false_2 by done. cbv beta iota.
    unfold ensure_cached_stat. rewrite Hcp. mred. zconst. by rewrite Hw.
  - intros flags va_mode Hf. unfold openat. mred.
    rewrite Hhook, bool_decide_eq_false_2, Hr, Hc, Hf by done.
    rewrite bool_decide_eq_false_2 by done. cbv beta iota.
    unfold ensure_cached_file, ensure_cached_file_exit. rewrite Hcp. mred.
    change (exit_code ExitPathTooLong <? 0) with true. cbv beta iota.
    by rewrite Hw.
Qed.

Lemma unfitting_cache_path_is_not_found_witness :
  fstatat AT_FDCWD (Some ("/workspace/" +:+ letters 4082)) stat_zero 0 fresh_world =
  ((-1, stat_zero), set_errno ENOENT fresh_world).
Proof.
  assert (Hc : classify AT_FDCWD (Some ("/workspace/" +:+ letters 4082))
                 fresh_world = Some (letters 4082)) by (vm_compute; reflexivity).
  assert (Hp : cache_path_for (letters 4082) PATH_MAX = None)
    by (vm_compute; reflexivity).
  exact (proj1 (proj2 (unfitting_cache_path_is_not_found AT_FDCWD _ _ fresh_world
                         eq_refl Hc Hp)) stat_zero 0).
Defined.

(** ** One connection for many requests *)

(** X16.  The connection is kept from one remote call to the next.  On a
    process without a connection and with no call made to fail, a
    [remote_stat] and a [remote_read_chunk] whose responses are frames of
    between 1 and 16 MiB, whatever status they carry, make one connection:
    the log shows the [connect], the STAT request and the READ request, and
    [vsock_fd] is the descriptor of that connection after both. *)
Theorem connection_is_kept_between_calls (rel1 rel2 : string) (st : struct_stat)
    (offset len_ : Z) (resp1 resp2 : list byte) (w : World) :
  quiet w →
  w_vsock_fd w < 0 →
  serves (w_host w) (stat_msg rel1) resp1 →
  serves (w_host w) (read_msg rel2 offset len_) resp2 →
  0 < len resp1 ≤ 16 * 1024 * 1024 →
  0 < len resp2 ≤ 16 * 1024 * 1024 →
  let w1 := (remote_stat rel1 st w).2 in
  let w2 := (remote_read_chunk rel2 offset len_ w1).2 in
  net_events (w_trace w2) =
    net_events (w_trace w) ++
    [EvConnect (Z.of_nat (w_next_fd w)); EvRequest (frame (stat_msg rel1));
     EvRequest (frame (read_msg rel2 offset len_))] ∧
  w_vsock_fd w1 = Z.of_nat (w_next_fd w) ∧
  w_vsock_fd w2 = Z.of_nat (w_next_fd w).
Proof.
  intros Hq Hv H1 H2 L1 L2 w1 w2.
  assert (Hw1 : w1 = exchanged (stat_msg rel1) w).
  { subst w1. rewrite remote_stat_exchange, <- stat_msg_len.
    by rewrite (exchange_ok _ resp1) by (done || apply H1). }
  destruct (exchanged_quiet (stat_msg rel1) w Hq) as [Hq1 Hv1].
  rewrite <- Hw1 in Hq1, Hv1.
  assert (Hh : w_host w1 = w_host w).
  { rewrite Hw1. unfold exchanged, linked.
    by destruct (w_vsock_fd w <? 0). }
  assert (Hw2 : w2 = set_trace
                       (w_trace w1 ++ [EvRequest (frame (read_msg rel2 offset len_))])
                       w1).
  { subst w2. rewrite remote_read_chunk_exchange, <- (read_msg_len rel2 offset len_).
    rewrite (exchange_ok _ resp2) by (done || (rewrite Hh; apply H2)).
    by rewrite exchanged_linked. }
  assert (Hl : linked w = connected w).
  { unfold linked. by destruct (w_vsock_fd w <? 0) eqn:E; zbool; [|lia]. }
  rewrite Hw2. wsimpl. rewrite Hw1. unfold exchanged. rewrite Hl.
  unfold connected. wsimpl. rewrite !net_events_app. simpl.
  by rewrite <- !app_assoc.
Qed.

Lemma connection_is_kept_between_calls_witness :
  let w1 := (remote_stat "a" stat_zero terse_world).2 in
  let w2 := (remote_read_chunk "b" 0 16 w1).2 in
  net_events (w_trace w2) =
    [EvConnect 3; EvRequest (frame (stat_msg "a"));
     EvRequest (frame (read_msg "b" 0 16))] ∧
  w_vsock_fd w2 = 3.
Proof.
  assert (Hq : quiet terse_world) by (split; [reflexivity|simpl; lia]).
  assert (Hv : w_vsock_fd terse_world < 0) by (simpl; lia).
  assert (Hl : 0 < len [to_u8 STATUS_OK] ≤ 16 * 1024 * 1024)
    by (unfold len; simpl; lia).
  pose proof (connection_is_kept_between_calls "a" "b" stat_zero 0 16
                [to_u8 STATUS_OK] [to_u8 STATUS_OK] terse_world Hq Hv
                (λ _, eq_refl) (λ _, eq_refl) Hl Hl) as (H1 & _ & H2).
  split; [exact H1|exact H2].
Defined.

(** ** Reads that come back short *)

Lemma parse_read_partial data n :
  0 < len data ≤ n → n ≤ READ_CHUNK_SIZE →
  parse_read (read_response data) (len (read_response data)) n = (len data, data).
Proof.
  intros Hlen Hn. unfold parse_read, read_response, READ_CHUNK_SIZE in *.
  rewrite !len_app. change (len [to_u8 STATUS_OK]) with 1.
  change (len (be32 (len data))) with 4.
  change (at_ ([to_u8 STATUS_OK] ++ be32 (len data) ++ data) 0) with (u8 (to_u8 0)).
  rewrite (rd32_skip [to_u8 STATUS_OK]) by reflexivity.
  rewrite rd32_take by reflexivity.
  change (u8 (to_u8 0)) with 0.
  change (drop 5 ([to_u8 STATUS_OK] ++ be32 (len data) ++ data)) with data.
  rewrite rd32_be32 by (change (2 ^ 32) with 4294967296; lia). simpl.
  destruct (1 + (4 + len data) <? 1) eqn:E1; [zbool; lia|].
  destruct (1 + (4 + len data) <? 5) eqn:E2; [zbool; lia|].
  destruct (len data >? 1 + (4 + len data) - 5) eqn:E3; [zbool; lia|].
  destruct (len data >? n) eqn:E4; [zbool; lia|].
  by rewrite take_len.
Qed.

Lemma remote_read_chunk_partial rel off n data w :
  quiet w → 0 ≤ w_vsock_fd w →
  w_host w (requests_of (w_trace w)) (frame (read_msg rel off n)) =
    frame (read_response data) →
  0 < len data ≤ n → n ≤ READ_CHUNK_SIZE →
  remote_read_chunk rel off n w =
  ((len data, data),
   set_trace (w_trace w ++ [EvRequest (frame (read_msg rel off n))]) w).
Proof.
  intros Hq Hv Hhost Hlen Hn.
  rewrite remote_read_chunk_exchange, <- (read_msg_len rel off n).
  rewrite (exchange_ok _ (read_response data)); [| done | | done].
  - by rewrite parse_read_partial, exchanged_linked.
  - unfold read_response. rewrite !len_app.
    change (len [to_u8 STATUS_OK]) with 1.
    change (len (be32 (len data))) with 4.
    unfold READ_CHUNK_SIZE in *. lia.
Qed.

Lemma served_from_total rel h chunks :
  ∀ offset size, served_from rel h offset size chunks →
                 len (concat chunks) = size - offset.
Proof.
  induction chunks as [|c cs IH]; intros offset size; simpl.
  - intros ->. unfold len. simpl. lia.
  - intros (Hc & _ & Hrest). rewrite len_app, (IH _ _ Hrest). lia.
Qed.

Lemma download_loop_short_ok rel fd name file_size chunks :
  ∀ fuel offset data w,
    file_size - offset ≤ Z.of_nat fuel →
    w_script w = [] → 0 ≤ w_vsock_fd w → w_tx w = [] → w_rx w = [] →
    w_fds w !! fd = Some (FdFile name) →
    w_fs w !! name = Some (NFile data) →
    served_from rel (w_host w) offset file_size chunks →
    download_loop fuel rel fd name offset file_size w =
    (ExitPopulated,
     set_fs (<[name := NFile (data ++ concat chunks)]> (w_fs w))
       (set_trace
          (w_trace w ++ map EvRequest (reads_from rel offset file_size chunks))
          w)).
Proof.
  induction chunks as [|c cs IH];
    intros fuel offset data w Hfuel Hs Hv Htx Hrx Hfd Hn Hsrv.
  - simpl in Hsrv. subst offset. simpl.
    rewrite !app_nil_r, insert_id by done.
    destruct fuel; simpl; mred; rewrite Z.ltb_irrefl; cbv beta iota;
      by destruct w.
  - simpl in Hsrv. destruct Hsrv as (Hc & Hhost & Hrest).
    pose proof (served_from_total _ _ _ _ _ Hrest) as Htot.
    pose proof (len_nonneg (concat cs)) as Hcs.
    assert (Hwant : 0 < want_at offset file_size ≤ READ_CHUNK_SIZE ∧
                    want_at offset file_size ≤ file_size - offset).
    { unfold want_at in *.
      destruct (file_size - offset <? READ_CHUNK_SIZE) eqn:E; zbool;
        unfold READ_CHUNK_SIZE in *; lia. }
    destruct fuel as [|fuel]; [lia|].
    simpl download_loop. mred.
    destruct (offset <? file_size) eqn:Eo; [|zbool; lia]. cbv beta iota.
    assert (Hw : (if file_size - offset <? READ_CHUNK_SIZE
                  then wrap32 (file_size - offset) else READ_CHUNK_SIZE) =
                 want_at offset file_size).
    { unfold want_at. destruct (file_size - offset <? READ_CHUNK_SIZE) eqn:E;
        [|done]. zbool.
      unfold wrap32, READ_CHUNK_SIZE in *. apply Z.mod_small.
      change (2 ^ 32) with 4294967296. lia. }
    rewrite Hw.
    rewrite (remote_read_chunk_partial rel offset _ c); try done; try lia.
    cbv beta iota.
    destruct (len c <? 0) eqn:E1; [zbool; lia|].
    destruct (len c =? 0) eqn:E2; [zbool; lia|].
    cbv beta iota.
    rewrite (write_loop_ok fd name data); try done; try lia.
    cbv beta iota. wsimpl.
    rewrite (IH fuel _ (data ++ c) _); wsimpl;
      try done; try lia; try apply lookup_insert_eq.
    simpl. by rewrite insert_insert_eq, <- !app_assoc.
Qed.



(** ** A file the host does not have *)

Lemma parse_stat_refused resp resp_len st :
  at_ resp 0 ≠ STATUS_OK → parse_stat resp resp_len st = (-1, st).
Proof.
  intros H. unfold parse_stat.
  destruct (at_ resp 0 =? STATUS_OK) eqn:E; [zbool; done|].
  by rewrite orb_true_r.
Qed.

Lemma remote_stat_refused rel st resp w :
  quiet w →
  serves (w_host w) (stat_msg rel) resp →
  0 < len resp ≤ 16 * 1024 * 1024 →
  at_ resp 0 ≠ STATUS_OK →
  remote_stat rel st w = ((-1, st), exchanged (stat_msg rel) w).
Proof.
  intros Hq Hhost Hlen Hst.
  rewrite remote_stat_exchange, <- stat_msg_len.
  rewrite (exchange_ok _ resp) by (done || apply Hhost).
  by rewrite parse_stat_refused.
Qed.

(** X18.  The host answers the STAT request for a path of the namespace
    that is not cached with a status other than OK.  A status query and a
    read-only open return -1 with [ENOENT]; the host has received the one
    STAT request and no READ; nothing is created locally; and the
    connection is kept. *)
Theorem refused_stat_is_not_found (dirfd : Z) (pathname : option string)
    (rel cp : string) (resp : list byte) (w : World) :
  w_in_hook w = false →
  quiet w →
  classify dirfd pathname w = Some rel →
  rel ≠ EmptyString →
  cache_path_for rel PATH_MAX = Some cp →
  w_fs w !! cp = None →
  serves (w_host w) (stat_msg rel) resp →
  0 < len resp ≤ 16 * 1024 * 1024 →
  at_ resp 0 ≠ STATUS_OK →
  (∀ statbuf flags,
     ∃ w', fstatat dirfd pathname statbuf flags w = ((-1, statbuf), w') ∧
           w_errno w' = ENOENT ∧ w_fs w' = w_fs w ∧ 0 ≤ w_vsock_fd w' ∧
           requests_of (w_trace w') =
             requests_of (w_trace w) ++ [frame (stat_msg rel)]) ∧
  (∀ flags va_mode,
     has_flag flags (Z.lor O_WRONLY O_RDWR) = false →
     ∃ w', openat dirfd pathname flags va_mode w = (-1, w') ∧
           w_errno w' = ENOENT ∧ w_fs w' = w_fs w ∧ 0 ≤ w_vsock_fd w' ∧
           requests_of (w_trace w') =
             requests_of (w_trace w) ++ [frame (stat_msg rel)]).
Proof.
  intros Hhook Hq Hin Hrel Hcp Hmiss Hhost Hlen Hst.
  destruct (classify_resolved _ _ _ _ Hin) as (p & r & -> & Hr & Hc).
  set (w1 := set_errno ENOENT
               (set_trace (w_trace (set_in_hook true w) ++
                           [EvRealFstatat AT_FDCWD (Some cp) 0])
                  (set_in_hook true w))).
  assert (Hq1 : quiet w1) by (destruct Hq; by split).
  destruct (linked_quiet w1 Hq1) as (_ & _ & _ & Hv & _ & Hreq & Hfs).
  assert (Hreqs : requests_of (w_trace (exchanged (stat_msg rel) w1)) =
                  requests_of (w_trace w) ++ [frame (stat_msg rel)]).
  { unfold exchanged. wsimpl. rewrite requests_of_app, Hreq. subst w1. wsimpl.
    rewrite requests_of_app. simpl. by rewrite app_nil_r. }
  split.
  - intros statbuf flags. unfold fstatat. mred.
    rewrite Hhook, bool_decide_eq_false_2, Hr, Hc by done.
    rewrite bool_decide_eq_false_2 by done. cbv beta iota.
    unfold ensure_cached_stat. rewrite Hcp. mred.
    rewrite (real_fstatat_absent rel cp) by done. zconst. fold w1.
    rewrite (remote_stat_refused rel statbuf resp) by done. zconst.
    eexists. split; [reflexivity|]. wsimpl.
    split; [done|]. split; [unfold exchanged; wsimpl; by rewrite Hfs|].
    split; [unfold exchanged; wsimpl; done|done].
  - intros flags va_mode Hf. unfold openat. mred.
    rewrite Hhook, bool_decide_eq_false_2, Hr, Hc, Hf by done.
    rewrite bool_decide_eq_false_2 by done. cbv beta iota.
    unfold ensure_cached_file, ensure_cached_file_exit. rewrite Hcp. mred.
    rewrite (real_fstatat_absent rel cp) by done. zconst. fold w1.
    rewrite (remote_stat_refused rel stat_zero resp) by done. zconst.
    change (exit_code ExitStatFailed <? 0) with true. cbv beta iota.
    eexists. split; [reflexivity|]. wsimpl.
    split; [done|]. split; [unfold exchanged; wsimpl; by rewrite Hfs|].
    split; [unfold exchanged; wsimpl; done|done].
Qed.

Lemma refused_stat_is_not_found_witness :
  ∃ w', openat AT_FDCWD (Some "/workspace/notes.txt") O_RDONLY 0 bare_world =
          (-1, w') ∧
        w_errno w' = ENOENT ∧ 0 ≤ w_vsock_fd w'.
Proof.
  assert (Hq : quiet bare_world) by (split; [reflexivity|simpl; lia]).
  assert (Hc : classify AT_FDCWD (Some "/workspace/notes.txt") bare_world =
               Some "notes.txt"%string) by (vm_compute; reflexivity).
  assert (Hr : "notes.txt"%string ≠ EmptyString) by discriminate.
  assert (Hl : 0 < len [to_u8 STATUS_NOENT] ≤ 16 * 1024 * 1024)
    by (unfold len; simpl; lia).
  assert (Hs : at_ [to_u8 STATUS_NOENT] 0 ≠ STATUS_OK) by (vm_compute; discriminate).
  pose proof (refused_stat_is_not_found AT_FDCWD (Some "/workspace/notes.txt")
                "notes.txt" "/tmp/.wscache/notes.txt" [to_u8 STATUS_NOENT]
                bare_world eq_refl Hq Hc Hr eq_refl eq_refl (λ _, eq_refl) Hl Hs)
    as [_ H].
  destruct (H O_RDONLY 0 eq_refl) as (w' & H1 & H2 & _ & H3 & _).
  exists w'. split; [exact H1|]. split; [exact H2|exact H3].
Defined.

